(** * Camera factory of the therapy device: hardware detection, selection
      and creation

    A shallow embedding of [src/cpp/hardware/camera_factory.cpp] together
    with the declarations it relies on ([include/hardware/icamera.h],
    [include/hardware/camera_factory.h]).

    - C++ [float] is IEEE-754 binary32, modelled with the parametric
      [spec_float] operations of the Standard Library at [prec = 24],
      [emax = 128];
    - the factory object and the process-wide logger form the [World] that
      every member function threads through;
    - everything the factory calls but does not define (vendor sub-factories,
      the camera objects they hand out, the simulation camera constructor,
      the wall clock, the two build flags) is an [Environment] value. *)

From Stdlib Require Import ZArith Bool List String Ascii Permutation Lia.
From Stdlib Require Import Floats.SpecFloat.
From Stdlib Require Import QArith DecimalString OrderedTypeEx.
From stdpp Require Import base option gmap strings sorting.
Import ListNotations.

Local Open Scope Z_scope.
Local Open Scope string_scope.
Local Open Scope list_scope.

(** ** binary32 arithmetic *)

Module F32.

Definition prec : Z := 24.
Definition emax : Z := 128.

Definition float : Type := spec_float.

Definition of_Z (z : Z) : float := binary_normalize prec emax z 0 false.

Definition sub : float -> float -> float := SFsub prec emax.
Definition div : float -> float -> float := SFdiv prec emax.
Definition abs : float -> float := SFabs.
Definition ltb : float -> float -> bool := SFltb.
Definition gtb (a b : float) : bool := SFltb b a.

(** A decimal literal [n / 10^k] written with the [f] suffix: division of
    two exactly representable integers is correctly rounded, so it yields
    the same binary32 value as the compiler's conversion of the literal. *)
Definition literal (n : Z) (k : nat) : float :=
  div (of_Z n) (of_Z (10 ^ Z.of_nat k)).

(** Exact rational value of a finite float. *)
Definition to_Q (f : float) : option Q :=
  match f with
  | S754_zero _ => Some 0%Q
  | S754_finite s m e =>
      let mag := (inject_Z (Z.pos m) * Qpower 2 e)%Q in
      Some (if s then Qopp mag else mag)
  | _ => None
  end.

End F32.

Abbreviation float32 := F32.float.

(** ** icamera.h *)

(** [enum class CameraError]. *)
Inductive CameraError : Set :=
| SUCCESS
| DEVICE_NOT_FOUND
| CONNECTION_FAILED
| INITIALIZATION_FAILED
| CAPTURE_FAILED
| INVALID_CONFIGURATION
| HARDWARE_FAULT
| FIRMWARE_ERROR
| CALIBRATION_ERROR
| TIMEOUT
| INSUFFICIENT_POWER
| TEMPERATURE_ERROR
| MEMORY_ERROR
| SAFETY_VIOLATION.

(** The enumerator values written in the declaration. *)
Definition CameraError_code (e : CameraError) : Z :=
  match e with
  | SUCCESS => 0
  | DEVICE_NOT_FOUND => 1001
  | CONNECTION_FAILED => 1002
  | INITIALIZATION_FAILED => 1003
  | CAPTURE_FAILED => 1004
  | INVALID_CONFIGURATION => 1005
  | HARDWARE_FAULT => 1006
  | FIRMWARE_ERROR => 1007
  | CALIBRATION_ERROR => 1008
  | TIMEOUT => 1009
  | INSUFFICIENT_POWER => 1010
  | TEMPERATURE_ERROR => 1011
  | MEMORY_ERROR => 1012
  | SAFETY_VIOLATION => 1013
  end.

Definition CameraError_all : list CameraError :=
  [SUCCESS; DEVICE_NOT_FOUND; CONNECTION_FAILED; INITIALIZATION_FAILED;
   CAPTURE_FAILED; INVALID_CONFIGURATION; HARDWARE_FAULT; FIRMWARE_ERROR;
   CALIBRATION_ERROR; TIMEOUT; INSUFFICIENT_POWER; TEMPERATURE_ERROR;
   MEMORY_ERROR; SAFETY_VIOLATION].

(** [static_cast<CameraError>(code)] restricted to the declared enumerators. *)
Definition CameraError_of_code (c : Z) : option CameraError :=
  find (fun e => Z.eqb (CameraError_code e) c) CameraError_all.

(** The rows of the error taxonomy table: code and kind. *)
Definition taxonomy_table : list (Z * string) :=
  [(0, "SUCCESS"); (1001, "DEVICE_NOT_FOUND"); (1002, "CONNECTION_FAILED");
   (1003, "INITIALIZATION_FAILED"); (1004, "CAPTURE_FAILED");
   (1005, "INVALID_CONFIGURATION"); (1006, "HARDWARE_FAULT");
   (1007, "FIRMWARE_ERROR"); (1008, "CALIBRATION_ERROR"); (1009, "TIMEOUT");
   (1010, "INSUFFICIENT_POWER"); (1011, "TEMPERATURE_ERROR");
   (1012, "MEMORY_ERROR"); (1013, "SAFETY_VIOLATION")].

Definition CameraError_name (e : CameraError) : string :=
  match e with
  | SUCCESS => "SUCCESS"
  | DEVICE_NOT_FOUND => "DEVICE_NOT_FOUND"
  | CONNECTION_FAILED => "CONNECTION_FAILED"
  | INITIALIZATION_FAILED => "INITIALIZATION_FAILED"
  | CAPTURE_FAILED => "CAPTURE_FAILED"
  | INVALID_CONFIGURATION => "INVALID_CONFIGURATION"
  | HARDWARE_FAULT => "HARDWARE_FAULT"
  | FIRMWARE_ERROR => "FIRMWARE_ERROR"
  | CALIBRATION_ERROR => "CALIBRATION_ERROR"
  | TIMEOUT => "TIMEOUT"
  | INSUFFICIENT_POWER => "INSUFFICIENT_POWER"
  | TEMPERATURE_ERROR => "TEMPERATURE_ERROR"
  | MEMORY_ERROR => "MEMORY_ERROR"
  | SAFETY_VIOLATION => "SAFETY_VIOLATION"
  end.

(** [struct CameraConfig], each field with its default member initializer. *)
Record CameraConfig : Type := {
  width : Z;
  height : Z;
  fps : Z;
  enable_color : bool;
  enable_depth : bool;
  enable_infrared : bool;
  color_format : Z;
  auto_exposure : bool;
  exposure_value : Z;
  auto_white_balance : bool;
  enable_hardware_sync : bool;
  buffer_size : Z;
  timeout_ms : Z;
  enable_validation : bool;
  enable_checksums : bool;
  min_confidence : float32;
  max_temperature : float32;
  watchdog_timeout_ms : Z;
  enable_safety_monitoring : bool
}.

(** [CameraConfig{}]: value-initialisation applies every default member
    initializer. *)
Definition CameraConfig_default : CameraConfig := {|
  width := 640;
  height := 480;
  fps := 30;
  enable_color := true;
  enable_depth := true;
  enable_infrared := false;
  color_format := 0;
  auto_exposure := true;
  exposure_value := 0;
  auto_white_balance := true;
  enable_hardware_sync := true;
  buffer_size := 5;
  timeout_ms := 1000;
  enable_validation := true;
  enable_checksums := true;
  min_confidence := F32.literal 8 1;
  max_temperature := F32.literal 700 1;
  watchdog_timeout_ms := 5000;
  enable_safety_monitoring := true
|}.

(** ** camera_factory.h *)

(** [struct HardwareDetectionResult]; [additional_info] is a
    [std::map<std::string, std::string>]. *)
Record HardwareDetectionResult : Type := {
  camera_type : string;
  model_name : string;
  serial_number : string;
  firmware_version : string;
  is_medical_grade : bool;
  is_production_ready : bool;
  detection_confidence : float32;
  connection_interface : string;
  additional_info : gmap string string
}.

(** [struct CameraFactoryConfig]. *)
Record CameraFactoryConfig : Type := {
  prefer_production_hardware : bool;
  enable_automatic_detection : bool;
  enable_hardware_validation : bool;
  enable_medical_compliance_check : bool;
  preferred_camera_type : string;
  detection_timeout_ms : Z;
  enable_fallback_mode : bool;
  enable_simulation_mode : bool
}.

(** [static const CameraFactoryConfig DEFAULT_CONFIG]. *)
Definition DEFAULT_CONFIG : CameraFactoryConfig := {|
  prefer_production_hardware := true;
  enable_automatic_detection := true;
  enable_hardware_validation := true;
  enable_medical_compliance_check := true;
  preferred_camera_type := "auto";
  detection_timeout_ms := 5000;
  enable_fallback_mode := true;
  enable_simulation_mode := false
|}.

(** [std::chrono::system_clock::time_point] and durations, counted in
    nanoseconds (the tick of [system_clock]). *)
Definition time_point : Type := Z.

(** [static const std::chrono::minutes DETECTION_CACHE_TIMEOUT{5}],
    converted to the common duration type of the comparison. *)
Definition DETECTION_CACHE_TIMEOUT : Z := 5 * 60 * 1000000000.

(** ** What the factory calls but does not define *)

(** A call that either returns or throws a [std::exception] whose [what()]
    is the carried text. *)
Inductive except (A : Type) : Type :=
| Returns (a : A)
| Throws (what : string).
Arguments Returns {A} a.
Arguments Throws {A} what.

(** The objects behind a [std::unique_ptr<ICamera>]: the simulation camera
    the factory constructs itself, or a camera handed out by a sub-factory or
    a registered creator, of which the factory only ever calls [validate()]. *)
Inductive CameraSource : Set :=
| FromD435Factory
| FromFemtoMegaFactory
| FromCustomFactory.

Inductive ICamera : Type :=
| SimulationCamera (camera_type : string)
| ExternalCamera (source : CameraSource) (requested_type : string)
                 (validate : except CameraError).

(** [nullptr] is [None]. *)
Definition unique_ptr (A : Type) : Type := option A.

(** Outcome of asking a sub-factory or a registered creator for a camera:
    an exception, [nullptr], or an object with the given [validate()]
    behaviour. *)
Inductive Creation : Type :=
| CreationThrows (what : string)
| CreationNull
| CreationMade (validate : except CameraError).

Record Environment : Type := {
  (** build flags guarding the two probes *)
  THERAPY_DEVICE_HAS_REALSENSE : bool;
  THERAPY_DEVICE_HAS_ORBBEC : bool;
  (** [D435CameraFactory] *)
  d435_detectConnectedCameras : except (list string);
  d435_getAvailableCameraTypes : list string;
  d435_createCamera : string -> Creation;
  (** [FemtoMegaCameraFactory] *)
  femto_mega_detectConnectedCameras : except (list string);
  femto_mega_getAvailableCameraTypes : list string;
  femto_mega_createCamera : string -> Creation;
  (** [SimulationCamera::SimulationCamera(camera_type)]: [Some what] when
      the construction throws *)
  SimulationCamera_ctor_throws : string -> option string;
  (** [std::chrono::system_clock::now()] *)
  system_clock_now : time_point
}.

(** ** Logger *)

Inductive LogLevel : Set := TRACE | DEBUG | INFO | WARNING | ERROR | CRITICAL | FATAL.

Record LogRecord : Type := {
  log_level : LogLevel;
  log_component : string;
  log_message : string
}.

(** ** The factory object *)

(** The data members of [class CameraFactory]. [mutex_] carries no data;
    taking it twice on one thread is modelled by [relock] below. The two
    sub-factory pointers are set once by [initialize] and the objects behind
    them are part of the [Environment]. *)
Record CameraFactory : Type := {
  config_ : CameraFactoryConfig;
  is_initialized_ : bool;
  simulation_mode_ : bool;
  detection_cache_ : list HardwareDetectionResult;
  last_detection_time_ : time_point;
  detection_cache_valid_ : bool;
  custom_factories_ : gmap string Creation;
  error_messages_ : list string;
  medical_compliance_verified_ : bool
}.

Record World : Type := {
  factory : CameraFactory;
  logger : list LogRecord
}.

Definition with_factory (f : CameraFactory -> CameraFactory) (w : World) : World :=
  {| factory := f (factory w); logger := logger w |}.

Definition set_config_ (c : CameraFactoryConfig) (f : CameraFactory) : CameraFactory :=
  {| config_ := c;
     is_initialized_ := is_initialized_ f;
     simulation_mode_ := simulation_mode_ f;
     detection_cache_ := detection_cache_ f;
     last_detection_time_ := last_detection_time_ f;
     detection_cache_valid_ := detection_cache_valid_ f;
     custom_factories_ := custom_factories_ f;
     error_messages_ := error_messages_ f;
     medical_compliance_verified_ := medical_compliance_verified_ f |}.

Definition set_is_initialized_ (b : bool) (f : CameraFactory) : CameraFactory :=
  {| config_ := config_ f;
     is_initialized_ := b;
     simulation_mode_ := simulation_mode_ f;
     detection_cache_ := detection_cache_ f;
     last_detection_time_ := last_detection_time_ f;
     detection_cache_valid_ := detection_cache_valid_ f;
     custom_factories_ := custom_factories_ f;
     error_messages_ := error_messages_ f;
     medical_compliance_verified_ := medical_compliance_verified_ f |}.

Definition set_simulation_mode_ (b : bool) (f : CameraFactory) : CameraFactory :=
  {| config_ := config_ f;
     is_initialized_ := is_initialized_ f;
     simulation_mode_ := b;
     detection_cache_ := detection_cache_ f;
     last_detection_time_ := last_detection_time_ f;
     detection_cache_valid_ := detection_cache_valid_ f;
     custom_factories_ := custom_factories_ f;
     error_messages_ := error_messages_ f;
     medical_compliance_verified_ := medical_compliance_verified_ f |}.

(** The three cache members are always written together. *)
Definition set_detection_cache (c : list HardwareDetectionResult) (t : time_point)
    (valid : bool) (f : CameraFactory) : CameraFactory :=
  {| config_ := config_ f;
     is_initialized_ := is_initialized_ f;
     simulation_mode_ := simulation_mode_ f;
     detection_cache_ := c;
     last_detection_time_ := t;
     detection_cache_valid_ := valid;
     custom_factories_ := custom_factories_ f;
     error_messages_ := error_messages_ f;
     medical_compliance_verified_ := medical_compliance_verified_ f |}.

Definition set_error_messages_ (l : list string) (f : CameraFactory) : CameraFactory :=
  {| config_ := config_ f;
     is_initialized_ := is_initialized_ f;
     simulation_mode_ := simulation_mode_ f;
     detection_cache_ := detection_cache_ f;
     last_detection_time_ := last_detection_time_ f;
     detection_cache_valid_ := detection_cache_valid_ f;
     custom_factories_ := custom_factories_ f;
     error_messages_ := l;
     medical_compliance_verified_ := medical_compliance_verified_ f |}.

Definition set_medical_compliance_verified_ (b : bool) (f : CameraFactory) : CameraFactory :=
  {| config_ := config_ f;
     is_initialized_ := is_initialized_ f;
     simulation_mode_ := simulation_mode_ f;
     detection_cache_ := detection_cache_ f;
     last_detection_time_ := last_detection_time_ f;
     detection_cache_valid_ := detection_cache_valid_ f;
     custom_factories_ := custom_factories_ f;
     error_messages_ := error_messages_ f;
     medical_compliance_verified_ := b |}.

(** ** Member functions as state transformers

    A member function maps the world before the call to its result and the
    world after it, or to [None] when the calling thread never returns: it
    blocks on [mutex_], a non-recursive [std::mutex], which it holds
    already. *)
Definition M (A : Type) : Type := World -> option (A * World).

Definition ret {A} (a : A) : M A := fun w => Some (a, w).

Definition bind {A B} (m : M A) (k : A -> M B) : M B :=
  fun w => match m w with
           | Some (a, w') => k a w'
           | None => None
           end.

Definition relock {A} : M A := fun _ => None.

Definition get_factory : M CameraFactory := fun w => Some (factory w, w).

Definition modify_factory (f : CameraFactory -> CameraFactory) : M unit :=
  fun w => Some (tt, with_factory f w).

Declare Scope cpp_scope.
Delimit Scope cpp_scope with cpp.
Notation "x <- m ;; k" := (bind m (fun x => k))
  (at level 100, m at next level, right associativity) : cpp_scope.
Notation "m ;;; k" := (bind m (fun _ => k))
  (at level 100, right associativity) : cpp_scope.
Local Open Scope cpp_scope.

(** [logger.log(level, component, message)]. *)
Definition log (level : LogLevel) (component message : string) : M unit :=
  fun w => Some (tt, {| factory := factory w;
                        logger := logger w ++ [ {| log_level := level;
                                                   log_component := component;
                                                   log_message := message |} ] |}).

(** [operator+] on [std::string]. *)
Infix "+++" := String.append (right associativity, at level 60) : cpp_scope.

(** [std::to_string] of a container size. *)
Definition to_string (n : nat) : string :=
  DecimalString.NilEmpty.string_of_uint (Nat.to_uint n).

(** [for (const auto& x : xs) body(x);] *)
Fixpoint for_each {A} (xs : list A) (body : A -> M unit) : M unit :=
  match xs with
  | [] => ret tt
  | x :: rest => body x ;;; for_each rest body
  end.

(** ** [std::sort]

    The path libstdc++ takes for a range of at most sixteen elements:
    [__introsort_loop] leaves the range alone and [__final_insertion_sort]
    runs [__insertion_sort]. Longer ranges are partitioned first, and with
    a comparator that is not a strict weak order the partition is not
    bound to the range. So every result below about the order of the
    sorted range is stated for ranges of at most [S_threshold] elements;
    the results stated for detection lists of any length rely only on the
    sorted range being a permutation of the input. *)
Section StdSort.
Context {A : Type} (comp : A -> A -> bool).

(** [__unguarded_linear_insert]: [rprefix] is the sorted prefix read from
    its last element backwards; [val] moves left while [comp val next]. *)
Fixpoint unguarded_linear_insert (val : A) (rprefix : list A) : list A :=
  match rprefix with
  | [] => [val]
  | next :: rest =>
      if comp val next then next :: unguarded_linear_insert val rest
      else val :: rprefix
  end.

(** One turn of the loop of [__insertion_sort]: [*i] goes in front when it
    compares before [*first], otherwise it is inserted from the right. *)
Definition insertion_step (prefix : list A) (i : A) : list A :=
  match prefix with
  | [] => [i]
  | first :: _ =>
      if comp i first then i :: prefix
      else rev (unguarded_linear_insert i (rev prefix))
  end.

Definition std_sort (range : list A) : list A :=
  match range with
  | [] => []
  | first :: rest => fold_left insertion_step rest [first]
  end.
End StdSort.

(** [_S_threshold] of libstdc++: the longest range [std::sort] leaves to
    [__insertion_sort] alone, hence the longest on which [std_sort] is the
    sort the code runs. *)
Definition S_threshold : nat := 16.

(** [std::unique] followed by [erase]: consecutive duplicates collapse. *)
Fixpoint std_unique (l : list string) : list string :=
  match l with
  | [] => []
  | x :: rest =>
      match rest with
      | y :: _ => if String.eqb x y then std_unique rest else x :: std_unique rest
      | [] => [x]
      end
  end.

(** ** camera_factory.cpp: private helpers *)

(** [CameraFactory::addErrorMessage]. *)
Definition addErrorMessage (message : string) : M unit :=
  modify_factory (fun f =>
    let pushed := error_messages_ f ++ [message] in
    set_error_messages_
      (if Nat.ltb 100 (length pushed) then tl pushed else pushed) f).

(** [CameraFactory::clearErrorMessages]. *)
Definition clearErrorMessages : M unit :=
  modify_factory (set_error_messages_ []).

(** [CameraFactory::invalidateDetectionCache]. *)
Definition invalidateDetectionCache : M unit :=
  modify_factory (fun f => set_detection_cache [] (last_detection_time_ f) false f).

(** [CameraFactory::isDetectionCacheValid]. Both operands of the subtraction
    are readings of the system clock, far from the ends of its 64-bit range,
    so the difference is the exact one. *)
Definition isDetectionCacheValid (env : Environment) (f : CameraFactory) : bool :=
  if negb (detection_cache_valid_ f) then false
  else
    let now := system_clock_now env in
    let cache_age := now - last_detection_time_ f in
    Z.ltb cache_age DETECTION_CACHE_TIMEOUT.

(** [CameraFactory::checkMedicalCertification]. *)
Definition checkMedicalCertification (result : HardwareDetectionResult) : bool :=
  is_medical_grade result.

(** [CameraFactory::validateDetectionResult]; the production-readiness test
    in the middle has an empty body. *)
Definition validateDetectionResult (config : CameraFactoryConfig)
    (result : HardwareDetectionResult) : bool :=
  if enable_medical_compliance_check config && negb (checkMedicalCertification result)
  then false
  else if F32.ltb (detection_confidence result) (F32.literal 5 1) then false
  else true.

(** The comparator handed to [std::sort] in [selectBestCamera]. On [bool]
    operands [x > y] is [x && !y] and [x != y] is [xorb x y]. *)
Definition selectBestCamera_before (config : CameraFactoryConfig)
    (a b : HardwareDetectionResult) : bool :=
  if enable_medical_compliance_check config
     && xorb (is_medical_grade a) (is_medical_grade b)
  then is_medical_grade a && negb (is_medical_grade b)
  else if prefer_production_hardware config
          && xorb (is_production_ready a) (is_production_ready b)
  then is_production_ready a && negb (is_production_ready b)
  else if F32.gtb (F32.abs (F32.sub (detection_confidence a) (detection_confidence b)))
                  (F32.literal 1 2)
  then F32.gtb (detection_confidence a) (detection_confidence b)
  else if negb (String.eqb (preferred_camera_type config) "auto")
          && String.eqb (camera_type a) (preferred_camera_type config)
  then true
  else if negb (String.eqb (preferred_camera_type config) "auto")
          && String.eqb (camera_type b) (preferred_camera_type config)
  then false
  else if negb (String.eqb (camera_type a) (camera_type b))
  then String.eqb (camera_type a) "femto_mega"
  else false.

(** The record at which the loop of [selectBestCamera] returns. *)
Definition selectBestCamera_record (config : CameraFactoryConfig)
    (detected_hardware : list HardwareDetectionResult)
  : option HardwareDetectionResult :=
  find (validateDetectionResult config)
       (std_sort (selectBestCamera_before config) detected_hardware).

(** [CameraFactory::selectBestCamera]. *)
Definition selectBestCamera (detected_hardware : list HardwareDetectionResult)
  : M string :=
  match detected_hardware with
  | [] => ret ""
  | _ =>
      log DEBUG "CameraFactory" "Selecting best camera from detected hardware" ;;;
      f <- get_factory ;;
      match selectBestCamera_record (config_ f) detected_hardware with
      | Some result =>
          log INFO "CameraFactory"
              ("Selected camera: " +++ camera_type result
                 +++ " (" +++ model_name result +++ ")") ;;;
          ret (camera_type result)
      | None =>
          log WARNING "CameraFactory" "No suitable camera found after validation" ;;;
          ret ""
      end
  end.

(** [CameraFactory::detectD435Hardware]: one record per connected device,
    compiled in only under [THERAPY_DEVICE_HAS_REALSENSE]. *)
Definition d435_record (camera_id : string) : HardwareDetectionResult := {|
  camera_type := "d435";
  model_name := "Intel RealSense D435";
  serial_number := camera_id;
  firmware_version := "Unknown";
  is_medical_grade := false;
  is_production_ready := false;
  detection_confidence := F32.literal 9 1;
  connection_interface := "USB 3.0";
  additional_info :=
    <["fov" := "87° x 58° x 95°"]>
      (<["depth_technology" := "Active IR Stereo"]>
         (<["sdk_version" := "librealsense2"]> ∅))
|}.

Definition detectD435Hardware (env : Environment) : M (list HardwareDetectionResult) :=
  if THERAPY_DEVICE_HAS_REALSENSE env then
    match d435_detectConnectedCameras env with
    | Returns connected_d435 => ret (map d435_record connected_d435)
    | Throws what =>
        log WARNING "CameraFactory" ("D435 detection failed: " +++ what) ;;;
        ret []
    end
  else ret [].

(** [CameraFactory::detectFemtoMegaHardware], under
    [THERAPY_DEVICE_HAS_ORBBEC]. *)
Definition femto_mega_record (camera_id : string) : HardwareDetectionResult := {|
  camera_type := "femto_mega";
  model_name := "ORBBEC Femto Mega";
  serial_number := camera_id;
  firmware_version := "Unknown";
  is_medical_grade := true;
  is_production_ready := true;
  detection_confidence := F32.literal 95 2;
  connection_interface := "USB 3.0";
  additional_info :=
    <["medical_certification" := "Available"]>
      (<["accuracy" := "±1mm @ 1m"]>
         (<["depth_technology" := "Structured Light"]>
            (<["sdk_version" := "OrbbecSDK"]> ∅)))
|}.

Definition detectFemtoMegaHardware (env : Environment) : M (list HardwareDetectionResult) :=
  if THERAPY_DEVICE_HAS_ORBBEC env then
    match femto_mega_detectConnectedCameras env with
    | Returns connected_femto => ret (map femto_mega_record connected_femto)
    | Throws what =>
        log WARNING "CameraFactory" ("Femto Mega detection failed: " +++ what) ;;;
        ret []
    end
  else ret [].

(** The two records [performHardwareDetection] builds in simulation mode. *)
Definition d435_sim : HardwareDetectionResult := {|
  camera_type := "d435_sim";
  model_name := "Intel RealSense D435 (Simulation)";
  serial_number := "SIM001";
  firmware_version := "1.0.0-sim";
  is_medical_grade := true;
  is_production_ready := false;
  detection_confidence := F32.literal 10 1;
  connection_interface := "Simulation";
  additional_info := ∅
|}.

Definition femto_sim : HardwareDetectionResult := {|
  camera_type := "femto_mega_sim";
  model_name := "ORBBEC Femto Mega (Simulation)";
  serial_number := "SIM002";
  firmware_version := "2.0.0-sim";
  is_medical_grade := true;
  is_production_ready := true;
  detection_confidence := F32.literal 10 1;
  connection_interface := "Simulation";
  additional_info := ∅
|}.

(** [CameraFactory::performHardwareDetection]. Both probes catch what their
    sub-factory throws, so the handler around them is never entered. *)
Definition performHardwareDetection (env : Environment)
  : M (list HardwareDetectionResult) :=
  log DEBUG "CameraFactory" "Performing hardware detection" ;;;
  f <- get_factory ;;
  if simulation_mode_ f then ret [d435_sim; femto_sim]
  else
    d435_results <- detectD435Hardware env ;;
    femto_results <- detectFemtoMegaHardware env ;;
    let results := d435_results ++ femto_results in
    log INFO "CameraFactory"
        ("Hardware detection completed - found " +++ to_string (length results)
           +++ " devices") ;;;
    ret results.

(** [CameraFactory::createSimulationCamera] (the private member). *)
Definition createSimulationCamera (env : Environment) (camera_type : string)
  : M (unique_ptr ICamera) :=
  log INFO "CameraFactory" ("Creating simulation camera: " +++ camera_type) ;;;
  match SimulationCamera_ctor_throws env camera_type with
  | None => ret (Some (SimulationCamera camera_type))
  | Some what =>
      log ERROR "CameraFactory" ("Failed to create simulation camera: " +++ what) ;;;
      addErrorMessage ("Failed to create simulation camera: " +++ what) ;;;
      ret None
  end.

(** ** camera_factory.cpp: public members *)

(** [CameraFactory::initialize]. *)
Definition initialize (env : Environment) : M unit :=
  f <- get_factory ;;
  if is_initialized_ f then ret tt
  else
    log INFO "CameraFactory" "Initializing camera factory" ;;;
    clearErrorMessages ;;;
    (if enable_automatic_detection (config_ f) then
       detected <- performHardwareDetection env ;;
       log INFO "CameraFactory"
           ("Initial hardware detection found " +++ to_string (length detected)
              +++ " cameras") ;;;
       if enable_medical_compliance_check (config_ f) then
         modify_factory (set_medical_compliance_verified_ true) ;;;
         for_each detected (fun result =>
           if negb (checkMedicalCertification result) then
             modify_factory (set_medical_compliance_verified_ false) ;;;
             addErrorMessage ("Hardware " +++ camera_type result
                                +++ " does not meet medical device requirements")
           else ret tt)
       else ret tt
     else ret tt) ;;;
    modify_factory (set_is_initialized_ true) ;;;
    log INFO "CameraFactory" "Camera factory initialization completed".

(** The member initializer list of [CameraFactory::CameraFactory]. *)
Definition CameraFactory_members : CameraFactory := {|
  config_ := DEFAULT_CONFIG;
  is_initialized_ := false;
  simulation_mode_ := false;
  detection_cache_ := [];
  last_detection_time_ := 0;
  detection_cache_valid_ := false;
  custom_factories_ := ∅;
  error_messages_ := [];
  medical_compliance_verified_ := false
|}.

(** The first [CameraFactory::getInstance()]: construction of the singleton
    in a process whose logger holds [logged] so far. *)
Definition getInstance (env : Environment) (logged : list LogRecord)
  : option (unit * World) :=
  initialize env {| factory := CameraFactory_members; logger := logged |}.

(** [CameraFactory::configure]. *)
Definition configure (config : CameraFactoryConfig) : M unit :=
  log INFO "CameraFactory" "Updating factory configuration" ;;;
  modify_factory (set_config_ config) ;;;
  invalidateDetectionCache ;;;
  modify_factory (fun f => set_simulation_mode_ (enable_simulation_mode (config_ f)) f) ;;;
  f <- get_factory ;;
  log INFO "CameraFactory"
      ("Configuration updated - prefer_production: "
         +++ (if prefer_production_hardware (config_ f) then "true" else "false")).

(** [CameraFactory::getConfiguration]. *)
Definition getConfiguration : M CameraFactoryConfig :=
  f <- get_factory ;; ret (config_ f).

(** The handler of the [try] block of [createCamera]. *)
Definition createCamera_catch (camera_type what : string) : M (unique_ptr ICamera) :=
  log ERROR "CameraFactory"
      ("Exception creating camera " +++ camera_type +++ ": " +++ what) ;;;
  addErrorMessage ("Exception creating camera: " +++ what) ;;;
  ret None.

(** The statements of [CameraFactory::createCamera] once [mutex_] is taken.
    [createBestCamera] is what the call in the ["auto"] branch does. *)
Definition createCamera_locked (createBestCamera : M (unique_ptr ICamera))
    (env : Environment) (camera_type : string) : M (unique_ptr ICamera) :=
  log INFO "CameraFactory" ("Creating camera of type: " +++ camera_type) ;;;
  f <- get_factory ;;
  if simulation_mode_ f then
    log INFO "CameraFactory" "Creating simulation camera" ;;;
    createSimulationCamera env camera_type
  else if String.eqb camera_type "auto" then createBestCamera
  else
    match custom_factories_ f !! camera_type with
    | Some creator =>
        log INFO "CameraFactory" ("Using custom factory for " +++ camera_type) ;;;
        match creator with
        | CreationMade validate =>
            ret (Some (ExternalCamera FromCustomFactory camera_type validate))
        | CreationNull => ret None
        | CreationThrows what =>
            log ERROR "CameraFactory" ("Custom factory failed: " +++ what) ;;;
            addErrorMessage ("Custom factory failed: " +++ what) ;;;
            ret None
        end
    | None =>
        let created :=
          if String.eqb camera_type "d435"
          then Some (FromD435Factory, d435_createCamera env camera_type)
          else if String.eqb camera_type "femto_mega"
          then Some (FromFemtoMegaFactory, femto_mega_createCamera env camera_type)
          else None in
        match created with
        | None =>
            log ERROR "CameraFactory" ("Unknown camera type: " +++ camera_type) ;;;
            addErrorMessage ("Unknown camera type: " +++ camera_type) ;;;
            ret None
        | Some (_, CreationThrows what) => createCamera_catch camera_type what
        | Some (_, CreationNull) =>
            log ERROR "CameraFactory" ("Failed to create camera: " +++ camera_type) ;;;
            addErrorMessage ("Failed to create camera: " +++ camera_type) ;;;
            ret None
        | Some (source, CreationMade validate) =>
            let camera := ExternalCamera source camera_type validate in
            let created_ok :=
              log INFO "CameraFactory"
                  ("Successfully created camera: " +++ camera_type) ;;;
              ret (Some camera) in
            if enable_hardware_validation (config_ f) then
              match validate with
              | Returns SUCCESS => created_ok
              | Returns _ =>
                  log ERROR "CameraFactory"
                      ("Camera validation failed for " +++ camera_type) ;;;
                  addErrorMessage ("Camera validation failed for " +++ camera_type) ;;;
                  ret None
              | Throws what => createCamera_catch camera_type what
              end
            else created_ok
        end
    end.

(** [CameraFactory::createBestCamera]; [createCamera] is what its final call
    does. The function takes no lock itself. *)
Definition createBestCamera_calling
    (createCamera : string -> M (unique_ptr ICamera))
    (env : Environment) : M (unique_ptr ICamera) :=
  log INFO "CameraFactory" "Selecting best available camera" ;;;
  detected_hardware <- performHardwareDetection env ;;
  f <- get_factory ;;
  match detected_hardware with
  | [] =>
      log WARNING "CameraFactory" "No cameras detected" ;;;
      if enable_fallback_mode (config_ f) && enable_simulation_mode (config_ f) then
        log INFO "CameraFactory" "Falling back to simulation mode" ;;;
        createSimulationCamera env "d435"
      else
        addErrorMessage "No cameras detected and fallback disabled" ;;;
        ret None
  | _ =>
      best_camera_type <- selectBestCamera detected_hardware ;;
      if String.eqb best_camera_type "" then
        log ERROR "CameraFactory" "No suitable camera found" ;;;
        addErrorMessage "No suitable camera found" ;;;
        ret None
      else
        log INFO "CameraFactory" ("Selected camera: " +++ best_camera_type) ;;;
        createCamera best_camera_type
  end.

(** [CameraFactory::createCamera]. Reached through its own ["auto"] branch,
    [createBestCamera] runs with [mutex_] held, so the [createCamera] it
    ends with blocks on the [std::lock_guard]. *)
Definition createCamera (env : Environment) (camera_type : string)
  : M (unique_ptr ICamera) :=
  createCamera_locked (createBestCamera_calling (fun _ => relock) env) env camera_type.

(** [CameraFactory::createBestCamera] called from outside the class. *)
Definition createBestCamera (env : Environment) : M (unique_ptr ICamera) :=
  createBestCamera_calling (createCamera env) env.

(** [CameraFactory::getAvailableCameraTypes]; [std::map] iterates in key
    order and the result is sorted with [operator<] on [std::string]. *)
Definition getAvailableCameraTypes (env : Environment) : M (list string) :=
  f <- get_factory ;;
  let standard :=
    if negb (simulation_mode_ f)
    then d435_getAvailableCameraTypes env ++ femto_mega_getAvailableCameraTypes env
    else [] in
  let custom := std_sort String.ltb (map fst (map_to_list (custom_factories_ f))) in
  let simulated :=
    if simulation_mode_ f then ["d435_sim"; "femto_mega_sim"] else [] in
  ret (std_unique (std_sort String.ltb (standard ++ custom ++ simulated))).

(** [CameraFactory::detectConnectedCameras]. *)
Definition detectConnectedCameras (env : Environment) : M (list string) :=
  log INFO "CameraFactory" "Detecting connected cameras" ;;;
  f <- get_factory ;;
  if simulation_mode_ f then ret ["d435_sim"; "femto_mega_sim"]
  else
    let failed (so_far : list string) (what : string) : M (list string) :=
      log ERROR "CameraFactory" ("Camera detection failed: " +++ what) ;;;
      addErrorMessage ("Camera detection failed: " +++ what) ;;;
      ret so_far in
    match d435_detectConnectedCameras env with
    | Throws what => failed [] what
    | Returns d435_cameras =>
        match femto_mega_detectConnectedCameras env with
        | Throws what => failed d435_cameras what
        | Returns femto_cameras =>
            let connected_cameras := d435_cameras ++ femto_cameras in
            log INFO "CameraFactory"
                ("Detected " +++ to_string (length connected_cameras)
                   +++ " connected cameras") ;;;
            ret connected_cameras
        end
    end.

(** [CameraFactory::detectAllHardware]. *)
Definition detectAllHardware (env : Environment) : M (list HardwareDetectionResult) :=
  f <- get_factory ;;
  if isDetectionCacheValid env f then ret (detection_cache_ f)
  else
    results <- performHardwareDetection env ;;
    modify_factory (set_detection_cache results (system_clock_now env) true) ;;;
    ret results.

(** ** The free convenience functions

    The free [createSimulationCamera] goes through
    [CameraFactory::enableSimulationMode], which this translation unit
    declares but does not define; it has no counterpart here. *)

Definition createDefaultCamera (env : Environment) : M (unique_ptr ICamera) :=
  createBestCamera env.

Definition createDevelopmentCamera (env : Environment) : M (unique_ptr ICamera) :=
  dev_config <- getConfiguration ;;
  configure {| prefer_production_hardware := false;
               enable_automatic_detection := enable_automatic_detection dev_config;
               enable_hardware_validation := enable_hardware_validation dev_config;
               enable_medical_compliance_check := false;
               preferred_camera_type := "d435";
               detection_timeout_ms := detection_timeout_ms dev_config;
               enable_fallback_mode := enable_fallback_mode dev_config;
               enable_simulation_mode := enable_simulation_mode dev_config |} ;;;
  createBestCamera env.

Definition createProductionCamera (env : Environment) : M (unique_ptr ICamera) :=
  prod_config <- getConfiguration ;;
  configure {| prefer_production_hardware := true;
               enable_automatic_detection := enable_automatic_detection prod_config;
               enable_hardware_validation := enable_hardware_validation prod_config;
               enable_medical_compliance_check := true;
               preferred_camera_type := "femto_mega";
               detection_timeout_ms := detection_timeout_ms prod_config;
               enable_fallback_mode := enable_fallback_mode prod_config;
               enable_simulation_mode := false |} ;;;
  createBestCamera env.

(** ** Observations on a run *)

(** The value a call returns, when it returns. *)
Definition result_of {A} (m : M A) (w : World) : option A :=
  match m w with
  | Some (a, _) => Some a
  | None => None
  end.

(** The world a call leaves behind, when it returns. *)
Definition world_after {A} (m : M A) (w : World) : option World :=
  match m w with
  | Some (_, w') => Some w'
  | None => None
  end.

(** The same factory, with more log records. *)
Definition logged_more (w : World) (records : list LogRecord) : World :=
  {| factory := factory w; logger := logger w ++ records |}.

(** How often [performHardwareDetection] was entered, read off the log: its
    first statement writes the only record with this level and text. *)
Definition is_detection_record (r : LogRecord) : bool :=
  match log_level r with
  | DEBUG => String.eqb (log_message r) "Performing hardware detection"
  | _ => false
  end.

Definition detection_runs (w : World) : nat :=
  length (List.filter is_detection_record (logger w)).

(** The records [detectD435Hardware] and [detectFemtoMegaHardware] return. *)
Definition d435_records (env : Environment) : list HardwareDetectionResult :=
  if THERAPY_DEVICE_HAS_REALSENSE env then
    match d435_detectConnectedCameras env with
    | Returns ids => map d435_record ids
    | Throws _ => []
    end
  else [].

Definition femto_mega_records (env : Environment) : list HardwareDetectionResult :=
  if THERAPY_DEVICE_HAS_ORBBEC env then
    match femto_mega_detectConnectedCameras env with
    | Returns ids => map femto_mega_record ids
    | Throws _ => []
    end
  else [].

(** The records of the attached hardware, as the two probes report them. *)
Definition hardware_records (env : Environment) : list HardwareDetectionResult :=
  d435_records env ++ femto_mega_records env.

(** The records [performHardwareDetection] returns for a factory whose
    [simulation_mode_] is [simulation]. *)
Definition detected_records (env : Environment) (simulation : bool)
  : list HardwareDetectionResult :=
  if simulation then [d435_sim; femto_sim] else hardware_records env.

(** The string [selectBestCamera] returns. *)
Definition selected_type (config : CameraFactoryConfig)
    (detected_hardware : list HardwareDetectionResult) : string :=
  match selectBestCamera_record config detected_hardware with
  | Some result => camera_type result
  | None => ""
  end.

(** ** Scripts of calls on the singleton *)

Inductive Operation : Type :=
| Call_configure (config : CameraFactoryConfig)
| Call_getConfiguration
| Call_createCamera (camera_type : string)
| Call_createBestCamera
| Call_getAvailableCameraTypes
| Call_detectConnectedCameras
| Call_detectAllHardware
| Call_createDefaultCamera
| Call_createDevelopmentCamera
| Call_createProductionCamera.

Definition discard {A} (m : M A) : M unit := m ;;; ret tt.

(** One call, made while the surroundings are [env]. *)
Definition perform (env : Environment) (op : Operation) : M unit :=
  match op with
  | Call_configure config => configure config
  | Call_getConfiguration => discard getConfiguration
  | Call_createCamera camera_type => discard (createCamera env camera_type)
  | Call_createBestCamera => discard (createBestCamera env)
  | Call_getAvailableCameraTypes => discard (getAvailableCameraTypes env)
  | Call_detectConnectedCameras => discard (detectConnectedCameras env)
  | Call_detectAllHardware => discard (detectAllHardware env)
  | Call_createDefaultCamera => discard (createDefaultCamera env)
  | Call_createDevelopmentCamera => discard (createDevelopmentCamera env)
  | Call_createProductionCamera => discard (createProductionCamera env)
  end.

(** Calls in sequence; the hardware and the clock may differ from call to
    call. *)
Fixpoint run (script : list (Environment * Operation)) : M unit :=
  match script with
  | [] => ret tt
  | (env, op) :: rest => perform env op ;;; run rest
  end.

(** The worlds a program can be in: the singleton is constructed, then
    calls of [Operation] are made on it. These are the public members and
    free functions whose bodies this translation unit holds; the members
    camera_factory.h declares without a body here
    ([enableSimulationMode], [registerCustomCamera], ...) and the free
    [createSimulationCamera], which calls the first of them, are not among
    them. *)
Definition reachable (w : World) : Prop :=
  exists env0 logged w0 script,
    getInstance env0 logged = Some (tt, w0) /\ run script w0 = Some (tt, w).

(** The invariant of the error history. *)
Definition error_history_bounded (f : CameraFactory) : Prop :=
  (length (error_messages_ f) <= 100)%nat.

(** ** Scenario data *)

(** Surroundings with the listed devices attached, both vendor SDKs compiled
    in, sub-factories that hand out working cameras, read at time zero. *)
Definition bench_env (d435_ids femto_ids : list string) : Environment := {|
  THERAPY_DEVICE_HAS_REALSENSE := true;
  THERAPY_DEVICE_HAS_ORBBEC := true;
  d435_detectConnectedCameras := Returns d435_ids;
  d435_getAvailableCameraTypes := ["d435"];
  d435_createCamera := fun _ => CreationMade (Returns SUCCESS);
  femto_mega_detectConnectedCameras := Returns femto_ids;
  femto_mega_getAvailableCameraTypes := ["femto_mega"];
  femto_mega_createCamera := fun _ => CreationMade (Returns SUCCESS);
  SimulationCamera_ctor_throws := fun _ => None;
  system_clock_now := 0
|}.

(** The same surroundings read at another time. *)
Definition at_time (t : time_point) (env : Environment) : Environment := {|
  THERAPY_DEVICE_HAS_REALSENSE := THERAPY_DEVICE_HAS_REALSENSE env;
  THERAPY_DEVICE_HAS_ORBBEC := THERAPY_DEVICE_HAS_ORBBEC env;
  d435_detectConnectedCameras := d435_detectConnectedCameras env;
  d435_getAvailableCameraTypes := d435_getAvailableCameraTypes env;
  d435_createCamera := d435_createCamera env;
  femto_mega_detectConnectedCameras := femto_mega_detectConnectedCameras env;
  femto_mega_getAvailableCameraTypes := femto_mega_getAvailableCameraTypes env;
  femto_mega_createCamera := femto_mega_createCamera env;
  SimulationCamera_ctor_throws := SimulationCamera_ctor_throws env;
  system_clock_now := t
|}.

(** The same surroundings with a structured-light sub-factory that returns
    [nullptr]. *)
Definition femto_mega_unavailable (env : Environment) : Environment := {|
  THERAPY_DEVICE_HAS_REALSENSE := THERAPY_DEVICE_HAS_REALSENSE env;
  THERAPY_DEVICE_HAS_ORBBEC := THERAPY_DEVICE_HAS_ORBBEC env;
  d435_detectConnectedCameras := d435_detectConnectedCameras env;
  d435_getAvailableCameraTypes := d435_getAvailableCameraTypes env;
  d435_createCamera := d435_createCamera env;
  femto_mega_detectConnectedCameras := femto_mega_detectConnectedCameras env;
  femto_mega_getAvailableCameraTypes := femto_mega_getAvailableCameraTypes env;
  femto_mega_createCamera := fun _ => CreationNull;
  SimulationCamera_ctor_throws := SimulationCamera_ctor_throws env;
  system_clock_now := system_clock_now env
|}.

(** The detection list of scenario S2. *)
Definition S2_detected : list HardwareDetectionResult :=
  [d435_record "D435-0001"; femto_mega_record "FM-0001"].

(** [DEFAULT_CONFIG] with the policy fields of a scenario filled in. *)
Definition policy (production compliance : bool) (preferred : string)
    (fallback simulation : bool) : CameraFactoryConfig := {|
  prefer_production_hardware := production;
  enable_automatic_detection := enable_automatic_detection DEFAULT_CONFIG;
  enable_hardware_validation := enable_hardware_validation DEFAULT_CONFIG;
  enable_medical_compliance_check := compliance;
  preferred_camera_type := preferred;
  detection_timeout_ms := detection_timeout_ms DEFAULT_CONFIG;
  enable_fallback_mode := fallback;
  enable_simulation_mode := simulation
|}.

(** The singleton constructed in [env] and then configured with [config]. *)
Definition configured (env : Environment) (config : CameraFactoryConfig)
  : option World :=
  match getInstance env [] with
  | Some (_, w) => world_after (configure config) w
  | None => None
  end.

(** That world, or the members before [initialize] if construction or
    configuration did not return. *)
Definition configured_world (env : Environment) (config : CameraFactoryConfig)
  : World :=
  default {| factory := CameraFactory_members; logger := [] |}
          (configured env config).

(** A call made on the singleton just configured. *)
Definition on_configured {A} (env : Environment) (config : CameraFactoryConfig)
    (call : M A) : option A :=
  match configured env config with
  | Some w => result_of call w
  | None => None
  end.

(** The cache was filled less than the timeout before [env]'s clock reading
    and has not been invalidated since. *)
Definition cache_usable (env : Environment) (f : CameraFactory) : Prop :=
  detection_cache_valid_ f = true
  /\ system_clock_now env - last_detection_time_ f < DETECTION_CACHE_TIMEOUT.

(** A call that keeps the error history within its bound whenever it
    returns. *)
Definition keeps_bound {A} (m : M A) : Prop :=
  forall w a w',
    error_history_bounded (factory w) ->
    m w = Some (a, w') ->
    error_history_bounded (factory w').

(** No record of the attached hardware passes the selection. *)
Definition no_usable_hardware (config : CameraFactoryConfig) (env : Environment)
  : Prop :=
  selectBestCamera_record config (hardware_records env) = None.

(** A factory whose [config_] enables simulation while its
    [simulation_mode_] member is clear, so that the hardware probes run. *)
Definition probing_world (env : Environment) (config : CameraFactoryConfig)
  : World :=
  with_factory (set_simulation_mode_ false) (configured_world env config).

(** A hundred requests for a camera type nobody provides, made on the
    singleton constructed with one stereo-IR device attached. *)
Definition lidar_script : list (Environment * Operation) :=
  repeat (bench_env ["D435-0001"] [], Call_createCamera "lidar") 100.

Definition lidar_world : World :=
  match getInstance (bench_env ["D435-0001"] []) [] with
  | Some (_, w0) => default w0 (world_after (run lidar_script) w0)
  | None => {| factory := CameraFactory_members; logger := [] |}
  end.

(** A call that returns from every world. *)
Definition always_returns {A} (m : M A) : Prop :=
  forall w, exists a w', m w = Some (a, w').

(** ** Further observations *)

(** The two leading sort keys of [selectBestCamera] as one number: the
    medical-grade key counts only under the compliance check, the
    production key only under the production preference. *)
Definition policy_rank (config : CameraFactoryConfig)
    (r : HardwareDetectionResult) : nat :=
  ((if enable_medical_compliance_check config && is_medical_grade r then 2 else 0)
   + (if prefer_production_hardware config && is_production_ready r then 1 else 0))%nat.

(** A record as one of the two hardware probes builds it. *)
Definition hardware_record (r : HardwareDetectionResult) : Prop :=
  exists camera_id, r = d435_record camera_id \/ r = femto_mega_record camera_id.

Definition femto_first (r : HardwareDetectionResult) : nat :=
  if String.eqb (camera_type r) "femto_mega" then 1%nat else 0%nat.

(** What the [try] block of [createCamera] asks of the sub-factories. *)
Definition sub_factory_creation (env : Environment) (camera_type : string)
  : option (CameraSource * Creation) :=
  if String.eqb camera_type "d435"
  then Some (FromD435Factory, d435_createCamera env camera_type)
  else if String.eqb camera_type "femto_mega"
  then Some (FromFemtoMegaFactory, femto_mega_createCamera env camera_type)
  else None.

(** The newest [n] entries of a history. *)
Definition most_recent {A} (n : nat) (history : list A) : list A :=
  skipn (length history - n) history.

(** What construction and [configure] keep true of the factory: it is
    initialized, [simulation_mode_] mirrors the configuration, and no custom
    creator is registered. *)
Definition factory_consistent (f : CameraFactory) : Prop :=
  is_initialized_ f = true
  /\ simulation_mode_ f = enable_simulation_mode (config_ f)
  /\ custom_factories_ f = ∅.

(** A call that keeps a property of the factory whenever it returns. *)
Definition preserves {A} (P : CameraFactory -> Prop) (m : M A) : Prop :=
  forall w a w', P (factory w) -> m w = Some (a, w') -> P (factory w').

(** A world in which a creator is registered under [camera_type]. *)
Definition with_custom_factory (camera_type : string) (creator : Creation)
    (w : World) : World :=
  with_factory
    (fun f =>
       {| config_ := config_ f;
          is_initialized_ := is_initialized_ f;
          simulation_mode_ := simulation_mode_ f;
          detection_cache_ := detection_cache_ f;
          last_detection_time_ := last_detection_time_ f;
          detection_cache_valid_ := detection_cache_valid_ f;
          custom_factories_ := <[camera_type := creator]> (custom_factories_ f);
          error_messages_ := error_messages_ f;
          medical_compliance_verified_ := medical_compliance_verified_ f |}) w.

(** Surroundings whose stereo-IR probe throws. *)
Definition d435_probe_throws (what : string) (env : Environment) : Environment := {|
  THERAPY_DEVICE_HAS_REALSENSE := THERAPY_DEVICE_HAS_REALSENSE env;
  THERAPY_DEVICE_HAS_ORBBEC := THERAPY_DEVICE_HAS_ORBBEC env;
  d435_detectConnectedCameras := Throws what;
  d435_getAvailableCameraTypes := d435_getAvailableCameraTypes env;
  d435_createCamera := d435_createCamera env;
  femto_mega_detectConnectedCameras := femto_mega_detectConnectedCameras env;
  femto_mega_getAvailableCameraTypes := femto_mega_getAvailableCameraTypes env;
  femto_mega_createCamera := femto_mega_createCamera env;
  SimulationCamera_ctor_throws := SimulationCamera_ctor_throws env;
  system_clock_now := system_clock_now env
|}.

(** Surroundings whose stereo-IR cameras fail [validate()] with [code]. *)
Definition d435_validation_fails (code : CameraError) (env : Environment)
  : Environment := {|
  THERAPY_DEVICE_HAS_REALSENSE := THERAPY_DEVICE_HAS_REALSENSE env;
  THERAPY_DEVICE_HAS_ORBBEC := THERAPY_DEVICE_HAS_ORBBEC env;
  d435_detectConnectedCameras := d435_detectConnectedCameras env;
  d435_getAvailableCameraTypes := d435_getAvailableCameraTypes env;
  d435_createCamera := fun _ => CreationMade (Returns code);
  femto_mega_detectConnectedCameras := femto_mega_detectConnectedCameras env;
  femto_mega_getAvailableCameraTypes := femto_mega_getAvailableCameraTypes env;
  femto_mega_createCamera := femto_mega_createCamera env;
  SimulationCamera_ctor_throws := SimulationCamera_ctor_throws env;
  system_clock_now := system_clock_now env
|}.

(** The factory [addErrorMessage] leaves behind. *)
Definition after_addErrorMessage (message : string) (f : CameraFactory)
  : CameraFactory :=
  match addErrorMessage message {| factory := f; logger := [] |} with
  | Some (_, w') => factory w'
  | None => f
  end.

(** Surroundings whose structured-light probe throws. *)
Definition femto_mega_probe_throws (what : string) (env : Environment)
  : Environment := {|
  THERAPY_DEVICE_HAS_REALSENSE := THERAPY_DEVICE_HAS_REALSENSE env;
  THERAPY_DEVICE_HAS_ORBBEC := THERAPY_DEVICE_HAS_ORBBEC env;
  d435_detectConnectedCameras := d435_detectConnectedCameras env;
  d435_getAvailableCameraTypes := d435_getAvailableCameraTypes env;
  d435_createCamera := d435_createCamera env;
  femto_mega_detectConnectedCameras := Throws what;
  femto_mega_getAvailableCameraTypes := femto_mega_getAvailableCameraTypes env;
  femto_mega_createCamera := femto_mega_createCamera env;
  SimulationCamera_ctor_throws := SimulationCamera_ctor_throws env;
  system_clock_now := system_clock_now env
|}.

(** * Properties *)

(** ** The error enumeration and the capture defaults *)

(** C7. The camera error enumeration lists, in declaration order, exactly
    the fourteen (code, kind) rows of the taxonomy table, 0 and 1001 to
    1013; every enumerator occurs in that list once, so there is no other
    member, and a code determines its enumerator. *)
Theorem CameraError_matches_taxonomy :
  map (fun e => (CameraError_code e, CameraError_name e)) CameraError_all
    = taxonomy_table
  /\ (forall e : CameraError, In e CameraError_all)
  /\ NoDup CameraError_all
  /\ (forall e : CameraError, CameraError_of_code (CameraError_code e) = Some e)
  /\ (forall c : Z, CameraError_of_code c = None <->
                    c <> 0 /\ (c < 1001 \/ 1013 < c)).
Proof.
  split; [reflexivity|].
  split; [intros e; destruct e; simpl; tauto|].
  split.
  { unfold CameraError_all.
    repeat (apply NoDup_cons_2; [ rewrite ?elem_of_cons, elem_of_nil; intuition discriminate | ]).
    apply NoDup_nil_2. }
  split; [intros e; destruct e; reflexivity|].
  intros c. unfold CameraError_of_code, CameraError_all. cbn [find CameraError_code].
  repeat match goal with
         | |- context [Z.eqb ?a c] => destruct (Z.eqb_spec a c)
         end; split; intros H; try discriminate; try lia; reflexivity.
Qed.

(** C8. A default-constructed capture configuration has [buffer_size] 5 and
    [max_temperature] exactly 70. *)
Theorem CameraConfig_default_buffer_and_temperature :
  buffer_size CameraConfig_default = 5
  /\ exists q : Q, F32.to_Q (max_temperature CameraConfig_default) = Some q
                   /\ Qeq q (70 # 1).
Proof.
  split; [reflexivity|].
  eexists. split; [vm_compute; reflexivity|]. reflexivity.
Qed.

(** ** Sorting *)

Section StdSortFacts.
Context {A : Type} (comp : A -> A -> bool).

Lemma unguarded_linear_insert_Permutation (val : A) (rprefix : list A) :
  Permutation (unguarded_linear_insert comp val rprefix) (val :: rprefix).
Proof.
  induction rprefix as [|next rest IH]; simpl.
  - reflexivity.
  - destruct (comp val next).
    + rewrite IH. apply perm_swap.
    + reflexivity.
Qed.

Lemma insertion_step_Permutation (prefix : list A) (i : A) :
  Permutation (insertion_step comp prefix i) (i :: prefix).
Proof.
  unfold insertion_step. destruct prefix as [|first tail]; [reflexivity|].
  destruct (comp i first); [reflexivity|].
  rewrite <- Permutation_rev, unguarded_linear_insert_Permutation.
  apply perm_skip. symmetry. apply Permutation_rev.
Qed.

Lemma fold_insertion_step_Permutation (rest prefix : list A) :
  Permutation (fold_left (insertion_step comp) rest prefix) (prefix ++ rest).
Proof.
  revert prefix. induction rest as [|x rest IH]; intros prefix; simpl.
  - rewrite app_nil_r. reflexivity.
  - rewrite IH, insertion_step_Permutation.
    simpl. apply Permutation_middle.
Qed.

Lemma std_sort_Permutation (range : list A) :
  Permutation (std_sort comp range) range.
Proof.
  destruct range as [|first rest]; [reflexivity|].
  unfold std_sort. apply fold_insertion_step_Permutation.
Qed.

Lemma std_sort_In (range : list A) (x : A) :
  In x (std_sort comp range) <-> In x range.
Proof.
  split; apply Permutation_in;
    [apply std_sort_Permutation | symmetry; apply std_sort_Permutation].
Qed.
End StdSortFacts.

(** ** Selection *)

Lemma logged_more_nil (w : World) : logged_more w [] = w.
Proof. destruct w as [f lg]. unfold logged_more. simpl. now rewrite app_nil_r. Qed.

Lemma logged_more_more (w : World) (r1 r2 : list LogRecord) :
  logged_more (logged_more w r1) r2 = logged_more w (r1 ++ r2).
Proof. unfold logged_more. simpl. now rewrite app_assoc. Qed.

Lemma log_run (level : LogLevel) (component message : string) (w : World) :
  log level component message w =
    Some (tt, logged_more w [ {| log_level := level; log_component := component;
                                 log_message := message |} ]).
Proof. reflexivity. Qed.


(** [selectBestCamera] always returns, leaves the factory alone and yields
    the type of the record its loop stops at. *)
Lemma selectBestCamera_run (detected_hardware : list HardwareDetectionResult)
    (w : World) :
  exists records,
    selectBestCamera detected_hardware w =
      Some (selected_type (config_ (factory w)) detected_hardware,
            logged_more w records).
Proof.
  destruct detected_hardware as [|r l].
  - exists []. rewrite logged_more_nil. reflexivity.
  - unfold selectBestCamera, selected_type, bind, get_factory. rewrite log_run. cbn [factory logged_more].
    destruct (selectBestCamera_record (config_ (factory w)) (r :: l)) as [best|].
    + unfold bind. rewrite log_run. unfold ret. rewrite logged_more_more. eauto.
    + unfold bind. rewrite log_run. unfold ret. rewrite logged_more_more. eauto.
Qed.

Lemma selectBestCamera_record_spec (config : CameraFactoryConfig)
    (detected_hardware : list HardwareDetectionResult)
    (result : HardwareDetectionResult) :
  selectBestCamera_record config detected_hardware = Some result ->
  In result detected_hardware /\ validateDetectionResult config result = true.
Proof.
  unfold selectBestCamera_record. intros H.
  apply find_some in H. destruct H as [Hin Hvalid].
  split; [|exact Hvalid]. now apply std_sort_In in Hin.
Qed.

Lemma validateDetectionResult_true (config : CameraFactoryConfig)
    (result : HardwareDetectionResult) :
  validateDetectionResult config result = true ->
  F32.ltb (detection_confidence result) (F32.literal 5 1) = false
  /\ (enable_medical_compliance_check config = true -> is_medical_grade result = true).
Proof.
  unfold validateDetectionResult, checkMedicalCertification.
  destruct (enable_medical_compliance_check config), (is_medical_grade result),
    (F32.ltb (detection_confidence result) (F32.literal 5 1));
    simpl; intros H; try discriminate; split; auto.
Qed.

(** C3. Whatever the detection list and the configuration,
    [selectBestCamera] returns the type of a record of the list that does
    not have [detection_confidence < 0.5] and, when
    [enable_medical_compliance_check] is set, has [is_medical_grade] set; it
    returns the empty string when its loop finds no such record. *)
Theorem selectBestCamera_respects_filter
    (detected_hardware : list HardwareDetectionResult) (w : World) :
  let config := config_ (factory w) in
  (exists records,
     selectBestCamera detected_hardware w =
       Some (selected_type config detected_hardware, logged_more w records))
  /\ (selectBestCamera_record config detected_hardware = None ->
      selected_type config detected_hardware = "")
  /\ (forall result,
        selectBestCamera_record config detected_hardware = Some result ->
        selected_type config detected_hardware = camera_type result
        /\ In result detected_hardware
        /\ F32.ltb (detection_confidence result) (F32.literal 5 1) = false
        /\ (enable_medical_compliance_check config = true ->
            is_medical_grade result = true)).
Proof.
  intros config. split; [apply selectBestCamera_run|]. split.
  - intros H. unfold selected_type. now rewrite H.
  - intros result H. split; [unfold selected_type; now rewrite H|].
    apply selectBestCamera_record_spec in H. destruct H as [Hin Hvalid].
    split; [exact Hin|]. now apply validateDetectionResult_true.
Qed.

Lemma selectBestCamera_respects_filter_witness :
  selected_type (config_ (factory (configured_world (bench_env [] []) DEFAULT_CONFIG)))
                S2_detected = "femto_mega"
  /\ is_medical_grade (femto_mega_record "FM-0001") = true.
Proof.
  destruct (selectBestCamera_respects_filter S2_detected
              (configured_world (bench_env [] []) DEFAULT_CONFIG))
    as (_ & _ & H).
  destruct (H (femto_mega_record "FM-0001")) as (Htype & _ & _ & Hmed).
  - vm_compute. reflexivity.
  - split; [rewrite Htype; reflexivity|]. apply Hmed. vm_compute. reflexivity.
Defined.

(** For the detection list of S2, in either order and with any serial
    numbers, [selectBestCamera] returns the structured-light type under
    every configuration, whatever the preferred type. *)
Lemma selectBestCamera_S2_any_preference (w : World) (d435_id femto_id : string) :
  result_of (selectBestCamera [d435_record d435_id; femto_mega_record femto_id]) w
    = Some "femto_mega"
  /\ result_of (selectBestCamera [femto_mega_record femto_id; d435_record d435_id]) w
    = Some "femto_mega".
Proof.
  split.
  - unfold result_of.
    destruct (selectBestCamera_run [d435_record d435_id; femto_mega_record femto_id] w)
      as [records ->].
    f_equal. destruct w as [[config ? ? ? ? ? ? ? ?] lg]. cbn [factory config_].
    destruct config as [production ? ? compliance ? ? ? ?].
    destruct production, compliance; vm_compute; reflexivity.
  - unfold result_of.
    destruct (selectBestCamera_run [femto_mega_record femto_id; d435_record d435_id] w)
      as [records ->].
    f_equal. destruct w as [[config ? ? ? ? ? ? ? ?] lg]. cbn [factory config_].
    destruct config as [production ? ? compliance ? ? ? ?].
    destruct production, compliance; vm_compute; reflexivity.
Qed.

(** C1 (defect of the code). On the inputs of S2 the first half of the
    claim holds: with the compliance check on, [selectBestCamera] returns
    the structured-light type. The second half fails on the code: with the
    compliance check off and preferred type ["d435"] it still returns
    ["femto_mega"]. That configuration is the one [createDevelopmentCamera]
    sets on the fresh singleton, and camera_factory.h documents that
    function as "D435 preferred"; with one device of each kind attached it
    hands out the structured-light camera. The comparator does test the
    preferred type, but only after the confidence gap, and 0.95 against
    0.9 is above its tolerance of 0.01: on the records the two probes
    build, the preferred type is never read, whatever it is set to. *)
Theorem selectBestCamera_S2 :
  let env := bench_env ["D435-0001"] ["FM-0001"] in
  let d435 := d435_record "D435-0001" in
  let femto_mega := femto_mega_record "FM-0001" in
  let development := policy false false "d435" true false in
  on_configured env (policy false true "d435" true false) (selectBestCamera S2_detected)
    = Some "femto_mega"
  /\ on_configured env development (detectAllHardware env) = Some S2_detected
  /\ on_configured env development (selectBestCamera S2_detected) = Some "femto_mega"
  /\ on_configured env DEFAULT_CONFIG (createDevelopmentCamera env)
     = Some (Some (ExternalCamera FromFemtoMegaFactory "femto_mega" (Returns SUCCESS)))
  /\ (config_ <$> (factory <$> (w0 ← configured env DEFAULT_CONFIG;
                     world_after (createDevelopmentCamera env) w0)))
     = Some development
  /\ F32.gtb (F32.abs (F32.sub (detection_confidence femto_mega)
                               (detection_confidence d435)))
             (F32.literal 1 2) = true
  /\ selectBestCamera_before development femto_mega d435 = true
  /\ selectBestCamera_before development d435 femto_mega = false
  /\ (forall w, result_of (selectBestCamera S2_detected) w = Some "femto_mega").
Proof.
  cbv zeta.
  do 8 (split; [vm_compute; reflexivity|]).
  intros w. apply (selectBestCamera_S2_any_preference w "D435-0001" "FM-0001").
Qed.

(** ** Detection *)

Lemma detectD435Hardware_run (env : Environment) (w : World) :
  exists records,
    detectD435Hardware env w = Some (d435_records env, logged_more w records)
    /\ List.filter is_detection_record records = [].
Proof.
  unfold detectD435Hardware, d435_records.
  destruct (THERAPY_DEVICE_HAS_REALSENSE env).
  - destruct (d435_detectConnectedCameras env) as [ids|what].
    + exists []. now rewrite logged_more_nil.
    + unfold bind. rewrite log_run. eexists. split; reflexivity.
  - exists []. now rewrite logged_more_nil.
Qed.

Lemma detectFemtoMegaHardware_run (env : Environment) (w : World) :
  exists records,
    detectFemtoMegaHardware env w = Some (femto_mega_records env, logged_more w records)
    /\ List.filter is_detection_record records = [].
Proof.
  unfold detectFemtoMegaHardware, femto_mega_records.
  destruct (THERAPY_DEVICE_HAS_ORBBEC env).
  - destruct (femto_mega_detectConnectedCameras env) as [ids|what].
    + exists []. now rewrite logged_more_nil.
    + unfold bind. rewrite log_run. eexists. split; reflexivity.
  - exists []. now rewrite logged_more_nil.
Qed.

(** [performHardwareDetection] always returns, touches nothing but the log,
    and leaves exactly one detection record there. *)
Lemma performHardwareDetection_run (env : Environment) (w : World) :
  exists records,
    performHardwareDetection env w =
      Some (detected_records env (simulation_mode_ (factory w)), logged_more w records)
    /\ length (List.filter is_detection_record records) = 1%nat.
Proof.
  unfold performHardwareDetection, detected_records, hardware_records, bind at 1.
  rewrite log_run. unfold bind at 1, get_factory. cbn [logged_more factory].
  destruct (simulation_mode_ (factory w)).
  - eexists. split; reflexivity.
  - unfold bind at 1.
    destruct (detectD435Hardware_run env
                (logged_more w [ {| log_level := DEBUG; log_component := "CameraFactory";
                                    log_message := "Performing hardware detection" |} ]))
      as (r1 & -> & H1).
    unfold bind at 1.
    destruct (detectFemtoMegaHardware_run env
                (logged_more
                   (logged_more w [ {| log_level := DEBUG; log_component := "CameraFactory";
                                       log_message := "Performing hardware detection" |} ]) r1))
      as (r2 & -> & H2).
    unfold bind. rewrite log_run. unfold ret. rewrite !logged_more_more.
    eexists. split; [reflexivity|].
    rewrite !List.filter_app, H1, H2. reflexivity.
Qed.

Lemma detection_runs_logged_more (w : World) (records : list LogRecord) :
  detection_runs (logged_more w records) =
    (detection_runs w + length (List.filter is_detection_record records))%nat.
Proof.
  unfold detection_runs, logged_more. simpl. now rewrite List.filter_app, length_app.
Qed.

(** C6 (amended). In simulation mode [performHardwareDetection] returns
    exactly the two simulated records, whatever hardware is attached, and
    both report [is_medical_grade = true]. *)
Theorem simulation_records_are_medical_grade (env : Environment) (w : World) :
  simulation_mode_ (factory w) = true ->
  result_of (performHardwareDetection env) w = Some [d435_sim; femto_sim]
  /\ Forall (fun r => is_medical_grade r = true) [d435_sim; femto_sim].
Proof.
  intros Hsim. split.
  - unfold result_of. destruct (performHardwareDetection_run env w) as (records & -> & _).
    now rewrite Hsim.
  - repeat constructor.
Qed.

Lemma simulation_records_are_medical_grade_witness :
  let env := bench_env ["D435-0001"] [] in
  let w := configured_world env (policy true true "auto" true true) in
  simulation_mode_ (factory w) = true
  /\ result_of (performHardwareDetection env) w = Some [d435_sim; femto_sim].
Proof.
  cbv zeta. split; [vm_compute; reflexivity|].
  apply (simulation_records_are_medical_grade
           (bench_env ["D435-0001"] [])
           (configured_world (bench_env ["D435-0001"] []) (policy true true "auto" true true))).
  vm_compute. reflexivity.
Defined.

(** C6, as stated, fails: the records detected for the simulation cameras
    of a factory configured for simulation do not report
    [is_medical_grade = false]. *)
Lemma simulation_records_counterexample :
  let env := bench_env [] [] in
  exists records,
    on_configured env (policy true true "auto" true true) (performHardwareDetection env)
      = Some records
    /\ records <> []
    /\ ~ Forall (fun r => is_medical_grade r = false) records
    /\ Forall (fun r => is_medical_grade r = true) records.
Proof.
  cbv zeta. exists [d435_sim; femto_sim].
  split; [vm_compute; reflexivity|].
  split; [discriminate|].
  split; [|repeat constructor].
  intros H. inversion H as [|? ? Hhead _]. discriminate Hhead.
Qed.

(** ** The detection cache *)

Lemma isDetectionCacheValid_iff (env : Environment) (f : CameraFactory) :
  isDetectionCacheValid env f = true <-> cache_usable env f.
Proof.
  unfold isDetectionCacheValid, cache_usable.
  destruct (detection_cache_valid_ f); simpl.
  - rewrite Z.ltb_lt. tauto.
  - split; [discriminate | intros [H _]; discriminate H].
Qed.

Lemma detectAllHardware_cached (env : Environment) (w : World) :
  cache_usable env (factory w) ->
  detectAllHardware env w = Some (detection_cache_ (factory w), w).
Proof.
  intros H. apply isDetectionCacheValid_iff in H.
  unfold detectAllHardware, bind, get_factory. now rewrite H.
Qed.

Lemma detectAllHardware_fresh (env : Environment) (w : World) :
  ~ cache_usable env (factory w) ->
  exists records,
    let results := detected_records env (simulation_mode_ (factory w)) in
    detectAllHardware env w =
      Some (results,
            with_factory (set_detection_cache results (system_clock_now env) true)
                         (logged_more w records))
    /\ length (List.filter is_detection_record records) = 1%nat.
Proof.
  intros H. rewrite <- isDetectionCacheValid_iff in H.
  apply not_true_is_false in H.
  unfold detectAllHardware, bind at 1, get_factory. rewrite H.
  destruct (performHardwareDetection_run env w) as (records & Hrun & Hone).
  exists records. cbv zeta. split; [|exact Hone].
  unfold bind. rewrite Hrun. reflexivity.
Qed.

Lemma configure_run (config : CameraFactoryConfig) (w : World) :
  exists records,
    configure config w =
      Some (tt, logged_more
                  (with_factory
                     (fun f => set_simulation_mode_ (enable_simulation_mode config)
                                 (set_detection_cache [] (last_detection_time_ f) false
                                    (set_config_ config f))) w)
                  records)
    /\ List.filter is_detection_record records = [].
Proof.
  eexists. split.
  - unfold configure, bind, invalidateDetectionCache, modify_factory, get_factory.
    rewrite log_run. cbn. rewrite log_run. unfold logged_more, with_factory. cbn.
    rewrite <- app_assoc. reflexivity.
  - destruct (prefer_production_hardware config); reflexivity.
Qed.

(** C5. [detectAllHardware] always returns. It hands back the cached list,
    without entering [performHardwareDetection] and without touching the
    factory, exactly when the cache is marked valid and was filled less than
    five minutes before the clock reading of the call; otherwise it runs one
    detection, returns its records and stores them with the reading.
    [configure] marks the cache invalid and empties it, so the next
    [detectAllHardware], at whatever time, runs a detection; and a cache
    filled at one reading is served at a later one exactly while fewer than
    five minutes lie between the two. *)
Theorem detectAllHardware_cache_policy (env : Environment) (w : World) :
  (exists results w',
     detectAllHardware env w = Some (results, w')
     /\ (cache_usable env (factory w) ->
         results = detection_cache_ (factory w) /\ w' = w)
     /\ (~ cache_usable env (factory w) ->
         results = detected_records env (simulation_mode_ (factory w))
         /\ detection_cache_ (factory w') = results
         /\ last_detection_time_ (factory w') = system_clock_now env
         /\ detection_cache_valid_ (factory w') = true)
     /\ (detection_runs w' = detection_runs w <-> cache_usable env (factory w))
     /\ (detection_runs w' = S (detection_runs w) <-> ~ cache_usable env (factory w))
     /\ (~ cache_usable env (factory w) ->
         forall later : Environment,
           cache_usable later (factory w') <->
           system_clock_now later - system_clock_now env < DETECTION_CACHE_TIMEOUT))
  /\ (forall config : CameraFactoryConfig,
        exists w',
          world_after (configure config) w = Some w'
          /\ detection_cache_valid_ (factory w') = false
          /\ detection_cache_ (factory w') = []
          /\ detection_runs w' = detection_runs w
          /\ forall next : Environment,
               ~ cache_usable next (factory w')
               /\ exists results w'',
                    detectAllHardware next w' = Some (results, w'')
                    /\ results = detected_records next (enable_simulation_mode config)
                    /\ detection_runs w'' = S (detection_runs w')).
Proof.
  split.
  - destruct (Z.lt_ge_cases (system_clock_now env - last_detection_time_ (factory w))
                DETECTION_CACHE_TIMEOUT) as [Hage|Hage];
      destruct (detection_cache_valid_ (factory w)) eqn:Hvalid.
    + assert (Hu : cache_usable env (factory w)) by (split; assumption).
      exists (detection_cache_ (factory w)), w.
      split; [now apply detectAllHardware_cached|].
      repeat split; try tauto; try (intros; lia).
    + assert (Hu : ~ cache_usable env (factory w))
        by (intros [Hv _]; rewrite Hvalid in Hv; discriminate).
      destruct (detectAllHardware_fresh env w Hu) as (records & Hrun & Hone).
      cbv zeta in Hrun. eexists _, _. split; [exact Hrun|].
      unfold with_factory, detection_runs in *. cbn.
      rewrite List.filter_app, length_app, Hone.
      repeat split; try tauto; try (intros; lia);
        unfold cache_usable; cbn; tauto.
    + assert (Hu : ~ cache_usable env (factory w)) by (intros [_ Ha]; lia).
      destruct (detectAllHardware_fresh env w Hu) as (records & Hrun & Hone).
      cbv zeta in Hrun. eexists _, _. split; [exact Hrun|].
      unfold with_factory, detection_runs in *. cbn.
      rewrite List.filter_app, length_app, Hone.
      repeat split; try tauto; try (intros; lia);
        unfold cache_usable; cbn; tauto.
    + assert (Hu : ~ cache_usable env (factory w)) by (intros [_ Ha]; lia).
      destruct (detectAllHardware_fresh env w Hu) as (records & Hrun & Hone).
      cbv zeta in Hrun. eexists _, _. split; [exact Hrun|].
      unfold with_factory, detection_runs in *. cbn.
      rewrite List.filter_app, length_app, Hone.
      repeat split; try tauto; try (intros; lia);
        unfold cache_usable; cbn; tauto.
  - intros config. destruct (configure_run config w) as (records & Hrun & Hnone).
    eexists. unfold world_after. rewrite Hrun. split; [reflexivity|].
    split; [reflexivity|]. split; [reflexivity|]. split.
    { rewrite detection_runs_logged_more, Hnone. unfold detection_runs. cbn. lia. }
    intros next.
    assert (Hu : ~ cache_usable next
                   (factory (logged_more
                     (with_factory
                        (fun f => set_simulation_mode_ (enable_simulation_mode config)
                                    (set_detection_cache [] (last_detection_time_ f) false
                                       (set_config_ config f))) w) records)))
      by (intros [Hv _]; discriminate Hv).
    split; [exact Hu|].
    destruct (detectAllHardware_fresh next _ Hu) as (records' & Hrun' & Hone).
    cbv zeta in Hrun'. eexists _, _. split; [exact Hrun'|]. split; [reflexivity|].
    unfold with_factory, detection_runs. cbn.
    rewrite !List.filter_app, !length_app, Hone. lia.
Qed.

Lemma detectAllHardware_cache_policy_witness :
  let env := bench_env ["D435-0001"] ["FM-0001"] in
  let w := configured_world env DEFAULT_CONFIG in
  ~ cache_usable env (factory w)
  /\ exists results w',
       detectAllHardware env w = Some (results, w')
       /\ detection_runs w' = S (detection_runs w)
       /\ cache_usable (at_time 299999999999 env) (factory w')
       /\ ~ cache_usable (at_time 300000000000 env) (factory w').
Proof.
  cbv zeta.
  assert (Hu : ~ cache_usable (bench_env ["D435-0001"] ["FM-0001"])
                 (factory (configured_world (bench_env ["D435-0001"] ["FM-0001"])
                                            DEFAULT_CONFIG)))
    by (intros [Hv _]; vm_compute in Hv; discriminate Hv).
  split; [exact Hu|].
  destruct (detectAllHardware_cache_policy
              (bench_env ["D435-0001"] ["FM-0001"])
              (configured_world (bench_env ["D435-0001"] ["FM-0001"]) DEFAULT_CONFIG))
    as [(results & w' & Hrun & _ & _ & _ & Hruns & Hlater) _].
  exists results, w'. split; [exact Hrun|].
  split; [apply Hruns; exact Hu|].
  split.
  - apply (Hlater Hu). vm_compute. reflexivity.
  - intros H. apply (Hlater Hu) in H. vm_compute in H. discriminate H.
Defined.

(** ** Creation *)

Lemma addErrorMessage_run (message : string) (w : World) :
  addErrorMessage message w =
    Some (tt, with_factory
                (fun f =>
                   let pushed := error_messages_ f ++ [message] in
                   set_error_messages_
                     (if Nat.ltb 100 (length pushed) then tl pushed else pushed) f) w).
Proof. reflexivity. Qed.

Lemma createSimulationCamera_run (env : Environment) (camera_type : string)
    (w : World) :
  match SimulationCamera_ctor_throws env camera_type with
  | None =>
      exists records,
        createSimulationCamera env camera_type w =
          Some (Some (SimulationCamera camera_type), logged_more w records)
  | Some what =>
      exists w', createSimulationCamera env camera_type w = Some (None, w')
  end.
Proof.
  unfold createSimulationCamera, bind at 1. rewrite log_run.
  destruct (SimulationCamera_ctor_throws env camera_type) as [what|].
  - unfold bind. rewrite log_run, addErrorMessage_run. unfold ret. eauto.
  - unfold ret. eauto.
Qed.

(** In simulation mode [createCamera] logs twice and hands over to
    [createSimulationCamera]. *)
Lemma createCamera_simulation_run (env : Environment) (camera_type : string)
    (w : World) :
  simulation_mode_ (factory w) = true ->
  createCamera env camera_type w =
    (log INFO "CameraFactory" ("Creating camera of type: " +++ camera_type) ;;;
     log INFO "CameraFactory" "Creating simulation camera" ;;;
     createSimulationCamera env camera_type) w.
Proof.
  intros Hsim. unfold createCamera, createCamera_locked, bind at 1 3.
  rewrite !log_run. unfold bind at 1, get_factory. cbn [logged_more factory].
  now rewrite Hsim.
Qed.

Lemma createCamera_simulation_outcome (env : Environment) (camera_type : string)
    (w : World) :
  simulation_mode_ (factory w) = true ->
  match SimulationCamera_ctor_throws env camera_type with
  | None =>
      exists records,
        createCamera env camera_type w =
          Some (Some (SimulationCamera camera_type), logged_more w records)
  | Some what => result_of (createCamera env camera_type) w = Some None
  end.
Proof.
  intros Hsim. unfold result_of. rewrite (createCamera_simulation_run _ _ _ Hsim).
  unfold bind. rewrite !log_run.
  pose proof (createSimulationCamera_run env camera_type
                (logged_more
                   (logged_more w
                      [ {| log_level := INFO; log_component := "CameraFactory";
                           log_message := "Creating camera of type: " +++ camera_type |} ])
                   [ {| log_level := INFO; log_component := "CameraFactory";
                        log_message := "Creating simulation camera" |} ])) as Hrun.
  destruct (SimulationCamera_ctor_throws env camera_type) as [what|].
  - destruct Hrun as [w' ->]. reflexivity.
  - destruct Hrun as [records ->]. rewrite !logged_more_more. eauto.
Qed.

(** C9. With [simulation_mode_] set, [createCamera] does, for every type
    string and whatever custom creators are registered, what
    [createSimulationCamera] does after two log records: the result is the
    simulation camera constructed with that string (a null pointer only if
    the constructor throws), and it depends on nothing the sub-factories
    would answer. *)
Theorem createCamera_simulation_bypass (env : Environment) (camera_type : string)
    (w : World) :
  simulation_mode_ (factory w) = true ->
  createCamera env camera_type w =
    (log INFO "CameraFactory" ("Creating camera of type: " +++ camera_type) ;;;
     log INFO "CameraFactory" "Creating simulation camera" ;;;
     createSimulationCamera env camera_type) w
  /\ (SimulationCamera_ctor_throws env camera_type = None ->
      exists records,
        createCamera env camera_type w =
          Some (Some (SimulationCamera camera_type), logged_more w records))
  /\ (forall what, SimulationCamera_ctor_throws env camera_type = Some what ->
      result_of (createCamera env camera_type) w = Some None)
  /\ (forall env' : Environment,
        SimulationCamera_ctor_throws env' camera_type
          = SimulationCamera_ctor_throws env camera_type ->
        createCamera env' camera_type w = createCamera env camera_type w).
Proof.
  intros Hsim.
  pose proof (createCamera_simulation_outcome env camera_type w Hsim) as Hout.
  split; [now apply createCamera_simulation_run|]. split; [|split].
  - intros Hctor. now rewrite Hctor in Hout.
  - intros what Hctor. now rewrite Hctor in Hout.
  - intros env' Hsame. rewrite !createCamera_simulation_run by exact Hsim.
    unfold bind. rewrite !log_run.
    unfold createSimulationCamera. now rewrite Hsame.
Qed.

Lemma createCamera_simulation_bypass_witness :
  let env := bench_env ["D435-0001"] ["FM-0001"] in
  let w := configured_world env (policy true true "auto" true true) in
  simulation_mode_ (factory w) = true
  /\ result_of (createCamera env "femto_mega") w
       = Some (Some (SimulationCamera "femto_mega"))
  /\ result_of (createCamera env "no such camera") w
       = Some (Some (SimulationCamera "no such camera")).
Proof.
  cbv zeta.
  assert (Hsim : simulation_mode_
                   (factory (configured_world (bench_env ["D435-0001"] ["FM-0001"])
                                              (policy true true "auto" true true))) = true)
    by (vm_compute; reflexivity).
  split; [exact Hsim|]. split.
  - destruct (createCamera_simulation_bypass (bench_env ["D435-0001"] ["FM-0001"])
                "femto_mega" _ Hsim) as (_ & H & _).
    destruct (H eq_refl) as [records Hrun]. unfold result_of. now rewrite Hrun.
  - destruct (createCamera_simulation_bypass (bench_env ["D435-0001"] ["FM-0001"])
                "no such camera" _ Hsim) as (_ & H & _).
    destruct (H eq_refl) as [records Hrun]. unfold result_of. now rewrite Hrun.
Defined.

(** What [createBestCamera] comes down to once detection and selection have
    run: both only add log records. *)
Lemma createBestCamera_calling_run
    (createCamera : string -> M (unique_ptr ICamera))
    (env : Environment) (w : World) :
  let config := config_ (factory w) in
  let detected := detected_records env (simulation_mode_ (factory w)) in
  exists records,
    createBestCamera_calling createCamera env w =
      match detected with
      | [] =>
          if enable_fallback_mode config && enable_simulation_mode config
          then createSimulationCamera env "d435" (logged_more w records)
          else (addErrorMessage "No cameras detected and fallback disabled" ;;;
                ret None) (logged_more w records)
      | _ =>
          if String.eqb (selected_type config detected) ""
          then (addErrorMessage "No suitable camera found" ;;; ret None)
                 (logged_more w records)
          else createCamera (selected_type config detected) (logged_more w records)
      end.
Proof.
  cbv zeta. unfold createBestCamera_calling, bind at 1. rewrite log_run.
  unfold bind at 1.
  destruct (performHardwareDetection_run env
              (logged_more w [ {| log_level := INFO; log_component := "CameraFactory";
                                  log_message := "Selecting best available camera" |} ]))
    as (r1 & Hrun & _).
  cbn [logged_more factory] in Hrun. rewrite Hrun. clear Hrun.
  unfold bind at 1, get_factory. cbn [logged_more factory]. rewrite !logged_more_more.
  destruct (detected_records env (simulation_mode_ (factory w))) as [|r l].
  - unfold bind at 1. rewrite log_run, logged_more_more.
    destruct (enable_fallback_mode (config_ (factory w))
              && enable_simulation_mode (config_ (factory w))).
    + unfold bind at 1. rewrite log_run, logged_more_more. eauto.
    + eauto.
  - unfold bind at 1.
    destruct (selectBestCamera_run (r :: l) (logged_more w
                ([ {| log_level := INFO; log_component := "CameraFactory";
                      log_message := "Selecting best available camera" |} ] ++ r1)))
      as (r2 & Hsel).
    cbn [logged_more factory] in Hsel. rewrite Hsel. clear Hsel.
    rewrite logged_more_more.
    destruct (String.eqb (selected_type (config_ (factory w)) (r :: l)) "").
    + unfold bind at 1. rewrite log_run, logged_more_more. eauto.
    + unfold bind at 1. rewrite log_run, logged_more_more. eauto.
Qed.

(** When every detected record passes validation, the first of the sorted
    range is selected. *)
Lemma selected_type_all_valid (config : CameraFactoryConfig)
    (detected_hardware : list HardwareDetectionResult) :
  detected_hardware <> [] ->
  Forall (fun r => validateDetectionResult config r = true) detected_hardware ->
  exists result,
    In result detected_hardware
    /\ selectBestCamera_record config detected_hardware = Some result.
Proof.
  intros Hne Hall. unfold selectBestCamera_record.
  pose proof (std_sort_Permutation (selectBestCamera_before config) detected_hardware)
    as Hperm.
  destruct (std_sort (selectBestCamera_before config) detected_hardware) as [|h t].
  - apply Permutation_nil in Hperm. contradiction.
  - assert (Hin : In h detected_hardware)
      by (eapply Permutation_in; [exact Hperm | left; reflexivity]).
    exists h. split; [exact Hin|].
    rewrite Forall_forall in Hall. simpl. apply list_elem_of_In in Hin.
    now rewrite (Hall h Hin).
Qed.

Lemma selected_type_simulation (config : CameraFactoryConfig) :
  selected_type config [d435_sim; femto_sim] = "d435_sim"
  \/ selected_type config [d435_sim; femto_sim] = "femto_mega_sim".
Proof.
  destruct (selected_type_all_valid config [d435_sim; femto_sim]) as (r & Hin & Hsel).
  - discriminate.
  - destruct config as [? ? ? compliance ? ? ? ?].
    destruct compliance; repeat constructor.
  - unfold selected_type. rewrite Hsel.
    destruct Hin as [<-|[<-|[]]]; [left | right]; reflexivity.
Qed.

Lemma error_exit_run (message : string) (w : World) :
  exists w', (addErrorMessage message ;;; ret None) w = Some (@None ICamera, w').
Proof. unfold bind. rewrite addErrorMessage_run. unfold ret. eauto. Qed.


(** C2 (amended). When detection returns no record, [createBestCamera]
    returns a simulation camera constructed with the fixed type ["d435"],
    whatever the preferred type, if [enable_fallback_mode] and
    [enable_simulation_mode] are both set, and a null pointer if they are
    not both set. When both are clear and no detected record passes the
    selection, it returns a null pointer. When [simulation_mode_] is set,
    detection itself yields the two simulated records and the result is the
    simulation camera of the selected one, ["d435_sim"] or
    ["femto_mega_sim"]. *)
Theorem createBestCamera_fallback (env : Environment) (w : World) :
  let config := config_ (factory w) in
  let detected := detected_records env (simulation_mode_ (factory w)) in
  (detected = [] ->
   enable_fallback_mode config && enable_simulation_mode config = true ->
   SimulationCamera_ctor_throws env "d435" = None ->
   result_of (createBestCamera env) w = Some (Some (SimulationCamera "d435")))
  /\ (detected = [] ->
      enable_fallback_mode config && enable_simulation_mode config = false ->
      result_of (createBestCamera env) w = Some None)
  /\ (selectBestCamera_record config detected = None ->
      enable_fallback_mode config = false ->
      enable_simulation_mode config = false ->
      result_of (createBestCamera env) w = Some None)
  /\ (simulation_mode_ (factory w) = true ->
      (forall t, SimulationCamera_ctor_throws env t = None) ->
      exists t,
        (t = "d435_sim" \/ t = "femto_mega_sim")
        /\ t = selected_type config [d435_sim; femto_sim]
        /\ result_of (createBestCamera env) w = Some (Some (SimulationCamera t))).
Proof.
  cbv zeta. unfold result_of, createBestCamera.
  destruct (createBestCamera_calling_run (createCamera env) env w) as [records Hrun].
  cbv zeta in Hrun. rewrite Hrun. clear Hrun.
  split; [|split; [|split]].
  - intros -> -> Hctor.
    pose proof (createSimulationCamera_run env "d435" (logged_more w records)) as H.
    rewrite Hctor in H. destruct H as [records' ->]. reflexivity.
  - intros -> ->.
    destruct (error_exit_run "No cameras detected and fallback disabled"
                (logged_more w records)) as [w' ->]. reflexivity.
  - intros Hnone Hfallback Hsimulation.
    destruct (detected_records env (simulation_mode_ (factory w))) as [|r l] eqn:Hdetected.
    + rewrite Hfallback. cbn [andb].
      destruct (error_exit_run "No cameras detected and fallback disabled"
                  (logged_more w records)) as [w' ->]. reflexivity.
    + unfold selected_type. rewrite Hnone. cbn [String.eqb].
      destruct (error_exit_run "No suitable camera found" (logged_more w records))
        as [w' ->]. reflexivity.
  - intros Hsim Hctor. rewrite Hsim. cbn [detected_records].
    exists (selected_type (config_ (factory w)) [d435_sim; femto_sim]).
    split; [apply selected_type_simulation|]. split; [reflexivity|].
    assert (Hne : String.eqb (selected_type (config_ (factory w)) [d435_sim; femto_sim]) ""
                  = false)
      by (destruct (selected_type_simulation (config_ (factory w))) as [-> | ->];
          reflexivity).
    rewrite Hne.
    pose proof (createCamera_simulation_outcome env
                  (selected_type (config_ (factory w)) [d435_sim; femto_sim])
                  (logged_more w records) Hsim) as H.
    rewrite Hctor in H. destruct H as [records' ->]. reflexivity.
Qed.

Lemma createBestCamera_fallback_witness :
  let env := bench_env ["D435-0001"] [] in
  (let w := configured_world env (policy true true "d435" false false) in
   selectBestCamera_record (config_ (factory w))
     (detected_records env (simulation_mode_ (factory w))) = None
   /\ result_of (createBestCamera env) w = Some None)
  /\ (let w := configured_world env (policy true true "d435" true true) in
      simulation_mode_ (factory w) = true
      /\ result_of (createBestCamera env) w
           = Some (Some (SimulationCamera "femto_mega_sim"))).
Proof.
  cbv zeta. split.
  - assert (Hnone :
      selectBestCamera_record
        (config_ (factory (configured_world (bench_env ["D435-0001"] [])
                                            (policy true true "d435" false false))))
        (detected_records (bench_env ["D435-0001"] [])
           (simulation_mode_
              (factory (configured_world (bench_env ["D435-0001"] [])
                                         (policy true true "d435" false false))))) = None)
      by (vm_compute; reflexivity).
    split; [exact Hnone|].
    destruct (createBestCamera_fallback (bench_env ["D435-0001"] [])
                (configured_world (bench_env ["D435-0001"] [])
                                  (policy true true "d435" false false)))
      as (_ & _ & H & _).
    apply H; [exact Hnone | reflexivity | reflexivity].
  - assert (Hsim :
      simulation_mode_
        (factory (configured_world (bench_env ["D435-0001"] [])
                                   (policy true true "d435" true true))) = true)
      by (vm_compute; reflexivity).
    split; [exact Hsim|].
    destruct (createBestCamera_fallback (bench_env ["D435-0001"] [])
                (configured_world (bench_env ["D435-0001"] [])
                                  (policy true true "d435" true true)))
      as (_ & _ & _ & H).
    destruct (H Hsim (fun _ => eq_refl)) as (t & _ & Ht & Hrun).
    rewrite Hrun, Ht. vm_compute. reflexivity.
Defined.

(** C2, as stated, fails on the tag. After [configure] with compliance
    required, fallback and simulation enabled and preferred type ["d435"],
    with only a stereo-IR device attached (no usable hardware), the result
    is the simulation camera ["femto_mega_sim"]. In the fallback branch
    itself, reached with no device attached, the simulation camera is
    constructed with ["d435"] although the preferred type is
    ["femto_mega"]. *)
Lemma createBestCamera_fallback_counterexample :
  (let env := bench_env ["D435-0001"] [] in
   let config := policy true true "d435" true true in
   no_usable_hardware config env
   /\ enable_fallback_mode config = true
   /\ enable_simulation_mode config = true
   /\ preferred_camera_type config = "d435"
   /\ on_configured env config (createBestCamera env)
        = Some (Some (SimulationCamera "femto_mega_sim"))
   /\ on_configured env config (createBestCamera env)
        <> Some (Some (SimulationCamera "d435")))
  /\ (let env := bench_env [] [] in
      let config := policy true true "femto_mega" true true in
      let w := probing_world env config in
      config_ (factory w) = config
      /\ result_of (performHardwareDetection env) w = Some []
      /\ result_of (createBestCamera env) w = Some (Some (SimulationCamera "d435"))
      /\ result_of (createBestCamera env) w
           <> Some (Some (SimulationCamera "femto_mega"))).
Proof.
  cbv zeta. split.
  - repeat split; try (vm_compute; reflexivity).
    vm_compute. discriminate.
  - repeat split; try (vm_compute; reflexivity).
    vm_compute. discriminate.
Qed.

(** C4 (amended). [selectBestCamera] stops at the first record of the
    sorted range that passes [validateDetectionResult], and
    [createBestCamera] makes one [createCamera] call, for the type of that
    record: its result is the result of that call, so when the creation or
    the [validate()] of that one camera fails the whole selection returns a
    null pointer and no other record is tried. *)
Theorem createBestCamera_single_attempt (env : Environment) (w : World)
    (best : HardwareDetectionResult) :
  let config := config_ (factory w) in
  let detected := detected_records env (simulation_mode_ (factory w)) in
  find (validateDetectionResult config)
       (std_sort (selectBestCamera_before config) detected) = Some best ->
  camera_type best <> "" ->
  exists records,
    createBestCamera env w
      = createCamera env (camera_type best) (logged_more w records)
    /\ (result_of (createCamera env (camera_type best)) (logged_more w records)
          = Some None ->
        result_of (createBestCamera env) w = Some None).
Proof.
  cbv zeta. intros Hbest Hne.
  fold (selectBestCamera_record (config_ (factory w))
          (detected_records env (simulation_mode_ (factory w)))) in Hbest.
  unfold createBestCamera.
  destruct (createBestCamera_calling_run (createCamera env) env w) as [records Hrun].
  cbv zeta in Hrun. exists records.
  assert (Heq : createBestCamera_calling (createCamera env) env w
                = createCamera env (camera_type best) (logged_more w records)).
  { rewrite Hrun. unfold selected_type. rewrite Hbest.
    destruct (detected_records env (simulation_mode_ (factory w))) as [|r l].
    - discriminate Hbest.
    - destruct (String.eqb_spec (camera_type best) ""); [contradiction|reflexivity]. }
  split; [exact Heq|].
  unfold result_of. now rewrite Heq.
Qed.

Lemma createBestCamera_single_attempt_witness :
  let env := femto_mega_unavailable (bench_env ["D435-0001"] ["FM-0001"]) in
  let w := configured_world env (policy false false "auto" false false) in
  find (validateDetectionResult (config_ (factory w)))
       (std_sort (selectBestCamera_before (config_ (factory w)))
                 (detected_records env (simulation_mode_ (factory w))))
    = Some (femto_mega_record "FM-0001")
  /\ result_of (createBestCamera env) w = Some None.
Proof.
  cbv zeta.
  assert (Hbest :
    find (validateDetectionResult
            (config_ (factory (configured_world
               (femto_mega_unavailable (bench_env ["D435-0001"] ["FM-0001"]))
               (policy false false "auto" false false)))))
         (std_sort (selectBestCamera_before
            (config_ (factory (configured_world
               (femto_mega_unavailable (bench_env ["D435-0001"] ["FM-0001"]))
               (policy false false "auto" false false)))))
            (detected_records
               (femto_mega_unavailable (bench_env ["D435-0001"] ["FM-0001"]))
               (simulation_mode_ (factory (configured_world
                  (femto_mega_unavailable (bench_env ["D435-0001"] ["FM-0001"]))
                  (policy false false "auto" false false))))))
      = Some (femto_mega_record "FM-0001")) by (vm_compute; reflexivity).
  split; [exact Hbest|].
  destruct (createBestCamera_single_attempt _ _ _ Hbest) as (records & Heq & Hnull).
  - discriminate.
  - apply Hnull. unfold result_of.
    unfold createCamera, createCamera_locked, bind at 1. rewrite log_run.
    vm_compute. reflexivity.
Defined.

(** C4, as stated, fails: with the compliance check off both detected
    records are candidates, structured-light first; the structured-light
    sub-factory returns a null pointer, the stereo-IR camera could be
    created and validated, and [createBestCamera] returns a null pointer
    without trying it. *)
Lemma createBestCamera_iteration_counterexample :
  let env := femto_mega_unavailable (bench_env ["D435-0001"] ["FM-0001"]) in
  let config := policy false false "auto" false false in
  let w := configured_world env config in
  on_configured env config (performHardwareDetection env)
    = Some [d435_record "D435-0001"; femto_mega_record "FM-0001"]
  /\ map camera_type
       (List.filter (validateDetectionResult config)
          (std_sort (selectBestCamera_before config)
             [d435_record "D435-0001"; femto_mega_record "FM-0001"]))
     = ["femto_mega"; "d435"]
  /\ result_of (createCamera env "femto_mega") w = Some None
  /\ result_of (createCamera env "d435") w
     = Some (Some (ExternalCamera FromD435Factory "d435" (Returns SUCCESS)))
  /\ on_configured env config (createBestCamera env) = Some None.
Proof.
  cbv zeta. repeat split; vm_compute; reflexivity.
Qed.

(** ** The error history *)

Lemma addErrorMessage_history (message : string) (w : World) :
  error_history_bounded (factory w) ->
  exists w',
    addErrorMessage message w = Some (tt, w')
    /\ error_history_bounded (factory w')
    /\ (length (error_messages_ (factory w)) = 100%nat ->
        error_messages_ (factory w') = tl (error_messages_ (factory w)) ++ [message])
    /\ ((length (error_messages_ (factory w)) < 100)%nat ->
        error_messages_ (factory w') = error_messages_ (factory w) ++ [message]).
Proof.
  unfold error_history_bounded. intros Hbound.
  eexists. split; [apply addErrorMessage_run|].
  unfold with_factory. cbn [factory error_messages_ set_error_messages_].
  rewrite length_app. cbn [length].
  destruct (Nat.ltb_spec 100 (length (error_messages_ (factory w)) + 1)) as [Hfull|Hroom].
  - assert (Hlen : length (error_messages_ (factory w)) = 100%nat) by lia.
    destruct (error_messages_ (factory w)) as [|oldest others]; [discriminate Hlen|].
    cbn [tl app length] in *. rewrite length_app. cbn [length].
    split; [lia|]. split; [reflexivity | lia].
  - rewrite length_app. cbn [length]. split; [lia|]. split; [lia|reflexivity].
Qed.

Section KeepsBound.

Lemma keeps_ret {A} (a : A) : keeps_bound (ret a).
Proof. intros w a' w' Hb H. injection H as _ <-. exact Hb. Qed.

Lemma keeps_relock {A} : keeps_bound (@relock A).
Proof. intros w a w' _ H. discriminate H. Qed.

Lemma keeps_bind {A B} (m : M A) (k : A -> M B) :
  keeps_bound m -> (forall a, keeps_bound (k a)) -> keeps_bound (bind m k).
Proof.
  intros Hm Hk w b w' Hb H. unfold bind in H.
  destruct (m w) as [[a w1]|] eqn:Hrun; [|discriminate H].
  eapply Hk; [|exact H]. eapply Hm; [exact Hb | exact Hrun].
Qed.

Lemma keeps_log (level : LogLevel) (component message : string) :
  keeps_bound (log level component message).
Proof. intros w a w' Hb H. injection H as _ <-. exact Hb. Qed.

Lemma keeps_get_factory : keeps_bound get_factory.
Proof. intros w a w' Hb H. injection H as _ <-. exact Hb. Qed.

Lemma keeps_modify_factory (f : CameraFactory -> CameraFactory) :
  (forall c, error_messages_ (f c) = error_messages_ c) ->
  keeps_bound (modify_factory f).
Proof.
  intros Hsame w a w' Hb H. injection H as _ <-.
  unfold error_history_bounded, with_factory in *. cbn [factory].
  now rewrite Hsame.
Qed.

Lemma keeps_addErrorMessage (message : string) :
  keeps_bound (addErrorMessage message).
Proof.
  intros w a w' Hb H.
  destruct (addErrorMessage_history message w Hb) as (w1 & Hrun & Hb1 & _).
  rewrite Hrun in H. injection H as _ <-. exact Hb1.
Qed.

Lemma keeps_clearErrorMessages : keeps_bound clearErrorMessages.
Proof.
  intros w a w' _ H. injection H as _ <-.
  unfold error_history_bounded. cbn. lia.
Qed.

Lemma keeps_for_each {A} (xs : list A) (body : A -> M unit) :
  (forall x, keeps_bound (body x)) -> keeps_bound (for_each xs body).
Proof.
  intros Hbody. induction xs as [|x rest IH]; simpl.
  - apply keeps_ret.
  - apply keeps_bind; [apply Hbody | intros _; exact IH].
Qed.

End KeepsBound.

Create HintDb keeps discriminated.
#[local] Hint Resolve keeps_ret keeps_relock keeps_log keeps_get_factory
  keeps_addErrorMessage keeps_clearErrorMessages : keeps.

(** One syntactic step through a member function. *)
Ltac keeps_step :=
  match goal with
  | |- keeps_bound (bind _ _) => apply keeps_bind; [|intros]
  | |- keeps_bound (modify_factory _) => apply keeps_modify_factory; intros; reflexivity
  | |- keeps_bound (for_each _ _) => apply keeps_for_each; intros
  | |- keeps_bound (match (if ?b then _ else _) with _ => _ end) => destruct b
  | |- keeps_bound (if ?b then _ else _) => destruct b
  | |- keeps_bound (match ?x with _ => _ end) => destruct x
  | |- keeps_bound _ => solve [auto with keeps]
  end.

Ltac keeps := cbv zeta; repeat keeps_step.

Lemma keeps_performHardwareDetection (env : Environment) :
  keeps_bound (performHardwareDetection env).
Proof. unfold performHardwareDetection, detectD435Hardware, detectFemtoMegaHardware. keeps. Qed.

Lemma keeps_selectBestCamera (detected_hardware : list HardwareDetectionResult) :
  keeps_bound (selectBestCamera detected_hardware).
Proof. unfold selectBestCamera. keeps. Qed.

Lemma keeps_createSimulationCamera (env : Environment) (camera_type : string) :
  keeps_bound (createSimulationCamera env camera_type).
Proof. unfold createSimulationCamera. keeps. Qed.

#[local] Hint Resolve keeps_performHardwareDetection keeps_selectBestCamera
  keeps_createSimulationCamera : keeps.

Lemma keeps_initialize (env : Environment) : keeps_bound (initialize env).
Proof. unfold initialize. keeps. Qed.

Lemma keeps_configure (config : CameraFactoryConfig) : keeps_bound (configure config).
Proof. unfold configure, invalidateDetectionCache. keeps. Qed.

Lemma keeps_createBestCamera_calling
    (createCamera : string -> M (unique_ptr ICamera)) (env : Environment) :
  (forall t, keeps_bound (createCamera t)) ->
  keeps_bound (createBestCamera_calling createCamera env).
Proof. intros H. unfold createBestCamera_calling. keeps. Qed.

Lemma keeps_createCamera_locked (createBestCamera : M (unique_ptr ICamera))
    (env : Environment) (camera_type : string) :
  keeps_bound createBestCamera ->
  keeps_bound (createCamera_locked createBestCamera env camera_type).
Proof.
  intros H. unfold createCamera_locked, createCamera_catch. keeps.
Qed.

Lemma keeps_createCamera (env : Environment) (camera_type : string) :
  keeps_bound (createCamera env camera_type).
Proof.
  apply keeps_createCamera_locked, keeps_createBestCamera_calling.
  intros _. apply keeps_relock.
Qed.

Lemma keeps_createBestCamera (env : Environment) : keeps_bound (createBestCamera env).
Proof. apply keeps_createBestCamera_calling, keeps_createCamera. Qed.

Lemma keeps_getConfiguration : keeps_bound getConfiguration.
Proof. unfold getConfiguration. keeps. Qed.

#[local] Hint Resolve keeps_configure keeps_getConfiguration keeps_createCamera
  keeps_createBestCamera : keeps.

Lemma keeps_perform (env : Environment) (op : Operation) :
  keeps_bound (perform env op).
Proof.
  destruct op; unfold perform, discard, getAvailableCameraTypes,
    detectConnectedCameras, detectAllHardware, createDefaultCamera,
    createDevelopmentCamera, createProductionCamera; keeps.
Qed.

Lemma keeps_run (script : list (Environment * Operation)) : keeps_bound (run script).
Proof.
  induction script as [|[env op] rest IH]; simpl.
  - apply keeps_ret.
  - apply keeps_bind; [apply keeps_perform | intros _; exact IH].
Qed.

Lemma reachable_bounded (w : World) :
  reachable w -> error_history_bounded (factory w).
Proof.
  intros (env0 & logged & w0 & script & Hnew & Hrun).
  eapply keeps_run; [|exact Hrun].
  eapply keeps_initialize; [|exact Hnew].
  unfold error_history_bounded. cbn. lia.
Qed.

Section AlwaysReturns.

Lemma returns_ret {A} (a : A) : always_returns (ret a).
Proof. intros w. unfold ret. eauto. Qed.

Lemma returns_bind {A B} (m : M A) (k : A -> M B) :
  always_returns m -> (forall a, always_returns (k a)) -> always_returns (bind m k).
Proof.
  intros Hm Hk w. destruct (Hm w) as (a & w1 & Hrun).
  unfold bind. rewrite Hrun. apply Hk.
Qed.

Lemma returns_log (level : LogLevel) (component message : string) :
  always_returns (log level component message).
Proof. intros w. rewrite log_run. eauto. Qed.

Lemma returns_get_factory : always_returns get_factory.
Proof. intros w. unfold get_factory. eauto. Qed.

Lemma returns_modify_factory (f : CameraFactory -> CameraFactory) :
  always_returns (modify_factory f).
Proof. intros w. unfold modify_factory. eauto. Qed.

Lemma returns_for_each {A} (xs : list A) (body : A -> M unit) :
  (forall x, always_returns (body x)) -> always_returns (for_each xs body).
Proof.
  intros Hbody. induction xs as [|x rest IH]; simpl.
  - apply returns_ret.
  - apply returns_bind; [apply Hbody | intros _; exact IH].
Qed.

End AlwaysReturns.

Create HintDb returns discriminated.
#[local] Hint Resolve returns_ret returns_log returns_get_factory
  returns_modify_factory : returns.

Ltac returns_step :=
  match goal with
  | |- always_returns (bind _ _) => apply returns_bind; [|intros]
  | |- always_returns (for_each _ _) => apply returns_for_each; intros
  | |- always_returns (match (if ?b then _ else _) with _ => _ end) => destruct b
  | |- always_returns (if ?b then _ else _) => destruct b
  | |- always_returns (match ?x with _ => _ end) => destruct x
  | |- always_returns _ => solve [auto with returns]
  end.

Ltac returns := cbv zeta; repeat returns_step.

Lemma returns_initialize (env : Environment) : always_returns (initialize env).
Proof.
  unfold initialize, clearErrorMessages, performHardwareDetection, detectD435Hardware,
    detectFemtoMegaHardware, addErrorMessage.
  returns.
Qed.

Lemma getInstance_returns (env : Environment) (logged : list LogRecord) :
  exists w0, getInstance env logged = Some (tt, w0).
Proof.
  unfold getInstance.
  destruct (returns_initialize env {| factory := CameraFactory_members; logger := logged |})
    as ([] & w0 & ->).
  eauto.
Qed.

(** C10. In every world a program can reach, by constructing the singleton
    (which always succeeds) and then making any sequence of calls in any
    surroundings, the error history holds at most 100 messages. Every call
    keeps the bound. Adding a message to a history of 100 drops the oldest
    and appends the new one; below 100 it only appends. *)
Theorem error_history_bound :
  (forall env logged, exists w0, getInstance env logged = Some (tt, w0))
  /\ (forall w, reachable w -> error_history_bounded (factory w))
  /\ (forall env op, keeps_bound (perform env op))
  /\ (forall message w,
        error_history_bounded (factory w) ->
        exists w',
          addErrorMessage message w = Some (tt, w')
          /\ error_history_bounded (factory w')
          /\ (length (error_messages_ (factory w)) = 100%nat ->
              error_messages_ (factory w')
                = tl (error_messages_ (factory w)) ++ [message])
          /\ ((length (error_messages_ (factory w)) < 100)%nat ->
              error_messages_ (factory w')
                = error_messages_ (factory w) ++ [message])).
Proof.
  split; [exact getInstance_returns|].
  split; [exact reachable_bounded|].
  split; [exact keeps_perform|].
  exact addErrorMessage_history.
Qed.

Lemma error_history_bound_witness :
  reachable lidar_world
  /\ error_messages_ (factory lidar_world) = repeat "Unknown camera type: lidar" 100
  /\ error_history_bounded (factory lidar_world).
Proof.
  assert (Hreach : reachable lidar_world).
  { exists (bench_env ["D435-0001"] []), [].
    destruct (getInstance (bench_env ["D435-0001"] []) []) as [[[] w0]|] eqn:Hnew;
      [|vm_compute in Hnew; discriminate Hnew].
    exists w0, lidar_script. split; [reflexivity|].
    vm_compute in Hnew. injection Hnew as <-. vm_compute. reflexivity. }
  split; [exact Hreach|]. split; [vm_compute; reflexivity|].
  destruct error_history_bound as (_ & Hbound & _).
  apply Hbound. exact Hreach.
Defined.


(** * Further properties of the factory *)

(** ** Order of the sorted range

    What the insertion path of [std_sort] leaves, for a comparator that
    never contradicts a rank. The lemmas on the factory's own sort that
    follow from it carry the bound [S_threshold], below which the
    insertion path is all of [std::sort]. *)

Section StdSortRank.
Context {A : Type} (comp : A -> A -> bool) (rank : A -> nat) (dom : A -> Prop).

(** [comp] never contradicts [rank] on [dom]. *)
Hypothesis comp_true : forall a b, dom a -> dom b -> comp a b = true -> (rank b <= rank a)%nat.
Hypothesis comp_false : forall a b, dom a -> dom b -> comp a b = false -> (rank a <= rank b)%nat.

Lemma unguarded_linear_insert_ascending (val : A) (rprefix : list A) :
  dom val -> Forall dom rprefix ->
  StronglySorted (fun x y => (rank x <= rank y)%nat) rprefix ->
  StronglySorted (fun x y => (rank x <= rank y)%nat)
                 (unguarded_linear_insert comp val rprefix).
Proof.
  intros Hval Hdom Hsorted.
  induction rprefix as [|next rest IH]; simpl.
  - repeat constructor.
  - apply Forall_cons in Hdom. destruct Hdom as [Hnext Hrest].
    apply StronglySorted_inv in Hsorted. destruct Hsorted as [Hsorted Hle].
    destruct (comp val next) eqn:Hcomp.
    + constructor; [now apply IH|].
      rewrite Forall_forall. intros x Hx. apply list_elem_of_In in Hx.
      apply (Permutation_in _ (unguarded_linear_insert_Permutation comp val rest)) in Hx.
      destruct Hx as [<-|Hx].
      * now apply comp_true.
      * rewrite Forall_forall in Hle. apply Hle. now apply list_elem_of_In.
    + assert (Hvn : (rank val <= rank next)%nat) by now apply comp_false.
      constructor; [now constructor|].
      constructor; [exact Hvn|].
      eapply Forall_impl; [exact Hle|]. cbn. intros x Hx. lia.
Qed.

Lemma StronglySorted_rev_flip (R : A -> A -> Prop) (l : list A) :
  StronglySorted R l -> StronglySorted (fun x y => R y x) (rev l).
Proof.
  induction 1 as [|a l Hsorted IH Hall]; simpl.
  - constructor.
  - apply StronglySorted_app. split; [|split].
    + intros x y Hx Hy. apply list_elem_of_In in Hy. destruct Hy as [<-|[]].
      rewrite Forall_forall in Hall. apply Hall.
      apply list_elem_of_In. apply in_rev. now apply list_elem_of_In.
    + exact IH.
    + repeat constructor.
Qed.

Lemma insertion_step_descending (prefix : list A) (i : A) :
  dom i -> Forall dom prefix ->
  StronglySorted (fun x y => (rank y <= rank x)%nat) prefix ->
  StronglySorted (fun x y => (rank y <= rank x)%nat) (insertion_step comp prefix i).
Proof.
  intros Hi Hdom Hsorted. unfold insertion_step.
  destruct prefix as [|first tail]; [repeat constructor|].
  destruct (comp i first) eqn:Hcomp.
  - pose proof (Forall_inv Hdom) as Hfirst.
    assert (Hfi : (rank first <= rank i)%nat) by now apply comp_true.
    constructor; [exact Hsorted|].
    constructor; [exact Hfi|].
    apply StronglySorted_inv in Hsorted. destruct Hsorted as [_ Hle].
    eapply Forall_impl; [exact Hle|]. cbn. intros x Hx. lia.
  - apply (StronglySorted_rev_flip (fun x y => (rank x <= rank y)%nat)).
    apply unguarded_linear_insert_ascending; [exact Hi | |].
    + rewrite Forall_forall in *. intros x Hx. apply Hdom.
      apply list_elem_of_In. apply in_rev. now apply list_elem_of_In.
    + apply (StronglySorted_rev_flip (fun x y => (rank y <= rank x)%nat)).
      exact Hsorted.
Qed.

Lemma std_sort_descending (range : list A) :
  Forall dom range ->
  StronglySorted (fun x y => (rank y <= rank x)%nat) (std_sort comp range).
Proof.
  destruct range as [|first rest]; [constructor|].
  intros Hdom. apply Forall_cons in Hdom. destruct Hdom as [Hfirst Hrest].
  unfold std_sort.
  assert (Hgen : forall prefix,
    Forall dom prefix ->
    StronglySorted (fun x y => (rank y <= rank x)%nat) prefix ->
    StronglySorted (fun x y => (rank y <= rank x)%nat)
                   (fold_left (insertion_step comp) rest prefix)).
  { induction rest as [|x rest IH]; intros prefix Hp Hs; simpl; [exact Hs|].
    apply Forall_cons in Hrest. destruct Hrest as [Hx Hrest].
    apply IH; [exact Hrest | |].
    - rewrite Forall_forall. intros y Hy. apply list_elem_of_In in Hy.
      apply (Permutation_in _ (insertion_step_Permutation comp prefix x)) in Hy.
      destruct Hy as [<-|Hy]; [exact Hx|].
      rewrite Forall_forall in Hp. apply Hp. now apply list_elem_of_In.
    - now apply insertion_step_descending. }
  apply Hgen; repeat constructor. exact Hfirst.
Qed.

(** In a descending range the first element with a property outranks every
    other element with it. *)
Lemma find_descending (p : A -> bool) (l : list A) (r : A) :
  StronglySorted (fun x y => (rank y <= rank x)%nat) l ->
  find p l = Some r ->
  forall x, In x l -> p x = true -> (rank x <= rank r)%nat.
Proof.
  induction 1 as [|a l Hsorted IH Hall]; simpl; [discriminate|].
  destruct (p a) eqn:Hpa.
  - intros [= <-] x [<-|Hx] _; [lia|].
    rewrite Forall_forall in Hall. apply Hall. now apply list_elem_of_In.
  - intros Hfind x [<-|Hx] Hpx; [congruence|]. now apply IH.
Qed.

End StdSortRank.

(** ** What the selection guarantees *)

Lemma find_none_iff {A} (p : A -> bool) (l : list A) :
  find p l = None <-> forall x, In x l -> p x = false.
Proof.
  split.
  - intros H x Hx. exact (find_none p l H x Hx).
  - induction l as [|a l IH]; simpl; [reflexivity|].
    intros H. rewrite (H a (or_introl eq_refl)). apply IH.
    intros x Hx. apply H. now right.
Qed.

Lemma selectBestCamera_before_policy_rank (config : CameraFactoryConfig)
    (a b : HardwareDetectionResult) :
  (selectBestCamera_before config a b = true ->
   (policy_rank config b <= policy_rank config a)%nat)
  /\ (selectBestCamera_before config a b = false ->
      (policy_rank config a <= policy_rank config b)%nat).
Proof.
  unfold selectBestCamera_before, policy_rank.
  destruct (enable_medical_compliance_check config),
    (prefer_production_hardware config),
    (is_medical_grade a), (is_medical_grade b),
    (is_production_ready a), (is_production_ready b);
    cbn [andb xorb negb]; split; intros H; try discriminate H; lia.
Qed.

Lemma selectBestCamera_sorted_by_policy (config : CameraFactoryConfig)
    (detected_hardware : list HardwareDetectionResult) :
  (length detected_hardware <= S_threshold)%nat ->
  StronglySorted (fun x y => (policy_rank config y <= policy_rank config x)%nat)
    (std_sort (selectBestCamera_before config) detected_hardware).
Proof.
  intros _.
  apply (std_sort_descending (selectBestCamera_before config) (policy_rank config)
           (fun _ => True)).
  - intros a b _ _. apply selectBestCamera_before_policy_rank.
  - intros a b _ _. apply selectBestCamera_before_policy_rank.
  - rewrite Forall_forall. trivial.
Qed.

(** The two policy keys are honoured on every detection list of at most
    [S_threshold] records, the lists [std::sort] sorts by insertion: the
    selected record is at least as high on (medical grade under the
    compliance check, production readiness under the production
    preference) as every other record that passes validation. In
    particular, under [prefer_production_hardware] a production-ready
    record is selected whenever one passes validation. *)
Theorem selectBestCamera_honours_policy (config : CameraFactoryConfig)
    (detected_hardware : list HardwareDetectionResult)
    (best : HardwareDetectionResult) :
  (length detected_hardware <= S_threshold)%nat ->
  selectBestCamera_record config detected_hardware = Some best ->
  (forall r, In r detected_hardware -> validateDetectionResult config r = true ->
             (policy_rank config r <= policy_rank config best)%nat)
  /\ (prefer_production_hardware config = true ->
      (exists r, In r detected_hardware /\ validateDetectionResult config r = true
                 /\ is_production_ready r = true) ->
      is_production_ready best = true).
Proof.
  intros Hshort Hsel.
  assert (Hrank : forall r, In r detected_hardware ->
                            validateDetectionResult config r = true ->
                            (policy_rank config r <= policy_rank config best)%nat).
  { intros r Hin Hvalid. unfold selectBestCamera_record in Hsel.
    eapply (find_descending (policy_rank config)); [| exact Hsel | | exact Hvalid].
    - now apply selectBestCamera_sorted_by_policy.
    - now apply std_sort_In. }
  split; [exact Hrank|].
  intros Hprod (r & Hin & Hvalid & Hready).
  specialize (Hrank r Hin Hvalid).
  apply selectBestCamera_record_spec in Hsel. destruct Hsel as [_ Hbest].
  apply validateDetectionResult_true in Hvalid, Hbest.
  destruct Hvalid as [_ Hmed], Hbest as [_ Hmed'].
  unfold policy_rank in Hrank. rewrite Hprod, Hready in Hrank.
  destruct (enable_medical_compliance_check config).
  - rewrite (Hmed eq_refl), (Hmed' eq_refl) in Hrank. cbn [andb] in Hrank.
    destruct (is_production_ready best); [reflexivity | cbn in Hrank; lia].
  - cbn [andb] in Hrank.
    destruct (is_production_ready best); [reflexivity | cbn in Hrank; lia].
Qed.

Lemma selectBestCamera_honours_policy_witness :
  is_production_ready (femto_mega_record "FM-0001") = true.
Proof.
  refine (proj2 (selectBestCamera_honours_policy
                   (policy true false "d435" true false) S2_detected
                   (femto_mega_record "FM-0001") _ _) eq_refl _).
  - cbv. lia.
  - vm_compute. reflexivity.
  - exists (femto_mega_record "FM-0001").
    split; [right; left; reflexivity|]. split; vm_compute; reflexivity.
Defined.

Lemma femto_mega_before_d435 (config : CameraFactoryConfig) (femto_id d435_id : string) :
  selectBestCamera_before config (femto_mega_record femto_id) (d435_record d435_id) = true
  /\ selectBestCamera_before config (d435_record d435_id) (femto_mega_record femto_id)
     = false.
Proof.
  destruct config as [production ? ? compliance ? ? ? ?].
  destruct production, compliance; split; vm_compute; reflexivity.
Qed.

Lemma femto_mega_record_valid (config : CameraFactoryConfig) (camera_id : string) :
  validateDetectionResult config (femto_mega_record camera_id) = true.
Proof.
  destruct config as [? ? ? compliance ? ? ? ?]. destruct compliance; vm_compute; reflexivity.
Qed.

Lemma hardware_records_built (env : Environment) :
  Forall hardware_record (hardware_records env).
Proof.
  unfold hardware_records, d435_records, femto_mega_records.
  apply Forall_app. split.
  - destruct (THERAPY_DEVICE_HAS_REALSENSE env); [|constructor].
    destruct (d435_detectConnectedCameras env) as [ids|]; [|constructor].
    rewrite Forall_forall. intros r Hr. apply list_elem_of_In, in_map_iff in Hr.
    destruct Hr as (camera_id & <- & _). exists camera_id. now left.
  - destruct (THERAPY_DEVICE_HAS_ORBBEC env); [|constructor].
    destruct (femto_mega_detectConnectedCameras env) as [ids|]; [|constructor].
    rewrite Forall_forall. intros r Hr. apply list_elem_of_In, in_map_iff in Hr.
    destruct Hr as (camera_id & <- & _). exists camera_id. now right.
Qed.




(** A record without a type that passes validation is selected like any
    other, and the empty string returned for it. *)
Lemma selectBestCamera_unnamed_record (r : HardwareDetectionResult) (w : World) :
  camera_type r = "" ->
  validateDetectionResult (config_ (factory w)) r = true ->
  result_of (selectBestCamera [r]) w = Some "".
Proof.
  intros Htype Hvalid. unfold result_of.
  destruct (selectBestCamera_run [r] w) as [records ->]. f_equal.
  unfold selected_type, selectBestCamera_record. cbn [std_sort fold_left find].
  now rewrite Hvalid.
Qed.


Lemma hardware_sorted_femto_first (config : CameraFactoryConfig)
    (records : list HardwareDetectionResult) :
  (length records <= S_threshold)%nat ->
  Forall hardware_record records ->
  StronglySorted (fun x y => (femto_first y <= femto_first x)%nat)
    (std_sort (selectBestCamera_before config) records).
Proof.
  intros _.
  apply (std_sort_descending (selectBestCamera_before config) femto_first hardware_record).
  - intros a b [ia [-> | ->]] [ib [-> | ->]] H; cbn; try lia.
    now rewrite (proj2 (femto_mega_before_d435 config ib ia)) in H.
  - intros a b [ia [-> | ->]] [ib [-> | ->]] H; cbn; try lia.
    now rewrite (proj1 (femto_mega_before_d435 config ia ib)) in H.
Qed.

Lemma selected_type_femto_mega (env : Environment) (config : CameraFactoryConfig) :
  femto_mega_records env <> [] ->
  (length (hardware_records env) <= S_threshold)%nat ->
  selected_type config (hardware_records env) = "femto_mega".
Proof.
  intros Hfemto Hshort.
  destruct (femto_mega_records env) as [|fm rest] eqn:Hrecords; [contradiction|].
  assert (Hfm : exists camera_id, fm = femto_mega_record camera_id).
  { unfold femto_mega_records in Hrecords.
    destruct (THERAPY_DEVICE_HAS_ORBBEC env); [|discriminate].
    destruct (femto_mega_detectConnectedCameras env) as [[|camera_id ids]|];
      try discriminate.
    injection Hrecords as <- _. eauto. }
  destruct Hfm as [camera_id ->].
  assert (Hin : In (femto_mega_record camera_id) (hardware_records env)).
  { unfold hardware_records. rewrite Hrecords. apply in_or_app. right. now left. }
  pose proof (hardware_sorted_femto_first config _ Hshort (hardware_records_built env))
    as Hsorted.
  pose proof (std_sort_Permutation (selectBestCamera_before config) (hardware_records env))
    as Hperm.
  unfold selected_type, selectBestCamera_record.
  destruct (std_sort (selectBestCamera_before config) (hardware_records env))
    as [|h t] eqn:Hsort.
  - apply Permutation_nil in Hperm. rewrite Hperm in Hin. contradiction.
  - assert (Hh : hardware_record h).
    { pose proof (hardware_records_built env) as Hall. rewrite Forall_forall in Hall.
      apply Hall, list_elem_of_In.
      eapply Permutation_in; [exact Hperm | now left]. }
    assert (Hrank : (femto_first (femto_mega_record camera_id) <= femto_first h)%nat).
    { apply (Permutation_in _ (Permutation_sym Hperm)) in Hin.
      destruct Hin as [<-|Hin]; [lia|].
      apply StronglySorted_inv in Hsorted. destruct Hsorted as [_ Hall].
      rewrite Forall_forall in Hall. apply Hall. now apply list_elem_of_In. }
    destruct Hh as [id [-> | ->]]; [cbn in Hrank; lia|].
    cbn [find]. now rewrite femto_mega_record_valid.
Qed.

(** Whenever the structured-light probe reports at least one device and
    the probes report at most [S_threshold] devices together, the lists
    [std::sort] sorts by insertion, the selection over the attached
    hardware is ["femto_mega"], however the devices divide between the two
    kinds and under every configuration, the preferred type included. *)
Theorem femto_mega_selected_when_attached (env : Environment)
    (config : CameraFactoryConfig) :
  femto_mega_records env <> [] ->
  (length (hardware_records env) <= S_threshold)%nat ->
  selected_type config (hardware_records env) = "femto_mega"
  /\ forall w,
       simulation_mode_ (factory w) = false ->
       config_ (factory w) = config ->
       exists records,
         (detected <- performHardwareDetection env ;; selectBestCamera detected) w
           = Some ("femto_mega", logged_more w records).
Proof.
  intros Hfemto Hshort.
  pose proof (selected_type_femto_mega env config Hfemto Hshort) as Hsel.
  split; [exact Hsel|].
  intros w Hsim Hconfig. unfold bind.
  destruct (performHardwareDetection_run env w) as (r1 & -> & _).
  rewrite Hsim. cbn [detected_records].
  destruct (selectBestCamera_run (hardware_records env) (logged_more w r1)) as (r2 & ->).
  cbn [logged_more factory]. rewrite Hconfig, Hsel, logged_more_more. eauto.
Qed.

Lemma femto_mega_selected_when_attached_witness :
  selected_type (policy false false "d435" true false)
    (hardware_records (bench_env ["D1"; "D2"; "D3"] ["F1"])) = "femto_mega".
Proof.
  apply (femto_mega_selected_when_attached (bench_env ["D1"; "D2"; "D3"] ["F1"])).
  - vm_compute. discriminate.
  - cbv. lia.
Defined.

(** ** The comparator is not a strict order *)

Lemma F32_sub_diag_within_tolerance (c : float32) :
  F32.gtb (F32.abs (F32.sub c c)) (F32.literal 1 2) = false.
Proof.
  destruct c as [s|s| |s m e].
  - destruct s; vm_compute; reflexivity.
  - destruct s; vm_compute; reflexivity.
  - vm_compute; reflexivity.
  - unfold F32.gtb, F32.abs, F32.sub, SFsub. rewrite Z.sub_diag.
    vm_compute. reflexivity.
Qed.

(** [comp(a, a)] is true exactly when a preferred type other than ["auto"]
    is configured and [a] is of that type: there the comparator handed to
    [std::sort] is not irreflexive, and two records of the preferred type
    that agree on the earlier keys each compare before the other. *)
Theorem selectBestCamera_before_reflexive_iff (config : CameraFactoryConfig)
    (a : HardwareDetectionResult) :
  (selectBestCamera_before config a a = true <->
   preferred_camera_type config <> "auto"
   /\ camera_type a = preferred_camera_type config)
  /\ forall b,
       preferred_camera_type config <> "auto" ->
       camera_type a = preferred_camera_type config ->
       camera_type b = preferred_camera_type config ->
       is_medical_grade a = is_medical_grade b ->
       is_production_ready a = is_production_ready b ->
       detection_confidence a = detection_confidence b ->
       selectBestCamera_before config a b = true
       /\ selectBestCamera_before config b a = true.
Proof.
  assert (Hpair : forall x y,
    preferred_camera_type config <> "auto" ->
    camera_type x = preferred_camera_type config ->
    is_medical_grade x = is_medical_grade y ->
    is_production_ready x = is_production_ready y ->
    detection_confidence x = detection_confidence y ->
    selectBestCamera_before config x y = true).
  { intros x y Hauto Htype Hmed Hprod Hconf. unfold selectBestCamera_before.
    rewrite Hmed, Hprod, Hconf, !xorb_nilpotent, !andb_false_r.
    rewrite F32_sub_diag_within_tolerance, Htype, String.eqb_refl.
    apply String.eqb_neq in Hauto. now rewrite Hauto. }
  split.
  - split.
    + unfold selectBestCamera_before.
      rewrite !xorb_nilpotent, !andb_false_r, F32_sub_diag_within_tolerance.
      rewrite String.eqb_refl. cbn [negb].
      destruct (String.eqb_spec (preferred_camera_type config) "auto") as [Heq|Hne];
        cbn [negb andb]; [discriminate|].
      destruct (String.eqb_spec (camera_type a) (preferred_camera_type config));
        [tauto | discriminate].
    + intros [Hauto Htype]. now apply Hpair.
  - intros b Hauto Ha Hb Hmed Hprod Hconf. split; apply Hpair; auto.
Qed.

Lemma selectBestCamera_before_reflexive_iff_witness :
  selectBestCamera_before (policy false false "d435" true false)
    (d435_record "A") (d435_record "B") = true
  /\ selectBestCamera_before (policy false false "d435" true false)
       (d435_record "B") (d435_record "A") = true.
Proof.
  apply (proj2 (selectBestCamera_before_reflexive_iff
                  (policy false false "d435" true false) (d435_record "A")));
    try reflexivity.
  discriminate.
Defined.

(** ** Creation outside simulation mode *)

Lemma after_addErrorMessage_run (message : string) (w : World) :
  addErrorMessage message w =
    Some (tt, with_factory (after_addErrorMessage message) w).
Proof. reflexivity. Qed.

(** The message just added is the newest entry of the history. *)
Lemma after_addErrorMessage_newest (message : string) (f : CameraFactory) :
  exists older, error_messages_ (after_addErrorMessage message f) = older ++ [message].
Proof.
  unfold after_addErrorMessage. rewrite addErrorMessage_run.
  cbn [factory with_factory error_messages_ set_error_messages_].
  destruct (error_messages_ f) as [|oldest others].
  - exists []. reflexivity.
  - destruct (Nat.ltb 100 (length ((oldest :: others) ++ [message]))).
    + exists others. reflexivity.
    + exists (oldest :: others). reflexivity.
Qed.

(** [createCamera] for a type handled by the sub-factories or by nobody:
    a camera together with an untouched factory, or a null pointer together
    with one new entry in the error history. *)
Lemma createCamera_hardware_run (env : Environment) (camera_type : string) (w : World) :
  simulation_mode_ (factory w) = false ->
  camera_type <> "auto" ->
  custom_factories_ (factory w) !! camera_type = None ->
  exists result w',
    createCamera env camera_type w = Some (result, w')
    /\ match sub_factory_creation env camera_type with
       | None =>
           result = None
           /\ factory w'
              = after_addErrorMessage ("Unknown camera type: " +++ camera_type) (factory w)
       | Some (_, CreationThrows what) =>
           result = None
           /\ factory w'
              = after_addErrorMessage ("Exception creating camera: " +++ what) (factory w)
       | Some (_, CreationNull) =>
           result = None
           /\ factory w'
              = after_addErrorMessage ("Failed to create camera: " +++ camera_type) (factory w)
       | Some (source, CreationMade validate) =>
           if enable_hardware_validation (config_ (factory w)) then
             match validate with
             | Returns SUCCESS =>
                 result = Some (ExternalCamera source camera_type validate)
                 /\ factory w' = factory w
             | Returns _ =>
                 result = None
                 /\ factory w'
                    = after_addErrorMessage
                        ("Camera validation failed for " +++ camera_type) (factory w)
             | Throws what =>
                 result = None
                 /\ factory w'
                    = after_addErrorMessage
                        ("Exception creating camera: " +++ what) (factory w)
             end
           else
             result = Some (ExternalCamera source camera_type validate)
             /\ factory w' = factory w
       end.
Proof.
  intros Hsim Hauto Hcustom.
  unfold createCamera, createCamera_locked, bind at 1. rewrite log_run.
  unfold bind at 1, get_factory. cbn [logged_more factory].
  rewrite Hsim. apply String.eqb_neq in Hauto. rewrite Hauto, Hcustom.
  cbv zeta. fold (sub_factory_creation env camera_type).
  destruct (sub_factory_creation env camera_type) as [[source [what| |validate]]|].
  - unfold createCamera_catch, bind. rewrite log_run, after_addErrorMessage_run. unfold ret.
    eexists _, _. split; [reflexivity|]. split; reflexivity.
  - unfold bind. rewrite log_run, after_addErrorMessage_run. unfold ret.
    eexists _, _. split; [reflexivity|]. split; reflexivity.
  - destruct (enable_hardware_validation (config_ (factory w))).
    + destruct validate as [[]|what];
        try (unfold createCamera_catch, bind; rewrite log_run, ?after_addErrorMessage_run;
             unfold ret; eexists _, _; split; [reflexivity|]; split; reflexivity).
    + unfold bind. rewrite log_run. unfold ret.
      eexists _, _. split; [reflexivity|]. split; reflexivity.
  - unfold bind. rewrite log_run, after_addErrorMessage_run. unfold ret.
    eexists _, _. split; [reflexivity|]. split; reflexivity.
Qed.

Ltac createCamera_failed Hother :=
  split;
  [ intros camera; split;
    [ intros [=]
    | intros (? & ? & Heq & _ & Hv);
      first [ discriminate Heq
            | injection Heq as <- <-; destruct Hv as [Hv|Hv]; discriminate Hv ] ]
  | split;
    [ intros H; now contradiction H
    | intros H1 H2;
      first [ reflexivity | specialize (Hother H1 H2); discriminate Hother ] ] ].

Ltac createCamera_made Hother Hfactory :=
  split;
  [ intros camera; split;
    [ intros [= <-]; do 2 eexists; split; [reflexivity|]; split; [reflexivity|];
      first [left; reflexivity | right; reflexivity]
    | intros (? & ? & [= <- <-] & -> & _); reflexivity ]
  | split;
    [ intros _; exact Hfactory
    | intros H1 H2; specialize (Hother H1 H2); discriminate Hother ] ].

(** Outside simulation mode, for a type other than ["auto"] with no custom
    creator, [createCamera] returns a camera exactly when the sub-factory
    for that type made one and either hardware validation is switched off
    or its [validate()] returned [SUCCESS]; a successful call leaves the
    factory as it was. Only ["d435"] and ["femto_mega"] have a
    sub-factory. *)
Theorem createCamera_succeeds_iff (env : Environment) (camera_type : string)
    (w : World) :
  simulation_mode_ (factory w) = false ->
  camera_type <> "auto" ->
  custom_factories_ (factory w) !! camera_type = None ->
  exists result w',
    createCamera env camera_type w = Some (result, w')
    /\ (forall camera,
          result = Some camera <->
          exists source validate,
            sub_factory_creation env camera_type = Some (source, CreationMade validate)
            /\ camera = ExternalCamera source camera_type validate
            /\ (enable_hardware_validation (config_ (factory w)) = false
                \/ validate = Returns SUCCESS))
    /\ (result <> None -> factory w' = factory w)
    /\ (camera_type <> "d435" -> camera_type <> "femto_mega" -> result = None).
Proof.
  intros Hsim Hauto Hcustom.
  destruct (createCamera_hardware_run env camera_type w Hsim Hauto Hcustom)
    as (result & w' & Hrun & Hcase).
  exists result, w'. split; [exact Hrun|].
  assert (Hother : camera_type <> "d435" -> camera_type <> "femto_mega" ->
                   sub_factory_creation env camera_type = None).
  { intros H1 H2. unfold sub_factory_creation.
    apply String.eqb_neq in H1, H2. now rewrite H1, H2. }
  destruct (sub_factory_creation env camera_type) as [[source [what| |validate]]|].
  - destruct Hcase as [-> _]. createCamera_failed Hother.
  - destruct Hcase as [-> _]. createCamera_failed Hother.
  - destruct (enable_hardware_validation (config_ (factory w))).
    + destruct validate as [code|what].
      * destruct code; destruct Hcase as [-> Hfactory];
          first [createCamera_made Hother Hfactory | createCamera_failed Hother].
      * destruct Hcase as [-> _]. createCamera_failed Hother.
    + destruct Hcase as [-> Hfactory]. createCamera_made Hother Hfactory.
  - destruct Hcase as [-> _]. createCamera_failed Hother.
Qed.

Lemma createCamera_succeeds_iff_witness :
  let env := d435_validation_fails HARDWARE_FAULT (bench_env ["D435-0001"] []) in
  result_of (createCamera env "d435")
            (configured_world env (policy false false "auto" false false)) = Some None
  /\ result_of (createCamera env "lidar")
               (configured_world env (policy false false "auto" false false)) = Some None.
Proof.
  cbv zeta.
  set (env := d435_validation_fails HARDWARE_FAULT (bench_env ["D435-0001"] [])).
  set (w := configured_world env (policy false false "auto" false false)).
  assert (Hsim : simulation_mode_ (factory w) = false) by (vm_compute; reflexivity).
  assert (Hcustom : forall t, custom_factories_ (factory w) !! t = None)
    by (intros t; vm_compute; reflexivity).
  split.
  - destruct (createCamera_succeeds_iff env "d435" w Hsim ltac:(discriminate) (Hcustom _))
      as (result & w' & Hrun & Hiff & _).
    unfold result_of. rewrite Hrun. f_equal.
    destruct result as [camera|]; [|reflexivity].
    destruct (proj1 (Hiff camera) eq_refl) as (source & validate & Hmade & _ & [Hv|Hv]).
    + vm_compute in Hv. discriminate Hv.
    + vm_compute in Hmade. injection Hmade as _ <-. discriminate Hv.
  - destruct (createCamera_succeeds_iff env "lidar" w Hsim ltac:(discriminate) (Hcustom _))
      as (result & w' & Hrun & _ & _ & Hother).
    unfold result_of. rewrite Hrun. f_equal. apply Hother; discriminate.
Defined.

(** Outside simulation mode, for a type other than ["auto"] with no custom
    creator, every null pointer from [createCamera] is explained: the
    newest entry of the error history names the unknown type, the failed
    creation, the failed validation or the exception, and nothing else in
    the factory changes. *)
Theorem createCamera_failure_is_recorded (env : Environment) (camera_type : string)
    (w w' : World) :
  simulation_mode_ (factory w) = false ->
  camera_type <> "auto" ->
  custom_factories_ (factory w) !! camera_type = None ->
  createCamera env camera_type w = Some (None, w') ->
  exists message older,
    factory w' = after_addErrorMessage message (factory w)
    /\ error_messages_ (factory w') = older ++ [message]
    /\ (message = "Unknown camera type: " +++ camera_type
        \/ message = "Failed to create camera: " +++ camera_type
        \/ message = "Camera validation failed for " +++ camera_type
        \/ exists what, message = "Exception creating camera: " +++ what).
Proof.
  intros Hsim Hauto Hcustom Hnull.
  destruct (createCamera_hardware_run env camera_type w Hsim Hauto Hcustom)
    as (result & w1 & Hrun & Hcase).
  rewrite Hnull in Hrun. injection Hrun as <- <-.
  assert (Hgen : forall message,
            factory w' = after_addErrorMessage message (factory w) ->
            exists older, error_messages_ (factory w') = older ++ [message]).
  { intros message ->. apply after_addErrorMessage_newest. }
  destruct (sub_factory_creation env camera_type) as [[source [what| |validate]]|].
  - destruct Hcase as [_ Hf]. destruct (Hgen _ Hf) as [older Hnew].
    exists ("Exception creating camera: " +++ what), older. eauto 8.
  - destruct Hcase as [_ Hf]. destruct (Hgen _ Hf) as [older Hnew].
    exists ("Failed to create camera: " +++ camera_type), older. eauto 8.
  - destruct (enable_hardware_validation (config_ (factory w)));
      [|destruct Hcase as [Hcase _]; discriminate Hcase].
    destruct validate as [code|what].
    + destruct code; destruct Hcase as [Hres Hf]; try discriminate Hres;
        destruct (Hgen _ Hf) as [older Hnew];
        exists ("Camera validation failed for " +++ camera_type), older; eauto 8.
    + destruct Hcase as [_ Hf]. destruct (Hgen _ Hf) as [older Hnew].
      exists ("Exception creating camera: " +++ what), older. eauto 8.
  - destruct Hcase as [_ Hf]. destruct (Hgen _ Hf) as [older Hnew].
    exists ("Unknown camera type: " +++ camera_type), older. eauto 8.
Qed.

Lemma createCamera_failure_is_recorded_witness :
  let env := femto_mega_unavailable (bench_env [] ["FM-0001"]) in
  let w := configured_world env (policy true true "auto" false false) in
  exists w' message older,
    createCamera env "femto_mega" w = Some (None, w')
    /\ error_messages_ (factory w') = older ++ [message].
Proof.
  cbv zeta.
  set (env := femto_mega_unavailable (bench_env [] ["FM-0001"])).
  set (w := configured_world env (policy true true "auto" false false)).
  destruct (createCamera env "femto_mega" w) as [[[camera|] w']|] eqn:Hrun;
    try (vm_compute in Hrun; discriminate Hrun).
  destruct (createCamera_failure_is_recorded env "femto_mega" w w') as
    (message & older & _ & Hnew & _); try (vm_compute; reflexivity);
    [discriminate | exact Hrun |].
  exists w', message, older. split; [reflexivity | exact Hnew].
Defined.

Lemma createCamera_custom_run (env : Environment) (camera_type : string)
    (creator : Creation) (w : World) :
  simulation_mode_ (factory w) = false ->
  camera_type <> "auto" ->
  custom_factories_ (factory w) !! camera_type = Some creator ->
  exists records,
    createCamera env camera_type w =
      match creator with
      | CreationMade validate =>
          Some (Some (ExternalCamera FromCustomFactory camera_type validate),
                logged_more w records)
      | CreationNull => Some (None, logged_more w records)
      | CreationThrows what =>
          Some (None,
                with_factory (after_addErrorMessage ("Custom factory failed: " +++ what))
                             (logged_more w records))
      end
    /\ forall env', createCamera env' camera_type w = createCamera env camera_type w.
Proof.
  intros Hsim Hauto Hcustom. apply String.eqb_neq in Hauto.
  assert (Hbody : forall e, createCamera e camera_type w =
    (log INFO "CameraFactory" ("Using custom factory for " +++ camera_type) ;;;
     match creator with
     | CreationMade validate =>
         ret (Some (ExternalCamera FromCustomFactory camera_type validate))
     | CreationNull => ret None
     | CreationThrows what =>
         log ERROR "CameraFactory" ("Custom factory failed: " +++ what) ;;;
         addErrorMessage ("Custom factory failed: " +++ what) ;;;
         ret None
     end)
      (logged_more w
         [ {| log_level := INFO; log_component := "CameraFactory";
              log_message := "Creating camera of type: " +++ camera_type |} ])).
  { intros e. unfold createCamera, createCamera_locked, bind at 1. rewrite log_run.
    unfold bind at 1, get_factory. cbn [logged_more factory].
    now rewrite Hsim, Hauto, Hcustom. }
  rewrite Hbody. unfold bind at 1. rewrite log_run, logged_more_more.
  destruct creator as [what| |validate].
  - unfold bind. rewrite log_run, after_addErrorMessage_run, logged_more_more.
    eexists. split; [reflexivity|]. intros env'. now rewrite Hbody.
  - eexists. split; [reflexivity|]. intros env'. now rewrite Hbody.
  - eexists. split; [reflexivity|]. intros env'. now rewrite Hbody.
Qed.

(** A creator registered under a type takes precedence over the
    sub-factories and is trusted as it is: outside simulation mode
    [createCamera] hands back whatever the creator returns, a camera whose
    [validate()] is never called or a null pointer, whether or not hardware
    validation is enabled; only an exception of the creator reaches the
    error history. The sub-factories are not asked. *)
Theorem createCamera_custom_creator (env : Environment) (camera_type : string)
    (creator : Creation) (w : World) :
  simulation_mode_ (factory w) = false ->
  camera_type <> "auto" ->
  custom_factories_ (factory w) !! camera_type = Some creator ->
  exists w',
    createCamera env camera_type w
      = Some (match creator with
              | CreationMade validate =>
                  Some (ExternalCamera FromCustomFactory camera_type validate)
              | _ => None
              end, w')
    /\ factory w'
       = match creator with
         | CreationThrows what =>
             after_addErrorMessage ("Custom factory failed: " +++ what) (factory w)
         | _ => factory w
         end
    /\ forall env', createCamera env' camera_type w = createCamera env camera_type w.
Proof.
  intros Hsim Hauto Hcustom.
  destruct (createCamera_custom_run env camera_type creator w Hsim Hauto Hcustom)
    as (records & Hrun & Hsame).
  rewrite Hrun.
  destruct creator as [what| |validate]; eexists; (split; [reflexivity|]);
    (split; [reflexivity|]); intros env'; now rewrite Hsame, Hrun.
Qed.

Lemma createCamera_custom_creator_witness :
  let env := bench_env ["D435-0001"] [] in
  let w := with_custom_factory "d435" (CreationMade (Returns HARDWARE_FAULT))
             (configured_world env (policy false false "auto" false false)) in
  enable_hardware_validation (config_ (factory w)) = true
  /\ result_of (createCamera env "d435") w
     = Some (Some (ExternalCamera FromCustomFactory "d435" (Returns HARDWARE_FAULT))).
Proof.
  cbv zeta.
  set (env := bench_env ["D435-0001"] []).
  set (w := with_custom_factory "d435" (CreationMade (Returns HARDWARE_FAULT))
              (configured_world env (policy false false "auto" false false))).
  split; [vm_compute; reflexivity|].
  assert (Hsim : simulation_mode_ (factory w) = false) by (vm_compute; reflexivity).
  assert (Hauto : "d435" <> "auto") by discriminate.
  assert (Hcustom : custom_factories_ (factory w) !! "d435"
                    = Some (CreationMade (Returns HARDWARE_FAULT)))
    by (unfold w, with_custom_factory, with_factory; cbn [factory custom_factories_];
        apply lookup_insert_eq).
  destruct (createCamera_custom_creator env "d435" _ w Hsim Hauto Hcustom)
    as (w' & Hrun & _).
  unfold result_of. now rewrite Hrun.
Defined.

(** ** What every call keeps *)

Lemma preserves_ret {A} (P : CameraFactory -> Prop) (a : A) : preserves P (ret a).
Proof. intros w a' w' HP H. injection H as _ <-. exact HP. Qed.

Lemma preserves_relock {A} (P : CameraFactory -> Prop) : preserves P (@relock A).
Proof. intros w a w' _ H. discriminate H. Qed.

Lemma preserves_bind {A B} (P : CameraFactory -> Prop) (m : M A) (k : A -> M B) :
  preserves P m -> (forall a, preserves P (k a)) -> preserves P (bind m k).
Proof.
  intros Hm Hk w b w' HP H. unfold bind in H.
  destruct (m w) as [[a w1]|] eqn:Hrun; [|discriminate H].
  eapply Hk; [|exact H]. eapply Hm; [exact HP | exact Hrun].
Qed.

Lemma preserves_log (P : CameraFactory -> Prop) (level : LogLevel)
    (component message : string) :
  preserves P (log level component message).
Proof. intros w a w' HP H. injection H as _ <-. exact HP. Qed.

Lemma preserves_get_factory (P : CameraFactory -> Prop) : preserves P get_factory.
Proof. intros w a w' HP H. injection H as _ <-. exact HP. Qed.

Lemma preserves_modify_factory (P : CameraFactory -> Prop)
    (f : CameraFactory -> CameraFactory) :
  (forall c, P c -> P (f c)) -> preserves P (modify_factory f).
Proof. intros Hf w a w' HP H. injection H as _ <-. now apply Hf. Qed.

Lemma preserves_for_each {A} (P : CameraFactory -> Prop) (xs : list A)
    (body : A -> M unit) :
  (forall x, preserves P (body x)) -> preserves P (for_each xs body).
Proof.
  intros Hbody. induction xs as [|x rest IH]; simpl.
  - apply preserves_ret.
  - apply preserves_bind; [apply Hbody | intros _; exact IH].
Qed.

Create HintDb preserves discriminated.
#[local] Hint Resolve preserves_ret preserves_relock preserves_log
  preserves_get_factory : preserves.

Ltac preserves_step :=
  match goal with
  | |- preserves _ (bind _ _) => apply preserves_bind; [|intros]
  | |- preserves _ (modify_factory _) =>
      apply preserves_modify_factory; intros; solve [auto]
  | |- preserves _ (for_each _ _) => apply preserves_for_each; intros
  | |- preserves _ (match (if ?b then _ else _) with _ => _ end) => destruct b
  | |- preserves _ (if ?b then _ else _) => destruct b
  | |- preserves _ (match ?x with _ => _ end) => destruct x
  | |- preserves _ _ => solve [auto with preserves]
  end.

Ltac preserves_all := cbv zeta; repeat preserves_step.

(** Calls that write nothing but the error history and the detection cache
    keep every property those writes keep. *)
Section PreservedByWrites.
Context (P : CameraFactory -> Prop).
Hypothesis P_errors : forall l f, P f -> P (set_error_messages_ l f).
Hypothesis P_cache : forall c t v f, P f -> P (set_detection_cache c t v f).

Lemma preserves_addErrorMessage (message : string) :
  preserves P (addErrorMessage message).
Proof. unfold addErrorMessage. preserves_all. Qed.

Lemma preserves_performHardwareDetection (env : Environment) :
  preserves P (performHardwareDetection env).
Proof.
  unfold performHardwareDetection, detectD435Hardware, detectFemtoMegaHardware.
  preserves_all.
Qed.

Lemma preserves_selectBestCamera (detected_hardware : list HardwareDetectionResult) :
  preserves P (selectBestCamera detected_hardware).
Proof. unfold selectBestCamera. preserves_all. Qed.

Lemma preserves_createSimulationCamera (env : Environment) (camera_type : string) :
  preserves P (createSimulationCamera env camera_type).
Proof.
  pose proof preserves_addErrorMessage.
  unfold createSimulationCamera. preserves_all.
Qed.

Lemma preserves_createBestCamera_calling
    (createCamera : string -> M (unique_ptr ICamera)) (env : Environment) :
  (forall t, preserves P (createCamera t)) ->
  preserves P (createBestCamera_calling createCamera env).
Proof.
  intros H.
  pose proof preserves_addErrorMessage. pose proof preserves_performHardwareDetection.
  pose proof preserves_selectBestCamera. pose proof preserves_createSimulationCamera.
  unfold createBestCamera_calling. preserves_all.
Qed.

Lemma preserves_createCamera_locked (createBestCamera : M (unique_ptr ICamera))
    (env : Environment) (camera_type : string) :
  preserves P createBestCamera ->
  preserves P (createCamera_locked createBestCamera env camera_type).
Proof.
  intros H.
  pose proof preserves_addErrorMessage. pose proof preserves_createSimulationCamera.
  unfold createCamera_locked, createCamera_catch. preserves_all.
Qed.

Lemma preserves_createCamera (env : Environment) (camera_type : string) :
  preserves P (createCamera env camera_type).
Proof.
  apply preserves_createCamera_locked, preserves_createBestCamera_calling.
  intros _. apply preserves_relock.
Qed.

Lemma preserves_createBestCamera (env : Environment) :
  preserves P (createBestCamera env).
Proof. apply preserves_createBestCamera_calling, preserves_createCamera. Qed.

Lemma preserves_queries (env : Environment) :
  preserves P getConfiguration
  /\ preserves P (getAvailableCameraTypes env)
  /\ preserves P (detectConnectedCameras env)
  /\ preserves P (detectAllHardware env).
Proof.
  pose proof preserves_addErrorMessage. pose proof preserves_performHardwareDetection.
  unfold getConfiguration, getAvailableCameraTypes, detectConnectedCameras,
    detectAllHardware.
  repeat split; preserves_all.
Qed.

End PreservedByWrites.

(** ** Automatic creation and the factory lock *)

Lemma hardware_record_type (r : HardwareDetectionResult) :
  hardware_record r ->
  (camera_type r = "d435" /\ is_medical_grade r = false)
  \/ (camera_type r = "femto_mega" /\ is_medical_grade r = true).
Proof. intros [camera_id [-> | ->]]; [left | right]; split; reflexivity. Qed.

(** The selection names the type of a detected record, or nothing. *)
Lemma selected_type_cases (config : CameraFactoryConfig)
    (detected_hardware : list HardwareDetectionResult) :
  selected_type config detected_hardware = ""
  \/ exists r, In r detected_hardware
               /\ validateDetectionResult config r = true
               /\ selected_type config detected_hardware = camera_type r.
Proof.
  unfold selected_type.
  destruct (selectBestCamera_record config detected_hardware) as [r|] eqn:Hsel;
    [|now left].
  right. exists r. apply selectBestCamera_record_spec in Hsel. tauto.
Qed.

Lemma selected_hardware_type (config : CameraFactoryConfig) (env : Environment) :
  selected_type config (hardware_records env) = ""
  \/ selected_type config (hardware_records env) = "d435"
     /\ enable_medical_compliance_check config = false
  \/ selected_type config (hardware_records env) = "femto_mega".
Proof.
  destruct (selected_type_cases config (hardware_records env))
    as [Hnone|(r & Hin & Hvalid & ->)]; [now left|].
  right.
  pose proof (hardware_records_built env) as Hbuilt. rewrite Forall_forall in Hbuilt.
  apply list_elem_of_In in Hin.
  destruct (hardware_record_type r (Hbuilt r Hin)) as [[-> Hmed]|[-> _]]; [left|now right].
  split; [reflexivity|].
  apply validateDetectionResult_true in Hvalid. destruct Hvalid as [_ Hcheck].
  destruct (enable_medical_compliance_check config); [|reflexivity].
  rewrite (Hcheck eq_refl) in Hmed. discriminate Hmed.
Qed.

Lemma returns_addErrorMessage (message : string) :
  always_returns (addErrorMessage message).
Proof. intros w. rewrite addErrorMessage_run. eauto. Qed.

Lemma returns_createSimulationCamera (env : Environment) (camera_type : string) :
  always_returns (createSimulationCamera env camera_type).
Proof.
  pose proof returns_addErrorMessage.
  unfold createSimulationCamera. returns.
Qed.

(** Asked for a definite type, [createCamera] returns. *)
Lemma createCamera_returns (env : Environment) (camera_type : string) :
  camera_type <> "auto" -> always_returns (createCamera env camera_type).
Proof.
  intros Hauto. apply String.eqb_neq in Hauto.
  pose proof returns_addErrorMessage. pose proof returns_createSimulationCamera.
  unfold createCamera, createCamera_locked, createCamera_catch. rewrite Hauto.
  returns.
Qed.





(** ** Worlds a program can reach *)

Lemma preserves_configure_consistent (config : CameraFactoryConfig) :
  preserves factory_consistent (configure config).
Proof.
  intros w a w' (Hinit & _ & Hcustom) Hrun.
  destruct (configure_run config w) as (records & Hconf & _).
  rewrite Hconf in Hrun. injection Hrun as _ <-.
  repeat split; assumption.
Qed.

Lemma preserves_perform_consistent (env : Environment) (op : Operation) :
  preserves factory_consistent (perform env op).
Proof.
  assert (Herrors : forall l f, factory_consistent f ->
                                factory_consistent (set_error_messages_ l f))
    by (intros l f H; exact H).
  assert (Hcache : forall c t v f, factory_consistent f ->
                                   factory_consistent (set_detection_cache c t v f))
    by (intros c t v f H; exact H).
  pose proof (preserves_configure_consistent) as Hconfigure.
  pose proof (preserves_createCamera factory_consistent Herrors) as HcreateCamera.
  pose proof (preserves_createBestCamera factory_consistent Herrors) as HcreateBest.
  destruct (preserves_queries factory_consistent Herrors Hcache env)
    as (Hget & Htypes & Hconnected & Hall).
  destruct op; unfold perform, discard, createDefaultCamera, createDevelopmentCamera,
    createProductionCamera; preserves_all.
Qed.

Lemma preserves_run_consistent (script : list (Environment * Operation)) :
  preserves factory_consistent (run script).
Proof.
  induction script as [|[env op] rest IH]; simpl.
  - apply preserves_ret.
  - apply preserves_bind; [apply preserves_perform_consistent | intros _; exact IH].
Qed.

(** Construction leaves a consistent factory. *)
Lemma getInstance_consistent (env : Environment) (logged : list LogRecord) (w0 : World) :
  getInstance env logged = Some (tt, w0) -> factory_consistent (factory w0).
Proof.
  unfold getInstance. intros Hrun.
  set (P := fun f : CameraFactory =>
              simulation_mode_ f = enable_simulation_mode (config_ f)
              /\ custom_factories_ f = ∅).
  assert (Herrors : forall l f, P f -> P (set_error_messages_ l f))
    by (intros l f H; exact H).
  assert (Hcache : forall c t v f, P f -> P (set_detection_cache c t v f))
    by (intros c t v f H; exact H).
  assert (Hmedical : forall b f, P f -> P (set_medical_compliance_verified_ b f))
    by (intros b f H; exact H).
  assert (Hinit : forall b f, P f -> P (set_is_initialized_ b f))
    by (intros b f H; exact H).
  assert (HP : P (factory w0)).
  { assert (Hpres : preserves P (initialize env)).
    { pose proof (preserves_addErrorMessage P Herrors).
      pose proof (preserves_performHardwareDetection P).
      unfold initialize, clearErrorMessages. preserves_all. }
    eapply Hpres; [|exact Hrun]. split; reflexivity. }
  destruct HP as [Hsim Hcustom]. split; [|split; assumption].
  clear -Hrun. unfold initialize, bind at 1, get_factory in Hrun.
  cbn [factory CameraFactory_members is_initialized_] in Hrun.
  unfold bind at 1 in Hrun. rewrite log_run in Hrun.
  unfold bind at 1 in Hrun. cbn [clearErrorMessages modify_factory] in Hrun.
  unfold bind at 1 in Hrun.
  match type of Hrun with
  | match ?m ?w with _ => _ end = _ => destruct (m w) as [[[] w1]|]; [|discriminate Hrun]
  end.
  unfold bind at 1 in Hrun. cbn [modify_factory] in Hrun. rewrite log_run in Hrun.
  injection Hrun as <-. reflexivity.
Qed.

(** Hence the worlds of [reachable], construction followed by calls of
    [Operation], are consistent. *)
Lemma reachable_consistent (w : World) : reachable w -> factory_consistent (factory w).
Proof.
  intros (env0 & logged & w0 & script & Hnew & Hrun).
  eapply preserves_run_consistent; [|exact Hrun].
  eapply getInstance_consistent. exact Hnew.
Qed.

(** Constructing the singleton leaves the factory consistent: it is
    initialized, [simulation_mode_] equals [config_.enable_simulation_mode],
    and no custom creator is registered. Each call of [Operation]
    ([configure], [getConfiguration], [createCamera], [createBestCamera],
    [getAvailableCameraTypes], [detectConnectedCameras],
    [detectAllHardware], [createDefaultCamera], [createDevelopmentCamera],
    [createProductionCamera]) keeps it so, in any surroundings, and so does
    every sequence of them. The statement does not reach the calls whose
    bodies are not in this translation unit: [enableSimulationMode],
    [registerCustomCamera] and the free [createSimulationCamera], which
    goes through the first. *)
Theorem factory_consistency_is_kept :
  (forall env logged w0,
     getInstance env logged = Some (tt, w0) -> factory_consistent (factory w0))
  /\ (forall env op, preserves factory_consistent (perform env op))
  /\ (forall script, preserves factory_consistent (run script)).
Proof.
  split; [exact getInstance_consistent|].
  split; [exact preserves_perform_consistent | exact preserves_run_consistent].
Qed.

(** ** What automatic creation can hand out *)

Lemma sub_factory_creation_source (env : Environment) (camera_type : string)
    (source : CameraSource) (creation : Creation) :
  sub_factory_creation env camera_type = Some (source, creation) ->
  (camera_type = "d435" /\ source = FromD435Factory)
  \/ (camera_type = "femto_mega" /\ source = FromFemtoMegaFactory).
Proof.
  unfold sub_factory_creation.
  destruct (String.eqb_spec camera_type "d435") as [->|_]; [intros [= <- _]; now left|].
  destruct (String.eqb_spec camera_type "femto_mega") as [->|_];
    [intros [= <- _]; now right | discriminate].
Qed.

(** A camera [createCamera] returns outside simulation mode, for a type
    without custom creator, comes from the sub-factory of that type. *)
Lemma createCamera_hardware_camera (env : Environment) (camera_type : string)
    (w : World) (camera : ICamera) :
  simulation_mode_ (factory w) = false ->
  camera_type <> "auto" ->
  custom_factories_ (factory w) !! camera_type = None ->
  result_of (createCamera env camera_type) w = Some (Some camera) ->
  exists source validate,
    camera = ExternalCamera source camera_type validate
    /\ sub_factory_creation env camera_type = Some (source, CreationMade validate).
Proof.
  intros Hsim Hauto Hcustom. unfold result_of.
  destruct (createCamera_hardware_run env camera_type w Hsim Hauto Hcustom)
    as (result & w' & -> & Hcase).
  intros [= ->].
  destruct (sub_factory_creation env camera_type) as [[source [what| |validate]]|];
    try (destruct Hcase as [Hres _]; discriminate Hres).
  destruct (enable_hardware_validation (config_ (factory w))).
  - destruct validate as [[]|what]; destruct Hcase as [Hres _]; try discriminate Hres;
      injection Hres as ->; eauto.
  - destruct Hcase as [Hres _]. injection Hres as ->. eauto.
Qed.

(** On a consistent factory (initialized, [simulation_mode_] equal to
    [config_.enable_simulation_mode], no custom creator registered) what
    [createBestCamera] returns is decided by the mode alone: in simulation
    mode a simulation camera for ["d435_sim"] or ["femto_mega_sim"], outside
    it a camera made by the sub-factory of ["d435"] or ["femto_mega"]. The
    simulation camera ["d435"] of the fallback branch is never the
    result. *)
Theorem createBestCamera_by_mode (env : Environment) (w : World) (camera : ICamera) :
  factory_consistent (factory w) ->
  result_of (createBestCamera env) w = Some (Some camera) ->
  (simulation_mode_ (factory w) = true
   /\ (camera = SimulationCamera "d435_sim" \/ camera = SimulationCamera "femto_mega_sim"))
  \/ (simulation_mode_ (factory w) = false
      /\ exists validate,
           camera = ExternalCamera FromD435Factory "d435" validate
           \/ camera = ExternalCamera FromFemtoMegaFactory "femto_mega" validate).
Proof.
  intros (_ & Hcoupled & Hcustom). unfold result_of, createBestCamera.
  destruct (createBestCamera_calling_run (createCamera env) env w) as [records ->].
  cbv zeta.
  destruct (simulation_mode_ (factory w)) eqn:Hsim.
  - cbn [detected_records].
    destruct (selected_type_simulation (config_ (factory w))) as [Hsel|Hsel];
      rewrite Hsel; cbn [String.eqb Ascii.eqb Bool.eqb];
      match goal with
      | |- context [createCamera env ?t ?w1] =>
          pose proof (createCamera_simulation_outcome env t w1 Hsim) as Hout;
          destruct (SimulationCamera_ctor_throws env t);
          [ unfold result_of in Hout;
            destruct (createCamera env t w1) as [[result w']|]; [|discriminate];
            injection Hout as ->; discriminate
          | destruct Hout as [records' ->]; intros [= <-]; left; split; auto ]
      end.
  - cbn [detected_records]. rewrite <- Hcoupled, andb_false_r.
    intros Hrun. right. split; [reflexivity|].
    destruct (hardware_records env) as [|r l] eqn:Hrecords.
    + destruct (error_exit_run "No cameras detected and fallback disabled"
                  (logged_more w records)) as [w' Hexit].
      rewrite Hexit in Hrun. discriminate Hrun.
    + rewrite <- Hrecords in Hrun.
      destruct (String.eqb_spec (selected_type (config_ (factory w)) (hardware_records env)) "")
        as [Hempty|Hsome].
      * destruct (error_exit_run "No suitable camera found" (logged_more w records))
          as [w' Hexit].
        rewrite Hexit in Hrun. discriminate Hrun.
      * assert (Hresult : result_of (createCamera env
                            (selected_type (config_ (factory w)) (hardware_records env)))
                            (logged_more w records) = Some (Some camera)).
        { unfold result_of.
          destruct (createCamera env _ (logged_more w records)) as [[result w']|];
            [|discriminate Hrun].
          now injection Hrun as ->. }
        assert (Hauto : selected_type (config_ (factory w)) (hardware_records env) <> "auto").
        { destruct (selected_hardware_type (config_ (factory w)) env)
            as [H|[[H _]|H]]; rewrite H; discriminate. }
        apply createCamera_hardware_camera in Hresult;
          [ | exact Hsim | exact Hauto
            | cbn [logged_more factory]; rewrite Hcustom; apply lookup_empty ].
        destruct Hresult as (source & validate & -> & Hsub).
        exists validate.
        destruct (sub_factory_creation_source _ _ _ _ Hsub) as [[-> ->]|[-> ->]]; auto.
Qed.

Lemma createBestCamera_by_mode_witness :
  let env := bench_env [] [] in
  let w := configured_world env (policy true true "d435" true true) in
  enable_fallback_mode (config_ (factory w)) = true
  /\ result_of (createBestCamera env) w = Some (Some (SimulationCamera "femto_mega_sim"))
  /\ simulation_mode_ (factory w) = true.
Proof.
  cbv zeta.
  set (env := bench_env [] []).
  set (w := configured_world env (policy true true "d435" true true)).
  assert (Hrun : result_of (createBestCamera env) w
                 = Some (Some (SimulationCamera "femto_mega_sim")))
    by (vm_compute; reflexivity).
  split; [vm_compute; reflexivity|]. split; [exact Hrun|].
  destruct (createBestCamera_by_mode env w _ ltac:(vm_compute; repeat split) Hrun)
    as [[Hsim _]|[_ [validate [H|H]]]]; [exact Hsim | discriminate H | discriminate H].
Defined.

Lemma d435_records_not_medical (env : Environment) (r : HardwareDetectionResult) :
  In r (d435_records env) -> is_medical_grade r = false.
Proof.
  unfold d435_records.
  destruct (THERAPY_DEVICE_HAS_REALSENSE env); [|intros []].
  destruct (d435_detectConnectedCameras env) as [ids|]; [|intros []].
  intros Hin. apply in_map_iff in Hin. destruct Hin as (camera_id & <- & _). reflexivity.
Qed.


(** Outside simulation mode and with the simulation switch of the
    configuration off, automatic creation with nothing or ["femto_mega"]
    selected hands out a structured-light camera or nothing. *)
Lemma createBestCamera_femto_mega_or_null (env : Environment) (w : World) :
  simulation_mode_ (factory w) = false ->
  enable_simulation_mode (config_ (factory w)) = false ->
  selected_type (config_ (factory w)) (hardware_records env) = ""
  \/ selected_type (config_ (factory w)) (hardware_records env) = "femto_mega" ->
  exists result w',
    createBestCamera env w = Some (result, w')
    /\ (forall camera, result = Some camera ->
          exists source validate,
            camera = ExternalCamera source "femto_mega" validate
            /\ source <> FromD435Factory)
    /\ (selected_type (config_ (factory w)) (hardware_records env) = "" ->
        result = None
        /\ exists message older,
             error_messages_ (factory w') = older ++ [message]
             /\ (message = "No cameras detected and fallback disabled"
                 \/ message = "No suitable camera found")).
Proof.
  intros Hsim Hswitch Hsel. unfold createBestCamera.
  destruct (createBestCamera_calling_run (createCamera env) env w) as [records ->].
  cbv zeta. rewrite Hsim, Hswitch, andb_false_r. cbn [detected_records].
  assert (Hexit : forall message,
    exists w',
      (addErrorMessage message ;;; ret (@None ICamera)) (logged_more w records)
        = Some (None, w')
      /\ exists older, error_messages_ (factory w') = older ++ [message]).
  { intros message. unfold bind. rewrite after_addErrorMessage_run. unfold ret.
    eexists. split; [reflexivity|]. apply after_addErrorMessage_newest. }
  destruct (hardware_records env) as [|r l] eqn:Hrecords.
  - destruct (Hexit "No cameras detected and fallback disabled") as (w' & -> & older & Hnew).
    exists None, w'. split; [reflexivity|]. split; [discriminate|].
    intros _. split; [reflexivity|]. eauto 6.
  - rewrite <- Hrecords in *. destruct Hsel as [Hsel|Hsel]; rewrite Hsel.
    + cbn [String.eqb].
      destruct (Hexit "No suitable camera found") as (w' & -> & older & Hnew).
      exists None, w'. split; [reflexivity|]. split; [discriminate|].
      intros _. split; [reflexivity|]. eauto 6.
    + cbn [String.eqb Ascii.eqb Bool.eqb].
      destruct (createCamera_returns env "femto_mega" ltac:(discriminate)
                  (logged_more w records)) as (result & w' & Hrun).
      exists result, w'. split; [exact Hrun|]. split; [|discriminate].
      intros camera ->.
      destruct (custom_factories_ (factory w) !! "femto_mega") as [creator|] eqn:Hcustom.
      * destruct (createCamera_custom_run env "femto_mega" creator (logged_more w records)
                    Hsim ltac:(discriminate) Hcustom) as (records' & Hcustom_run & _).
        rewrite Hcustom_run in Hrun.
        destruct creator; try discriminate Hrun.
        injection Hrun as <- _. do 2 eexists. split; [reflexivity | discriminate].
      * assert (Hresult : result_of (createCamera env "femto_mega") (logged_more w records)
                          = Some (Some camera))
          by (unfold result_of; now rewrite Hrun).
        apply createCamera_hardware_camera in Hresult;
          [ | exact Hsim | discriminate | exact Hcustom ].
        destruct Hresult as (source & validate & -> & Hsub).
        destruct (sub_factory_creation_source _ _ _ _ Hsub) as [[Heq _]|[_ ->]];
          [discriminate Heq|].
        do 2 eexists. split; [reflexivity | discriminate].
Qed.



Lemma configure_then (config : CameraFactoryConfig) (w : World) :
  exists w1,
    configure config w = Some (tt, w1)
    /\ config_ (factory w1) = config
    /\ simulation_mode_ (factory w1) = enable_simulation_mode config
    /\ detection_cache_valid_ (factory w1) = false
    /\ custom_factories_ (factory w1) = custom_factories_ (factory w)
    /\ error_messages_ (factory w1) = error_messages_ (factory w).
Proof.
  destruct (configure_run config w) as (records & -> & _).
  eexists. split; [reflexivity|]. repeat split.
Qed.

Lemma createBestCamera_keeps_configuration (env : Environment)
    (config : CameraFactoryConfig) (mode : bool) :
  preserves (fun f => config_ f = config /\ simulation_mode_ f = mode)
            (createBestCamera env).
Proof. apply preserves_createBestCamera. intros l f H. exact H. Qed.


(** [createDevelopmentCamera] prefers ["d435"] in name only: whenever a
    structured-light device is among the at most [S_threshold] devices
    attached (the lists [std::sort] sorts by insertion) and the simulation
    switch is off, it returns a structured-light camera or a null pointer,
    never a stereo-IR camera. It leaves the singleton reconfigured with
    compliance check and production preference off and preferred type
    ["d435"]. *)
Theorem createDevelopmentCamera_outcome (env : Environment) (w : World) :
  enable_simulation_mode (config_ (factory w)) = false ->
  femto_mega_records env <> [] ->
  (length (hardware_records env) <= S_threshold)%nat ->
  exists result w',
    createDevelopmentCamera env w = Some (result, w')
    /\ (forall camera, result = Some camera ->
          exists source validate,
            camera = ExternalCamera source "femto_mega" validate
            /\ source <> FromD435Factory)
    /\ prefer_production_hardware (config_ (factory w')) = false
    /\ enable_medical_compliance_check (config_ (factory w')) = false
    /\ preferred_camera_type (config_ (factory w')) = "d435".
Proof.
  intros Hoff Hfemto Hshort.
  unfold createDevelopmentCamera, bind at 1, getConfiguration, bind at 1, get_factory, ret.
  unfold bind at 1.
  match goal with
  | |- context [configure ?c w] =>
      destruct (configure_then c w) as (w1 & -> & Hconfig & Hmode & _)
  end.
  cbn [enable_simulation_mode] in Hmode. rewrite Hoff in Hmode.
  assert (Hswitch : enable_simulation_mode (config_ (factory w1)) = false)
    by (rewrite Hconfig; exact Hoff).
  destruct (createBestCamera_femto_mega_or_null env w1 Hmode Hswitch
              (or_intror (selected_type_femto_mega env _ Hfemto Hshort)))
    as (result & w' & Hrun & Hcamera & _).
  exists result, w'. split; [exact Hrun|]. split; [exact Hcamera|].
  destruct (createBestCamera_keeps_configuration env _ _ w1 result w'
              (conj Hconfig Hmode) Hrun) as [-> _].
  repeat split.
Qed.

Lemma createDevelopmentCamera_outcome_witness :
  let env := bench_env ["D435-0001"] ["FM-0001"] in
  exists result w',
    createDevelopmentCamera env (configured_world env DEFAULT_CONFIG) = Some (result, w')
    /\ result <> Some (ExternalCamera FromD435Factory "d435" (Returns SUCCESS))
    /\ preferred_camera_type (config_ (factory w')) = "d435".
Proof.
  cbv zeta.
  destruct (createDevelopmentCamera_outcome (bench_env ["D435-0001"] ["FM-0001"])
              (configured_world (bench_env ["D435-0001"] ["FM-0001"]) DEFAULT_CONFIG))
    as (result & w' & Hrun & Hcamera & _ & _ & Hpreferred);
    [vm_compute; reflexivity | vm_compute; discriminate | cbv; lia |].
  exists result, w'. split; [exact Hrun|]. split; [|exact Hpreferred].
  intros ->. destruct (Hcamera _ eq_refl) as (source & validate & Heq & _).
  discriminate Heq.
Defined.

(** ** The error history as a window *)

Lemma most_recent_all {A} (n : nat) (history : list A) :
  (length history <= n)%nat -> most_recent n history = history.
Proof.
  intros H. unfold most_recent. replace (length history - n)%nat with 0%nat by lia.
  reflexivity.
Qed.

Lemma most_recent_length {A} (n : nat) (history : list A) :
  (length (most_recent n history) <= n)%nat.
Proof. unfold most_recent. rewrite length_skipn. lia. Qed.

Lemma most_recent_app {A} (n : nat) (history newer : list A) :
  most_recent n (most_recent n history ++ newer) = most_recent n (history ++ newer).
Proof.
  unfold most_recent. rewrite !length_app, length_skipn.
  destruct (Nat.le_gt_cases (length history) n) as [Hle|Hgt].
  - replace (length history - n)%nat with 0%nat by lia. cbn [skipn].
    now rewrite Nat.sub_0_r.
  - replace (length history - (length history - n) + length newer - n)%nat
      with (length newer) by lia.
    replace (length history + length newer - n)%nat
      with (length newer + (length history - n))%nat by lia.
    rewrite <- skipn_skipn. f_equal.
    rewrite skipn_app.
    replace (length history - n - length history)%nat with 0%nat by lia.
    reflexivity.
Qed.

Lemma addErrorMessage_window (message : string) (f : CameraFactory) :
  error_history_bounded f ->
  error_messages_ (after_addErrorMessage message f)
    = most_recent 100 (error_messages_ f ++ [message]).
Proof.
  unfold error_history_bounded. intros Hbound.
  unfold after_addErrorMessage. rewrite addErrorMessage_run.
  cbn [factory with_factory error_messages_ set_error_messages_].
  unfold most_recent. rewrite length_app. cbn [length].
  destruct (Nat.ltb_spec 100 (length (error_messages_ f) + 1)) as [Hfull|Hroom].
  - replace (length (error_messages_ f) + 1 - 100)%nat with 1%nat by lia.
    destruct (error_messages_ f ++ [message]); reflexivity.
  - replace (length (error_messages_ f) + 1 - 100)%nat with 0%nat by lia.
    reflexivity.
Qed.

(** However many messages are added one after the other, the error history
    afterwards is the newest hundred of the old history followed by the
    added messages, in their order; nothing else in the factory changes
    along the way. *)
Theorem error_history_is_a_window (messages : list string) (w : World) :
  error_history_bounded (factory w) ->
  exists w',
    for_each messages addErrorMessage w = Some (tt, w')
    /\ error_messages_ (factory w')
       = most_recent 100 (error_messages_ (factory w) ++ messages)
    /\ logger w' = logger w
    /\ config_ (factory w') = config_ (factory w)
    /\ detection_cache_ (factory w') = detection_cache_ (factory w).
Proof.
  revert w. induction messages as [|message rest IH]; intros w Hbound.
  - exists w. cbn [for_each]. split; [reflexivity|].
    rewrite app_nil_r, most_recent_all by exact Hbound. auto.
  - cbn [for_each]. unfold bind. rewrite after_addErrorMessage_run.
    pose proof (addErrorMessage_window message (factory w) Hbound) as Hone.
    destruct (IH (with_factory (after_addErrorMessage message) w)) as (w' & -> & Herrors & Hrest).
    + unfold error_history_bounded. cbn [with_factory factory]. rewrite Hone.
      apply most_recent_length.
    + exists w'. split; [reflexivity|]. split; [|exact Hrest].
      rewrite Herrors. cbn [with_factory factory]. rewrite Hone, most_recent_app.
      now rewrite <- app_assoc.
Qed.

Lemma error_history_is_a_window_witness :
  exists w',
    for_each ["first"; "second"] addErrorMessage lidar_world = Some (tt, w')
    /\ error_messages_ (factory w')
       = repeat "Unknown camera type: lidar" 98 ++ ["first"; "second"].
Proof.
  destruct (error_history_is_a_window ["first"; "second"] lidar_world)
    as (w' & Hrun & Herrors & _).
  - vm_compute. repeat constructor.
  - exists w'. split; [exact Hrun|]. rewrite Herrors. vm_compute. reflexivity.
Defined.

(** ** Construction *)

Lemma bind_run {A B} (m : M A) (k : A -> M B) (w w1 : World) (a : A) :
  m w = Some (a, w1) -> bind m k w = k a w1.
Proof. intros H. unfold bind. now rewrite H. Qed.

(** The compliance loop of [initialize]. *)
Lemma compliance_loop_run (detected : list HardwareDetectionResult) (w : World) :
  error_history_bounded (factory w) ->
  exists w',
    for_each detected
      (fun result =>
         if negb (checkMedicalCertification result) then
           modify_factory (set_medical_compliance_verified_ false) ;;;
           addErrorMessage ("Hardware " +++ camera_type result
                              +++ " does not meet medical device requirements")
         else ret tt) w = Some (tt, w')
    /\ medical_compliance_verified_ (factory w')
       = medical_compliance_verified_ (factory w) && forallb is_medical_grade detected
    /\ error_messages_ (factory w')
       = most_recent 100
           (error_messages_ (factory w)
              ++ map (fun r => "Hardware " +++ camera_type r
                                 +++ " does not meet medical device requirements")
                     (List.filter (fun r => negb (is_medical_grade r)) detected))
    /\ logger w' = logger w
    /\ config_ (factory w') = config_ (factory w)
    /\ simulation_mode_ (factory w') = simulation_mode_ (factory w)
    /\ detection_cache_valid_ (factory w') = detection_cache_valid_ (factory w).
Proof.
  revert w. induction detected as [|r rest IH]; intros w Hbound.
  - exists w. cbn. rewrite andb_true_r, app_nil_r, most_recent_all by exact Hbound.
    repeat split.
  - cbn [for_each forallb List.filter map].
    change (checkMedicalCertification r) with (is_medical_grade r).
    destruct (is_medical_grade r); cbn [negb].
    + unfold bind at 1. unfold ret at 1. destruct (IH w Hbound) as (w' & -> & Hflag & Herrors & Hrest).
      exists w'. split; [reflexivity|]. split; [exact Hflag|]. split; assumption.
    + unfold bind at 1 2. cbn [modify_factory]. rewrite after_addErrorMessage_run.
      match goal with
      | |- context [for_each rest ?body ?w1] =>
          destruct (IH w1) as (w' & -> & Hflag & Herrors & Hrest)
      end.
      * unfold error_history_bounded. cbn [with_factory factory].
        rewrite addErrorMessage_window by exact Hbound. apply most_recent_length.
      * exists w'. split; [reflexivity|].
        split; [rewrite Hflag; cbn; now rewrite andb_false_r|].
        split; [|exact Hrest].
        rewrite Herrors. cbn [with_factory factory].
        rewrite addErrorMessage_window by exact Hbound.
        cbn [set_medical_compliance_verified_ error_messages_].
        rewrite most_recent_app. cbn [map]. now rewrite <- app_assoc.
Qed.

(** Constructing the singleton runs one hardware detection under
    [DEFAULT_CONFIG] and does not cache it: the next [detectAllHardware]
    probes again. Compliance counts as verified exactly when no detected
    device lacks medical grade, in particular when nothing is detected, and
    the error history starts with one complaint per device that lacks it
    (the newest hundred of them). *)
Theorem getInstance_outcome (env : Environment) (logged : list LogRecord) :
  exists w0,
    getInstance env logged = Some (tt, w0)
    /\ config_ (factory w0) = DEFAULT_CONFIG
    /\ simulation_mode_ (factory w0) = false
    /\ detection_cache_valid_ (factory w0) = false
    /\ (forall later, ~ cache_usable later (factory w0))
    /\ detection_runs w0
       = S (detection_runs {| factory := CameraFactory_members; logger := logged |})
    /\ medical_compliance_verified_ (factory w0)
       = forallb is_medical_grade (hardware_records env)
    /\ (medical_compliance_verified_ (factory w0) = true <-> d435_records env = [])
    /\ error_messages_ (factory w0)
       = most_recent 100
           (map (fun r => "Hardware " +++ camera_type r
                            +++ " does not meet medical device requirements")
                (List.filter (fun r => negb (is_medical_grade r)) (hardware_records env))).
Proof.
  unfold getInstance, initialize.
  erewrite bind_run by reflexivity.
  cbn [factory CameraFactory_members is_initialized_ config_ DEFAULT_CONFIG
       enable_automatic_detection enable_medical_compliance_check].
  erewrite bind_run by apply log_run.
  erewrite bind_run by reflexivity.
  match goal with
  | |- context [bind (bind (performHardwareDetection env) ?k) ?k' ?w1] =>
      destruct (performHardwareDetection_run env w1) as (r1 & Hdetect & Hone);
      cbn [with_factory logged_more factory simulation_mode_ set_error_messages_
           detected_records] in Hdetect;
      match type of Hdetect with
      | _ = Some (_, ?w2) =>
          destruct (compliance_loop_run (hardware_records env)
                      (with_factory (set_medical_compliance_verified_ true)
                         (logged_more w2
                            [ {| log_level := INFO; log_component := "CameraFactory";
                                 log_message :=
                                   "Initial hardware detection found "
                                     +++ to_string (length (hardware_records env))
                                     +++ " cameras" |} ])))
            as (w3 & Hloop & Hflag & Herrors & Hlogger & Hconfig & Hmode & Hvalid);
          [unfold error_history_bounded; cbn; lia|]
      end
  end.
  erewrite (bind_run (_ ;;; _)).
  2:{ erewrite bind_run by exact Hdetect.
      erewrite bind_run by apply log_run.
      erewrite bind_run by reflexivity.
      exact Hloop. }
  erewrite bind_run by reflexivity. rewrite log_run.
  eexists. split; [reflexivity|].
  cbn [logged_more with_factory factory set_is_initialized_ config_ simulation_mode_
       detection_cache_valid_ medical_compliance_verified_ error_messages_].
  cbn in Hflag, Herrors, Hconfig, Hmode, Hvalid, Hlogger.
  split; [exact Hconfig|]. split; [exact Hmode|]. split; [exact Hvalid|].
  split.
  { intros later [Hv _]. cbn in Hv. rewrite Hvalid in Hv. discriminate Hv. }
  split.
  { unfold detection_runs, logged_more, with_factory. cbn [logger]. rewrite Hlogger.
    rewrite !List.filter_app, !length_app.
    cbn [List.filter is_detection_record log_level length].
    rewrite Hone. cbn. lia. }
  split; [exact Hflag|]. split; [|exact Herrors].
  rewrite Hflag. unfold hardware_records. rewrite forallb_app.
  assert (Hfemto : forallb is_medical_grade (femto_mega_records env) = true).
  { unfold femto_mega_records.
    destruct (THERAPY_DEVICE_HAS_ORBBEC env); [|reflexivity].
    destruct (femto_mega_detectConnectedCameras env) as [ids|]; [|reflexivity].
    induction ids; [reflexivity | exact IHids]. }
  rewrite Hfemto, andb_true_r.
  destruct (d435_records env) as [|r l] eqn:Hd435; [split; reflexivity|].
  assert (Hr : is_medical_grade r = false)
    by (apply (d435_records_not_medical env); rewrite Hd435; now left).
  cbn [forallb]. rewrite Hr. split; discriminate.
Qed.

(** ** Connected cameras and detected hardware *)

Lemma map_serial_d435 (ids : list string) :
  map serial_number (map d435_record ids) = ids.
Proof. induction ids as [|id ids IH]; [reflexivity|]. cbn [map]. now rewrite IH. Qed.

Lemma map_serial_femto_mega (ids : list string) :
  map serial_number (map femto_mega_record ids) = ids.
Proof. induction ids as [|id ids IH]; [reflexivity|]. cbn [map]. now rewrite IH. Qed.

Lemma map_type_d435 (ids : list string) :
  map camera_type (map d435_record ids) = repeat "d435" (length ids).
Proof. induction ids as [|id ids IH]; [reflexivity|]. cbn [map length repeat]. now rewrite IH. Qed.

Lemma map_type_femto_mega (ids : list string) :
  map camera_type (map femto_mega_record ids) = repeat "femto_mega" (length ids).
Proof. induction ids as [|id ids IH]; [reflexivity|]. cbn [map length repeat]. now rewrite IH. Qed.

(** With both vendor SDKs compiled in and both probes answering, the two
    detection entry points agree: [detectConnectedCameras] returns the
    stereo-IR identifiers followed by the structured-light ones, and a
    fresh [detectAllHardware] returns one record per identifier, in that
    order and with that identifier as serial number. *)
Theorem detection_agrees_with_connected_cameras (env : Environment) (w : World)
    (d435_ids femto_ids : list string) :
  simulation_mode_ (factory w) = false ->
  THERAPY_DEVICE_HAS_REALSENSE env = true ->
  THERAPY_DEVICE_HAS_ORBBEC env = true ->
  d435_detectConnectedCameras env = Returns d435_ids ->
  femto_mega_detectConnectedCameras env = Returns femto_ids ->
  ~ cache_usable env (factory w) ->
  result_of (detectConnectedCameras env) w = Some (d435_ids ++ femto_ids)
  /\ exists records,
       result_of (detectAllHardware env) w = Some records
       /\ map serial_number records = d435_ids ++ femto_ids
       /\ map camera_type records
          = repeat "d435" (length d435_ids) ++ repeat "femto_mega" (length femto_ids).
Proof.
  intros Hsim Hrealsense Horbbec Hd435 Hfemto Hcache. split.
  - unfold result_of, detectConnectedCameras.
    erewrite bind_run by apply log_run. erewrite bind_run by reflexivity.
    cbn [logged_more factory]. rewrite Hsim, Hd435, Hfemto. cbv zeta.
    erewrite bind_run by apply log_run. reflexivity.
  - destruct (detectAllHardware_fresh env w Hcache) as (records & Hrun & _).
    cbv zeta in Hrun. unfold result_of. rewrite Hrun.
    eexists. split; [reflexivity|].
    rewrite Hsim. unfold detected_records, hardware_records, d435_records,
      femto_mega_records.
    rewrite Hrealsense, Horbbec, Hd435, Hfemto, !map_app.
    rewrite map_serial_d435, map_serial_femto_mega, map_type_d435, map_type_femto_mega.
    split; reflexivity.
Qed.

Lemma detection_agrees_with_connected_cameras_witness :
  let env := bench_env ["D435-0001"; "D435-0002"] ["FM-0001"] in
  result_of (detectConnectedCameras env) (configured_world env DEFAULT_CONFIG)
  = Some ["D435-0001"; "D435-0002"; "FM-0001"].
Proof.
  cbv zeta.
  set (env := bench_env ["D435-0001"; "D435-0002"] ["FM-0001"]).
  set (w := configured_world env DEFAULT_CONFIG).
  assert (Hsim : simulation_mode_ (factory w) = false) by (vm_compute; reflexivity).
  assert (Hcache : ~ cache_usable env (factory w))
    by (intros [Hvalid _]; vm_compute in Hvalid; discriminate Hvalid).
  exact (proj1 (detection_agrees_with_connected_cameras env w
                  ["D435-0001"; "D435-0002"] ["FM-0001"]
                  Hsim eq_refl eq_refl eq_refl eq_refl Hcache)).
Defined.

(** A throwing stereo-IR probe is handled in two different ways.
    [detectConnectedCameras] stops there: it returns no identifier at all,
    without asking the structured-light probe, and adds the failure to the
    error history. [performHardwareDetection] goes on: it still returns the
    structured-light records and leaves the factory, error history
    included, untouched. *)
Theorem d435_probe_failure (env : Environment) (w : World) (what : string) :
  simulation_mode_ (factory w) = false ->
  d435_detectConnectedCameras env = Throws what ->
  (exists w',
     detectConnectedCameras env w = Some ([], w')
     /\ factory w'
        = after_addErrorMessage ("Camera detection failed: " +++ what) (factory w))
  /\ (exists records,
        performHardwareDetection env w
          = Some (femto_mega_records env, logged_more w records)).
Proof.
  intros Hsim Hd435. split.
  - unfold detectConnectedCameras.
    erewrite bind_run by apply log_run. erewrite bind_run by reflexivity.
    cbn [logged_more factory]. rewrite Hsim, Hd435. cbv zeta.
    erewrite bind_run by apply log_run.
    erewrite bind_run by apply after_addErrorMessage_run.
    eexists. split; reflexivity.
  - destruct (performHardwareDetection_run env w) as (records & Hrun & _).
    exists records. rewrite Hrun, Hsim.
    unfold detected_records, hardware_records, d435_records. rewrite Hd435.
    now destruct (THERAPY_DEVICE_HAS_REALSENSE env).
Qed.

Lemma d435_probe_failure_witness :
  let env := d435_probe_throws "usb reset" (bench_env [] ["FM-0001"]) in
  let w := configured_world (bench_env [] ["FM-0001"]) DEFAULT_CONFIG in
  result_of (detectConnectedCameras env) w = Some []
  /\ result_of (performHardwareDetection env) w = Some [femto_mega_record "FM-0001"].
Proof.
  cbv zeta.
  destruct (d435_probe_failure
              (d435_probe_throws "usb reset" (bench_env [] ["FM-0001"]))
              (configured_world (bench_env [] ["FM-0001"]) DEFAULT_CONFIG) "usb reset")
    as [(w' & Hconnected & _) (records & Hdetected)];
    [vm_compute; reflexivity | reflexivity |].
  unfold result_of. rewrite Hconnected, Hdetected. split; reflexivity.
Defined.

(** ** Available camera types *)

Section StdSortOrder.
Context {A : Type} (comp : A -> A -> bool) (lt : A -> A -> Prop).

(** [comp] decides a strict total order. *)
Hypothesis comp_lt : forall a b, comp a b = true <-> lt a b.
Hypothesis lt_trans : forall a b c, lt a b -> lt b c -> lt a c.
Hypothesis lt_irrefl : forall a, ~ lt a a.
Hypothesis lt_total : forall a b, lt a b \/ a = b \/ lt b a.

Lemma not_lt_trans (a b c : A) : ~ lt b a -> ~ lt c b -> ~ lt c a.
Proof.
  intros Hab Hbc Hca.
  destruct (lt_total a b) as [H|[->|H]]; [|contradiction|contradiction].
  apply Hbc. now apply (lt_trans c a b).
Qed.

Lemma lt_not_lt (a b : A) : lt a b -> ~ lt b a.
Proof. intros Hab Hba. apply (lt_irrefl a). now apply (lt_trans a b a). Qed.

Lemma unguarded_linear_insert_ordered (val : A) (rprefix : list A) :
  StronglySorted (fun x y => ~ lt x y) rprefix ->
  StronglySorted (fun x y => ~ lt x y) (unguarded_linear_insert comp val rprefix).
Proof.
  intros Hsorted. induction rprefix as [|next rest IH]; simpl; [repeat constructor|].
  apply StronglySorted_inv in Hsorted. destruct Hsorted as [Hsorted Hall].
  destruct (comp val next) eqn:Hcomp.
  - apply comp_lt in Hcomp. constructor; [now apply IH|].
    rewrite Forall_forall. intros x Hx. apply list_elem_of_In in Hx.
    apply (Permutation_in _ (unguarded_linear_insert_Permutation comp val rest)) in Hx.
    destruct Hx as [<-|Hx]; [now apply lt_not_lt|].
    rewrite Forall_forall in Hall. apply Hall. now apply list_elem_of_In.
  - assert (Hvn : ~ lt val next) by (rewrite <- comp_lt, Hcomp; discriminate).
    constructor; [now constructor|]. constructor; [exact Hvn|].
    eapply Forall_impl; [exact Hall|]. cbn. intros x Hx.
    now apply (not_lt_trans x next val).
Qed.

Lemma insertion_step_ordered (prefix : list A) (i : A) :
  StronglySorted (fun x y => ~ lt y x) prefix ->
  StronglySorted (fun x y => ~ lt y x) (insertion_step comp prefix i).
Proof.
  intros Hsorted. unfold insertion_step.
  destruct prefix as [|first tail]; [repeat constructor|].
  destruct (comp i first) eqn:Hcomp.
  - apply comp_lt in Hcomp. constructor; [exact Hsorted|].
    constructor; [now apply lt_not_lt|].
    apply StronglySorted_inv in Hsorted. destruct Hsorted as [_ Hall].
    eapply Forall_impl; [exact Hall|]. cbn. intros x Hx.
    apply (not_lt_trans i first x); [now apply lt_not_lt | exact Hx].
  - apply (StronglySorted_rev_flip (fun x y => ~ lt x y)).
    apply unguarded_linear_insert_ordered.
    apply (StronglySorted_rev_flip (fun x y => ~ lt y x)). exact Hsorted.
Qed.

Lemma std_sort_ordered (range : list A) :
  StronglySorted (fun x y => ~ lt y x) (std_sort comp range).
Proof.
  destruct range as [|first rest]; [constructor|]. unfold std_sort.
  assert (Hgen : forall prefix,
    StronglySorted (fun x y => ~ lt y x) prefix ->
    StronglySorted (fun x y => ~ lt y x) (fold_left (insertion_step comp) rest prefix)).
  { induction rest as [|x rest IH]; intros prefix Hs; simpl; [exact Hs|].
    apply IH. now apply insertion_step_ordered. }
  apply Hgen. repeat constructor.
Qed.

End StdSortOrder.

Lemma String_ltb_lt (a b : string) : String.ltb a b = true <-> String_as_OT.lt a b.
Proof.
  rewrite <- String_as_OT.cmp_lt. unfold String.ltb, String_as_OT.cmp.
  destruct (String.compare a b); split; intros H; congruence.
Qed.

Lemma String_lt_total (a b : string) :
  String_as_OT.lt a b \/ a = b \/ String_as_OT.lt b a.
Proof.
  destruct (String.compare a b) eqn:Hcmp.
  - right. left. now apply String_as_OT.cmp_eq.
  - left. now apply String_as_OT.cmp_lt.
  - right. right. apply String_as_OT.cmp_lt. unfold String_as_OT.cmp.
    rewrite String.compare_antisym, Hcmp. reflexivity.
Qed.

Lemma String_lt_irrefl (a : string) : ~ String_as_OT.lt a a.
Proof. intros H. exact (String_as_OT.lt_not_eq a a H eq_refl). Qed.

Lemma std_unique_In (l : list string) (x : string) : In x (std_unique l) <-> In x l.
Proof.
  induction l as [|a rest IH]; [reflexivity|].
  destruct rest as [|b rest']; [reflexivity|].
  change (std_unique (a :: b :: rest'))
    with (if String.eqb a b then std_unique (b :: rest') else a :: std_unique (b :: rest')).
  destruct (String.eqb_spec a b) as [->|Hne].
  - rewrite IH. cbn [In]. tauto.
  - cbn [In] in *. rewrite IH. tauto.
Qed.

(** Removing the neighbouring duplicates of an ordered list leaves a
    strictly increasing one. *)
Lemma std_unique_increasing (l : list string) :
  StronglySorted (fun x y => ~ String_as_OT.lt y x) l ->
  StronglySorted String_as_OT.lt (std_unique l).
Proof.
  induction l as [|a rest IH]; intros Hsorted; [constructor|].
  apply StronglySorted_inv in Hsorted. destruct Hsorted as [Hrest Hall].
  destruct rest as [|b rest']; [repeat constructor|].
  change (std_unique (a :: b :: rest'))
    with (if String.eqb a b then std_unique (b :: rest') else a :: std_unique (b :: rest')).
  destruct (String.eqb_spec a b) as [->|Hne]; [now apply IH|].
  constructor; [now apply IH|].
  rewrite Forall_forall. intros z Hz.
  apply list_elem_of_In in Hz. rewrite std_unique_In in Hz.
  assert (Hab : String_as_OT.lt a b).
  { apply Forall_inv in Hall. destruct (String_lt_total a b) as [H|[H|H]]; tauto. }
  destruct Hz as [<-|Hz]; [exact Hab|].
  apply StronglySorted_inv in Hrest. destruct Hrest as [_ Hb].
  rewrite Forall_forall in Hb. specialize (Hb z (proj2 (list_elem_of_In _ _) Hz)).
  destruct (String_lt_total b z) as [H|[<-|H]]; [|exact Hab|contradiction].
  now apply (String_as_OT.lt_trans a b z).
Qed.

Lemma StronglySorted_lt_NoDup (l : list string) :
  StronglySorted String_as_OT.lt l -> NoDup l.
Proof.
  induction 1 as [|a l Hsorted IH Hall]; [constructor|].
  apply NoDup_cons_2; [|exact IH].
  intros Hin. rewrite Forall_forall in Hall. exact (String_lt_irrefl a (Hall a Hin)).
Qed.

(** [getAvailableCameraTypes] changes nothing and returns a strictly
    increasing list, so one without duplicates, of exactly the offered
    names: the registered custom types together with, in simulation mode,
    ["d435_sim"] and ["femto_mega_sim"] and, outside it, whatever the two
    sub-factories list. *)
Theorem getAvailableCameraTypes_sorted_set (env : Environment) (w : World) :
  exists types,
    getAvailableCameraTypes env w = Some (types, w)
    /\ StronglySorted String_as_OT.lt types
    /\ NoDup types
    /\ forall t,
         In t types <->
         (if simulation_mode_ (factory w)
          then t = "d435_sim" \/ t = "femto_mega_sim"
          else In t (d435_getAvailableCameraTypes env)
               \/ In t (femto_mega_getAvailableCameraTypes env))
         \/ is_Some (custom_factories_ (factory w) !! t).
Proof.
  exists (std_unique
            (std_sort String.ltb
               ((if negb (simulation_mode_ (factory w))
                 then d435_getAvailableCameraTypes env
                        ++ femto_mega_getAvailableCameraTypes env
                 else [])
                ++ std_sort String.ltb
                     (map fst (map_to_list (custom_factories_ (factory w))))
                ++ (if simulation_mode_ (factory w)
                    then ["d435_sim"; "femto_mega_sim"] else [])))).
  split; [reflexivity|].
  assert (Hsorted : forall l, StronglySorted String_as_OT.lt
                                (std_unique (std_sort String.ltb l))).
  { intros l. apply std_unique_increasing.
    apply (std_sort_ordered String.ltb String_as_OT.lt).
    - apply String_ltb_lt.
    - apply String_as_OT.lt_trans.
    - apply String_lt_irrefl.
    - apply String_lt_total. }
  split; [apply Hsorted|]. split; [apply StronglySorted_lt_NoDup, Hsorted|].
  intros t.
  assert (Hcustom : In t (map fst (map_to_list (custom_factories_ (factory w))))
                    <-> is_Some (custom_factories_ (factory w) !! t)).
  { rewrite in_map_iff. split.
    - intros ([k v] & <- & Hin). apply list_elem_of_In, elem_of_map_to_list in Hin.
      cbn. eauto.
    - intros [v Hv]. exists (t, v). split; [reflexivity|].
      now apply list_elem_of_In, elem_of_map_to_list. }
  destruct (simulation_mode_ (factory w)); cbn [negb];
    rewrite std_unique_In, std_sort_In, !in_app_iff, std_sort_In, Hcustom;
    cbn [In]; intuition (subst; auto).
Qed.
